(** * RaceLog: referential integrity of the JSON record store

    A shallow embedding of the request handlers of [server.js] that read
    and write the per-entity JSON collections, and the properties of the
    data-integrity layer proved (or refuted) about them.

    Conventions of the embedding.
    - A JSON value is a [jval]; the value of a JavaScript expression
      [o.k] is an [option jval], where [None] stands for [undefined].
      Numbers are restricted to integers.
    - A stored record (a JSON object at the top level of a collection) is
      a finite map from property names to values.  Since every record goes
      through [JSON.stringify], writing [undefined] to a property is the
      same as removing it.
    - The data directory is a [store]: one list of records per file.
      [readJsonFile] and [writeJsonFile] are the projections and updates
      of that record; first-access seeding and parse errors are outside the
      model.
    - A JavaScript object used as a map from ids to ids ([carIdMap],
      [trackIdMap], [sessionIdMap]) is an [idmap]: its own properties and
      its prototype.  It is created as [{}], so reading a key it does not
      own reaches [Object.prototype], and assigning to [__proto__] calls
      the setter found there.
    - A handler is a function from the request and the store to a
      [response] and the store it leaves behind. *)

From stdpp Require Import gmap strings list fin_maps pretty.

Local Open Scope string_scope.
Local Open Scope list_scope.
Local Set Warnings "-register-all,-clear-no-such-hyp".

(** ** JSON values and the JavaScript operators used by the handlers *)

Inductive jval :=
  | JNull
  | JBool (b : bool)
  | JNum (n : Z)
  | JStr (s : string)
  | JArr (l : list jval)
  | JObj (o : list (string * jval)).

Abbreviation obj := (gmap string jval).

(** [String.prototype.length > 0] on a string. *)
Definition nonempty (s : string) : bool :=
  match s with EmptyString => false | _ => true end.

(** [s.length]: the number of UTF-16 code units of a string, which the
    model holds as UTF-8 bytes.  Every byte that starts a character counts
    for one, and the first byte of a character of four bytes for two, since
    such a character takes a surrogate pair. *)
Fixpoint utf16_length (s : string) : nat :=
  match s with
  | EmptyString => 0
  | String c rest =>
      let n := Ascii.nat_of_ascii c in
      ((if (n <? 128) || (192 <=? n) then 1 else 0) + (if 240 <=? n then 1 else 0)
       + utf16_length rest)%nat
  end.

(** Truthiness: [undefined], [null], [false], [0] and [''] are falsy. *)
Definition truthy (v : option jval) : bool :=
  match v with
  | None | Some JNull => false
  | Some (JBool b) => b
  | Some (JNum n) => negb (n =? 0)%Z
  | Some (JStr s) => nonempty s
  | Some (JArr _) | Some (JObj _) => true
  end.

(** [a === b] (and the SameValueZero of [includes] and [Set.has]) between
    two values that come from different JSON documents: primitives are
    compared by value, arrays and objects are distinct references. *)
Definition strict_eq (a b : option jval) : bool :=
  match a, b with
  | None, None => true
  | Some JNull, Some JNull => true
  | Some (JBool x), Some (JBool y) => Bool.eqb x y
  | Some (JNum x), Some (JNum y) => (x =? y)%Z
  | Some (JStr x), Some (JStr y) => String.eqb x y
  | _, _ => false
  end.

(** [a || b] *)
Definition js_or (a b : option jval) : option jval :=
  if truthy a then a else b.

(** [a ?? b] *)
Definition nullish (a b : option jval) : option jval :=
  match a with
  | None | Some JNull => b
  | _ => a
  end.

(** [arr.includes(v)] *)
Definition includes (arr : list (option jval)) (v : option jval) : bool :=
  existsb (fun x => strict_eq x v) arr.

(** [{ ...o, k: v }] as it is persisted. *)
Definition set_prop (k : string) (v : option jval) (o : obj) : obj :=
  match v with
  | Some x => <[k := x]> o
  | None => delete k o
  end.

(** [{ ...a, ...b }]: the properties of [b] win. *)
Definition spread (a b : obj) : obj := b ∪ a.

(** [String(v)], the coercion applied to a value used as a property key. *)
Fixpoint to_String (v : jval) : string :=
  match v with
  | JNull => "null"
  | JBool true => "true"
  | JBool false => "false"
  | JNum n => pretty n
  | JStr s => s
  | JArr l =>
      String.concat ","
        (List.map (fun x => match x with JNull => "" | _ => to_String x end) l)
  | JObj _ => "[object Object]"
  end.

Definition prop_key (v : option jval) : string :=
  match v with
  | None => "undefined"
  | Some x => to_String x
  end.

(** [arr.findIndex(p)]; [None] is [-1]. *)
Fixpoint findIndex {A} (p : A → bool) (l : list A) : option nat :=
  match l with
  | [] => None
  | x :: l' => if p x then Some 0 else S <$> findIndex p l'
  end.

(** [arr.splice(i, 1)] *)
Definition splice1 {A} (i : nat) (l : list A) : list A :=
  take i l ++ drop (S i) l.

(** ** The record store *)

Inductive file :=
  | cars_json | setups_json | tracks_json | sessions_json
  | corner_notes_json | track_notes_json | maintenance_json | users_json.

Record store := Store {
  cars : list obj;
  setups : list obj;
  tracks : list obj;
  sessions : list obj;
  cornerNotes : list obj;
  trackNotes : list obj;
  maintenance : list obj;
  users : list obj
}.

Definition readJsonFile (f : file) (st : store) : list obj :=
  match f with
  | cars_json => cars st
  | setups_json => setups st
  | tracks_json => tracks st
  | sessions_json => sessions st
  | corner_notes_json => cornerNotes st
  | track_notes_json => trackNotes st
  | maintenance_json => maintenance st
  | users_json => users st
  end.

Definition writeJsonFile (f : file) (data : list obj) (st : store) : store :=
  match f with
  | cars_json => Store data (setups st) (tracks st) (sessions st) (cornerNotes st) (trackNotes st) (maintenance st) (users st)
  | setups_json => Store (cars st) data (tracks st) (sessions st) (cornerNotes st) (trackNotes st) (maintenance st) (users st)
  | tracks_json => Store (cars st) (setups st) data (sessions st) (cornerNotes st) (trackNotes st) (maintenance st) (users st)
  | sessions_json => Store (cars st) (setups st) (tracks st) data (cornerNotes st) (trackNotes st) (maintenance st) (users st)
  | corner_notes_json => Store (cars st) (setups st) (tracks st) (sessions st) data (trackNotes st) (maintenance st) (users st)
  | track_notes_json => Store (cars st) (setups st) (tracks st) (sessions st) (cornerNotes st) data (maintenance st) (users st)
  | maintenance_json => Store (cars st) (setups st) (tracks st) (sessions st) (cornerNotes st) (trackNotes st) data (users st)
  | users_json => Store (cars st) (setups st) (tracks st) (sessions st) (cornerNotes st) (trackNotes st) (maintenance st) data
  end.

(** ** The export envelope and the count summaries *)

(** [exportData]: [cars] and [tracks] are always present in an export, the
    other categories only when asked for. *)
Record export_data := ExportData {
  d_cars : option (list obj);
  d_tracks : option (list obj);
  d_setups : option (list obj);
  d_sessions : option (list obj);
  d_cornerNotes : option (list obj);
  d_trackNotes : option (list obj);
  d_maintenance : option (list obj);
  d_trackImages : option (list obj)
}.

Record envelope := Envelope {
  version : option jval;
  exportDate : option jval;
  appName : option jval;
  data : option export_data
}.

Record import_summary := ImportSummary {
  carsImported : nat; carsSkipped : nat;
  tracksImported : nat; tracksSkipped : nat;
  setupsImported : nat; setupsSkipped : nat;
  sessionsImported : nat; sessionsSkipped : nat;
  cornerNotesImported : nat;
  trackNotesImported : nat; trackNotesSkipped : nat;
  maintenanceImported : nat; maintenanceSkipped : nat
}.

Record delete_summary := DeleteSummary {
  carsDeleted : nat;
  tracksDeleted : nat;
  setupsDeleted : nat;
  sessionsDeleted : nat;
  cornerNotesDeleted : nat;
  trackNotesDeleted : nat;
  maintenanceDeleted : nat
}.

(** ** Responses *)

Inductive body :=
  | BError (msg : string)
  | BMessage (msg : string)
  | BRecord (r : obj)
  | BEnvelope (e : envelope)
  | BImported (s : import_summary)
  | BDeleted (s : delete_summary)
  | BEmpty.

Record response := Response { status : nat; payload : body }.

Definition error (code : nat) (msg : string) : response := Response code (BError msg).

(** An exception escapes the handler (a method called on a value that
    does not have it).  Express answers 500 for a synchronous route; nothing
    more is written to the store. *)
Definition thrown : response := error 500 "TypeError".

(** The error kinds of the operation contract, by status code. *)
Definition NotFound (r : response) : Prop := status r = 404.
Definition ValidationError (r : response) : Prop := status r = 400.
Definition AuthenticationError (r : response) : Prop := status r = 401.

(** Property access with the names of the source. *)
Definition id_of (r : obj) : option jval := r !! "id".
Definition userId_of (r : obj) : option jval := r !! "userId".
Definition carId_of (r : obj) : option jval := r !! "carId".
Definition trackId_of (r : obj) : option jval := r !! "trackId".
Definition sessionId_of (r : obj) : option jval := r !! "sessionId".

Definition str (s : string) : option jval := Some (JStr s).

(** [x => x.id === req.params.id && x.userId === req.session.userId] *)
Definition own_with_id (rid uid : string) (x : obj) : bool :=
  strict_eq (id_of x) (str rid) && strict_eq (userId_of x) (str uid).

(** [x => x.userId === userId] *)
Definition owned (uid : string) (x : obj) : bool :=
  strict_eq (userId_of x) (str uid).

(** ** Single-record routes

    [GET /api/<kind>/:id]: the seven routes differ in the file and the
    message only. *)
Definition get_one (f : file) (msg : string) (uid rid : string) (st : store)
  : response * store :=
  match List.find (own_with_id rid uid) (readJsonFile f st) with
  | None => (error 404 msg, st)
  | Some r => (Response 200 (BRecord r), st)
  end.

Definition get_car := get_one cars_json "Car not found".
Definition get_setup := get_one setups_json "Setup not found".
Definition get_track := get_one tracks_json "Track not found".
Definition get_track_note := get_one track_notes_json "Track note not found".
Definition get_corner_note := get_one corner_notes_json "Corner note not found".
Definition get_session := get_one sessions_json "Session not found".
Definition get_maintenance := get_one maintenance_json "Maintenance task not found".

(** [PUT] with a field list: [k: req.body.k ?? stored.k] for each listed
    [k], over [...stored]. *)
Definition merge_fields (fields : list string) (reqBody stored : obj) : obj :=
  fold_left (fun acc k => set_prop k (nullish (reqBody !! k) (stored !! k)) acc)
            fields stored.

(** [PUT] with a spread:
    [{ ...stored, ...req.body, id: stored.id, userId: stored.userId }]. *)
Definition merge_spread (reqBody stored : obj) : obj :=
  set_prop "userId" (userId_of stored)
    (set_prop "id" (id_of stored) (spread stored reqBody)).

(** The common shape of the synchronous [PUT] routes. *)
Definition put_one (f : file) (msg : string) (merge : obj → obj → obj)
    (uid rid : string) (reqBody : obj) (st : store) : response * store :=
  let records := readJsonFile f st in
  match findIndex (own_with_id rid uid) records with
  | None => (error 404 msg, st)
  | Some index =>
      match records !! index with
      | None => (error 404 msg, st)
      | Some stored =>
          let updated := merge reqBody stored in
          (Response 200 (BRecord updated),
           writeJsonFile f (<[index := updated]> records) st)
      end
  end.

Definition car_fields : list string := ["name"; "manufacturer"; "series"].
Definition track_note_fields : list string := ["carId"; "trackId"; "notes"].
Definition session_fields : list string :=
  ["type"; "name"; "date"; "trackConditions"; "tyrePressures"; "frontARB";
   "rearARB"; "brakeBias"; "setupComments"; "focusAreas"; "bestLaptime";
   "idealLaptime"; "series"].

Definition put_car := put_one cars_json "Car not found" (merge_fields car_fields).
Definition put_setup := put_one setups_json "Setup not found" merge_spread.
Definition put_track_note :=
  put_one track_notes_json "Track note not found" (merge_fields track_note_fields).
Definition put_session :=
  put_one sessions_json "Session not found" (merge_fields session_fields).
Definition put_maintenance :=
  put_one maintenance_json "Maintenance task not found" merge_spread.

(** [DELETE] without a cascade: setups, track notes, corner notes and
    maintenance tasks. *)
Definition delete_one (f : file) (msg : string) (uid rid : string) (st : store)
  : response * store :=
  let records := readJsonFile f st in
  match findIndex (own_with_id rid uid) records with
  | None => (error 404 msg, st)
  | Some index => (Response 204 BEmpty, writeJsonFile f (splice1 index records) st)
  end.

Definition delete_setup := delete_one setups_json "Setup not found".
Definition delete_track_note := delete_one track_notes_json "Track note not found".
Definition delete_corner_note := delete_one corner_notes_json "Corner note not found".
Definition delete_maintenance := delete_one maintenance_json "Maintenance task not found".

(** [x => !(x.<fk> === req.params.id && x.userId === req.session.userId)] *)
Definition not_child (fk : string) (rid uid : string) (x : obj) : bool :=
  negb (strict_eq (x !! fk) (str rid) && strict_eq (userId_of x) (str uid)).

(** [DELETE /api/cars/:id] *)
Definition delete_car (uid rid : string) (st : store) : response * store :=
  let cars := readJsonFile cars_json st in
  match findIndex (own_with_id rid uid) cars with
  | None => (error 404 "Car not found", st)
  | Some index =>
      let st := writeJsonFile cars_json (splice1 index cars) st in
      let setups := List.filter (not_child "carId" rid uid) (readJsonFile setups_json st) in
      let st := writeJsonFile setups_json setups st in
      let trackNotes := List.filter (not_child "carId" rid uid) (readJsonFile track_notes_json st) in
      let st := writeJsonFile track_notes_json trackNotes st in
      let maintenance := List.filter (not_child "carId" rid uid) (readJsonFile maintenance_json st) in
      let st := writeJsonFile maintenance_json maintenance st in
      (Response 204 BEmpty, st)
  end.

(** [s => (s.trackId === id && s.userId === uid) ? { ...s, trackId: null } : s] *)
Definition clear_track (rid uid : string) (s : obj) : obj :=
  if strict_eq (trackId_of s) (str rid) && strict_eq (userId_of s) (str uid)
  then set_prop "trackId" (Some JNull) s
  else s.

(** [DELETE /api/tracks/:id] *)
Definition delete_track (uid rid : string) (st : store) : response * store :=
  let tracks := readJsonFile tracks_json st in
  match findIndex (own_with_id rid uid) tracks with
  | None => (error 404 "Track not found", st)
  | Some index =>
      let st := writeJsonFile tracks_json (splice1 index tracks) st in
      let trackNotes := List.filter (not_child "trackId" rid uid) (readJsonFile track_notes_json st) in
      let st := writeJsonFile track_notes_json trackNotes st in
      let setups := List.map (clear_track rid uid) (readJsonFile setups_json st) in
      let st := writeJsonFile setups_json setups st in
      (Response 204 BEmpty, st)
  end.

(** [DELETE /api/sessions/:id] *)
Definition delete_session (uid rid : string) (st : store) : response * store :=
  let sessions := readJsonFile sessions_json st in
  match findIndex (own_with_id rid uid) sessions with
  | None => (error 404 "Session not found", st)
  | Some index =>
      let st := writeJsonFile sessions_json (splice1 index sessions) st in
      let cornerNotes := List.filter (not_child "sessionId" rid uid) (readJsonFile corner_notes_json st) in
      let st := writeJsonFile corner_notes_json cornerNotes st in
      (Response 204 BEmpty, st)
  end.

(** ** Routes that call out of the process

    The collaborators are parameters: the UUID generator (the sequence of
    identifiers it yields during one request), [bcrypt.compare] ([None]:
    the promise is rejected) and the image download ([None]: it failed). *)
Section Routes.

Variable uuidv4 : nat → string.
Variable bcrypt_compare : option jval → option jval → option bool.
Variable downloadTrackImage : string → string → option string.

(** [PUT /api/tracks/:id] *)
Definition put_track (uid rid : string) (reqBody : obj) (st : store)
  : response * store :=
  let tracks := readJsonFile tracks_json st in
  match findIndex (own_with_id rid uid) tracks with
  | None => (error 404 "Track not found", st)
  | Some index =>
      match tracks !! index with
      | None => (error 404 "Track not found", st)
      | Some stored =>
          let requested := reqBody !! "imageUrl" in
          let kept := nullish requested (stored !! "imageUrl") in
          let imageUrl :=
            if truthy requested then
              match requested with
              | Some (JStr url) =>
                  if negb (String.prefix "/images/" url)
                     && negb (strict_eq requested (stored !! "imageUrl"))
                  then match downloadTrackImage url rid with
                       | Some localUrl => Some (str localUrl)
                       | None => Some requested
                       end
                  else Some kept
              | _ => None
              end
            else Some kept in
          match imageUrl with
          | None => (thrown, st)
          | Some imageUrl =>
              let updated :=
                set_prop "circuitNotes"
                  (nullish (nullish (reqBody !! "circuitNotes") (stored !! "circuitNotes")) (str ""))
                (set_prop "corners"
                  (nullish (nullish (reqBody !! "corners") (stored !! "corners")) (Some (JArr [])))
                (set_prop "imageUrl" imageUrl
                (merge_fields ["name"; "location"; "length"] reqBody stored))) in
              (Response 200 (BRecord updated),
               writeJsonFile tracks_json (<[index := updated]> tracks) st)
          end
      end
  end.

(** [x => x.userId !== userId] *)
Definition not_owned (uid : string) (x : obj) : bool := negb (owned uid x).

(** [DELETE /api/user] *)
Definition delete_user (uid : string) (reqBody : obj) (st : store)
  : response * store :=
  let password := reqBody !! "password" in
  if negb (truthy password) then
    (error 400 "Password is required to delete account", st)
  else
    let users := readJsonFile users_json st in
    match List.find (fun u => strict_eq (id_of u) (str uid)) users with
    | None => (error 404 "User not found", st)
    | Some user =>
        match bcrypt_compare password (user !! "passwordHash") with
        | None => (error 500 "Error deleting account", st)
        | Some false => (error 401 "Password is incorrect", st)
        | Some true =>
            let st := writeJsonFile cars_json (List.filter (not_owned uid) (readJsonFile cars_json st)) st in
            let st := writeJsonFile setups_json (List.filter (not_owned uid) (readJsonFile setups_json st)) st in
            let st := writeJsonFile tracks_json (List.filter (not_owned uid) (readJsonFile tracks_json st)) st in
            let st := writeJsonFile sessions_json (List.filter (not_owned uid) (readJsonFile sessions_json st)) st in
            let st := writeJsonFile corner_notes_json (List.filter (not_owned uid) (readJsonFile corner_notes_json st)) st in
            let st := writeJsonFile track_notes_json (List.filter (not_owned uid) (readJsonFile track_notes_json st)) st in
            let st := writeJsonFile maintenance_json (List.filter (not_owned uid) (readJsonFile maintenance_json st)) st in
            let updatedUsers := List.filter (fun u => negb (strict_eq (id_of u) (str uid))) users in
            let st := writeJsonFile users_json updatedUsers st in
            (Response 200 (BMessage "Account deleted successfully"), st)
        end
    end.

(** [cn => cn.sessionId === sessionId && cn.cornerName === cornerName
          && cn.userId === req.session.userId] *)
Definition same_corner (sessionId cornerName : option jval) (uid : string) (cn : obj) : bool :=
  strict_eq (sessionId_of cn) sessionId
  && strict_eq (cn !! "cornerName") cornerName
  && strict_eq (userId_of cn) (str uid).

(** [field && ['entry', 'apex', 'exit'].includes(field)] *)
Definition corner_field (field : option jval) : bool :=
  truthy field && includes [str "entry"; str "apex"; str "exit"] field.

(** [field === name ? (value || '') : ''] *)
Definition new_corner_text (field value : option jval) (name : string) : option jval :=
  if strict_eq field (str name) then js_or value (str "") else str "".

(** [POST /api/corner-notes] *)
Definition post_corner_note (uid : string) (reqBody : obj) (st : store)
  : response * store :=
  let cornerNotes := readJsonFile corner_notes_json st in
  let sessionId := reqBody !! "sessionId" in
  let cornerName := reqBody !! "cornerName" in
  let field := reqBody !! "field" in
  let value := reqBody !! "value" in
  if negb (truthy sessionId) || negb (truthy cornerName) then
    (error 400 "sessionId and cornerName are required", st)
  else
    match findIndex (same_corner sessionId cornerName uid) cornerNotes with
    | Some existingIndex =>
        match cornerNotes !! existingIndex with
        | None => (thrown, st)
        | Some note =>
            let note :=
              if corner_field field
              then set_prop (prop_key field) (js_or value (str "")) note
              else note in
            (Response 200 (BRecord note),
             writeJsonFile corner_notes_json (<[existingIndex := note]> cornerNotes) st)
        end
    | None =>
        let newNote : obj :=
          set_prop "exit" (new_corner_text field value "exit")
          (set_prop "apex" (new_corner_text field value "apex")
          (set_prop "entry" (new_corner_text field value "entry")
          (set_prop "cornerName" cornerName
          (set_prop "sessionId" sessionId
          (set_prop "userId" (str uid)
          (set_prop "id" (str (uuidv4 0)) ∅)))))) in
        (Response 201 (BRecord newNote),
         writeJsonFile corner_notes_json (cornerNotes ++ [newNote]) st)
    end.

End Routes.

(** ** Export and import *)

Record export_request := ExportRequest {
  x_carIds : list jval;
  x_trackIds : list jval;
  includeSetups : option jval;
  includeSessions : option jval;
  includeMaintenance : option jval;
  includeTrackNotes : option jval
}.

Record import_request := ImportRequest {
  i_data : option envelope;
  i_mode : option jval
}.

(** [x => x.<fk> && ids.includes(x.<fk>)] (also with a [Set] and [has]). *)
Definition refers (fk : string) (ids : list (option jval)) (x : obj) : bool :=
  truthy (x !! fk) && includes ids (x !! fk).

(** [ids.includes(x.id)] where [ids = arr.filter(p).map(x => x.id)] and [x]
    is an element of the same array [arr]: an element that satisfies [p]
    finds its own id, whatever its value. *)
Definition id_selected (p : obj → bool) (arr : list obj) (x : obj) : bool :=
  p x || includes (List.map id_of (List.filter p arr)) (id_of x).

(** *** Plain objects used as maps

    [carIdMap], [trackIdMap] and [sessionIdMap] start as [{}] and are
    written with [idMap[key] = value] and read with [idMap[key]].  Such an
    object has own properties, which may hold [undefined], and a
    prototype: [Object.prototype] at first; an assignment to the key
    [__proto__] that reaches the accessor of [Object.prototype] replaces
    the prototype by the value when it is an object, an array or [null],
    and does nothing for any other value. *)

Inductive prototype :=
  | proto_Object                 (* [Object.prototype] *)
  | proto_null                   (* no prototype *)
  | proto_value (v : jval).      (* an array or an object read from a file *)

Record idmap := IdMap {
  own : gmap string (option jval);
  proto : prototype
}.

(** [{}] *)
#[global] Instance idmap_empty : Empty idmap := IdMap ∅ proto_Object.

(** What reading a property gives: a JSON value or [undefined], one of the
    built-in functions, or the object [Object.prototype] itself. *)
Inductive looked_up :=
  | Plain (v : option jval)
  | Function
  | ObjectPrototype.

(** The function-valued properties of [Object.prototype]; its twelfth
    property, [__proto__], is an accessor. *)
Definition object_methods : list string :=
  ["constructor"; "__defineGetter__"; "__defineSetter__"; "hasOwnProperty";
   "__lookupGetter__"; "__lookupSetter__"; "isPrototypeOf"; "propertyIsEnumerable";
   "toString"; "valueOf"; "toLocaleString"].

(** The function-valued properties of [Array.prototype] (ECMAScript 2023). *)
Definition array_methods : list string :=
  ["constructor"; "at"; "concat"; "copyWithin"; "fill"; "find"; "findIndex";
   "findLast"; "findLastIndex"; "lastIndexOf"; "pop"; "push"; "reverse"; "shift";
   "unshift"; "slice"; "sort"; "splice"; "includes"; "indexOf"; "join"; "keys";
   "entries"; "values"; "forEach"; "filter"; "flat"; "flatMap"; "map"; "every";
   "some"; "reduce"; "reduceRight"; "toLocaleString"; "toString"; "toReversed";
   "toSorted"; "toSpliced"; "with"].

Definition named (names : list string) (key : string) : bool :=
  existsb (String.eqb key) names.

(** The own property [key] of an object parsed from JSON: of a repeated
    key [JSON.parse] keeps the last value. *)
Fixpoint get_pair (key : string) (o : list (string * jval)) : option jval :=
  match o with
  | [] => None
  | kv :: rest =>
      match get_pair key rest with
      | Some x => Some x
      | None => if String.eqb (fst kv) key then Some (snd kv) else None
      end
  end.

(** The element of an array whose index, written in decimal, is [key];
    [i] is the index of the head of [l]. *)
Fixpoint get_element (i : nat) (key : string) (l : list jval) : option jval :=
  match l with
  | [] => None
  | x :: rest => if String.eqb (pretty i) key then Some x else get_element (S i) key rest
  end.

(** A property looked up on [Object.prototype] for an object whose
    prototype, as the getter of [__proto__] returns it, is [self]. *)
Definition get_inherited (self : looked_up) (key : string) : looked_up :=
  if String.eqb key "__proto__" then self
  else if named object_methods key then Function
  else Plain None.

(** [idMap[key]] *)
Definition idmap_get (m : idmap) (key : string) : looked_up :=
  match own m !! key with
  | Some v => Plain v
  | None =>
      match proto m with
      | proto_Object => get_inherited ObjectPrototype key
      | proto_null => Plain None
      | proto_value (JObj o) =>
          match get_pair key o with
          | Some x => Plain (Some x)
          | None => get_inherited (Plain (Some (JObj o))) key
          end
      | proto_value (JArr l) =>
          if String.eqb key "length" then Plain (Some (JNum (Z.of_nat (length l))))
          else match get_element 0 key l with
               | Some x => Plain (Some x)
               | None =>
                   if named array_methods key then Function
                   else get_inherited (Plain (Some (JArr l))) key
               end
      | proto_value _ => Plain None
      end
  end.

(** An assignment to [__proto__] calls the setter of [Object.prototype]
    unless a data property of that name is found first: on the object
    itself or on an object that has become its prototype; without a
    prototype the assignment creates an own property. *)
Definition reaches_setter (m : idmap) : bool :=
  match own m !! "__proto__" with
  | Some _ => false
  | None =>
      match proto m with
      | proto_Object => true
      | proto_null => false
      | proto_value (JObj o) =>
          match get_pair "__proto__" o with Some _ => false | None => true end
      | proto_value _ => true
      end
  end.

(** [idMap[key] = value] *)
Definition idmap_set (key : string) (value : option jval) (m : idmap) : idmap :=
  if String.eqb key "__proto__" && reaches_setter m then
    match value with
    | Some JNull => IdMap (own m) proto_null
    | Some (JArr l) => IdMap (own m) (proto_value (JArr l))
    | Some (JObj o) => IdMap (own m) (proto_value (JObj o))
    | _ => m
    end
  else IdMap (<[key := value]> (own m)) (proto m).

(** [Object.values(idMap)]: the values of the own properties. *)
Definition values (m : idmap) : list (option jval) :=
  List.map snd (map_to_list (own m)).

Definition found_truthy (x : looked_up) : bool :=
  match x with
  | Plain v => truthy v
  | Function | ObjectPrototype => true
  end.

(** What [JSON.stringify] writes for a property with this value: a
    property whose value is a function is left out, and [Object.prototype]
    has no enumerable property. *)
Definition persisted (x : looked_up) : option jval :=
  match x with
  | Plain v => v
  | Function => None
  | ObjectPrototype => Some (JObj [])
  end.

(** [idMap[v] || v], as it is persisted *)
Definition remapped (idMap : idmap) (v : option jval) : option jval :=
  let x := idmap_get idMap (prop_key v) in
  if found_truthy x then persisted x else v.

(** [if (r.<fk>) r.<fk> = idMap[r.<fk>] || r.<fk>] *)
Definition remap (idMap : idmap) (fk : string) (r : obj) : obj :=
  if truthy (r !! fk)
  then set_prop fk (remapped idMap (r !! fk)) r
  else r.

(** [{ ...r, id: newId, userId }] *)
Definition adopt (newId uid : string) (r : obj) : obj :=
  set_prop "userId" (str uid) (set_prop "id" (str newId) r).

(** [arr && arr.length > 0] *)
Definition present (arr : option (list obj)) : list obj :=
  match arr with Some l => l | None => [] end.

Section Transfer.

Variable uuidv4 : nat → string.
Variable extname : string → string.
Variable basename : string → string.
(** The base64 contents of a file of the image directory, when it exists
    and can be read. *)
Variable readTrackImage : string → option string.
(** [new Date().toISOString()] *)
Variable now : string.

(** The loop of [POST /api/export] over the exported tracks; [None] when
    [startsWith] is called on an image URL that is not a string. *)
Fixpoint export_images (tracks : list obj) : option (list obj) :=
  match tracks with
  | [] => Some []
  | track :: rest =>
      let imageUrl := track !! "imageUrl" in
      if truthy imageUrl then
        match imageUrl with
        | Some (JStr url) =>
            let here : list obj :=
              if String.prefix "/images/tracks/" url then
                match readTrackImage (basename url) with
                | Some imageData =>
                    [ {[ "filename" := JStr (basename url); "data" := JStr imageData ]} ]
                | None => []
                end
              else [] in
            (fun more => (here ++ more)) <$> export_images rest
        | _ => None
        end
      else export_images rest
  end.

(** [POST /api/export] *)
Definition export (uid : string) (req : export_request) (st : store)
  : response * store :=
  let carIds := List.map Some (x_carIds req) in
  let trackIds := List.map Some (x_trackIds req) in
  match x_carIds req, x_trackIds req with
  | [], [] => (error 400 "Select at least one car or track to export", st)
  | _, _ =>
      let allCars := List.filter (owned uid) (readJsonFile cars_json st) in
      let allTracks := List.filter (owned uid) (readJsonFile tracks_json st) in
      let cars := List.filter (fun c => includes carIds (id_of c)) allCars in
      let tracks := List.filter (fun t => includes trackIds (id_of t)) allTracks in
      let either x := refers "carId" carIds x || refers "trackId" trackIds x in
      let setups :=
        if truthy (includeSetups req)
        then Some (List.filter either (List.filter (owned uid) (readJsonFile setups_json st)))
        else None in
      let sessions :=
        if truthy (includeSessions req)
        then Some (List.filter either (List.filter (owned uid) (readJsonFile sessions_json st)))
        else None in
      let cornerNotes :=
        match sessions with
        | Some exported =>
            let sessionIds := List.map id_of exported in
            Some (List.filter (fun cn => includes sessionIds (sessionId_of cn))
                    (List.filter (owned uid) (readJsonFile corner_notes_json st)))
        | None => None
        end in
      let trackNotes :=
        if truthy (includeTrackNotes req)
        then Some (List.filter either (List.filter (owned uid) (readJsonFile track_notes_json st)))
        else None in
      let maintenance :=
        if truthy (includeMaintenance req)
        then Some (List.filter (refers "carId" carIds)
                     (List.filter (owned uid) (readJsonFile maintenance_json st)))
        else None in
      match export_images tracks with
      | None => (thrown, st)
      | Some trackImages =>
          let exportData :=
            ExportData (Some cars) (Some tracks) setups sessions cornerNotes
                       trackNotes maintenance (Some trackImages) in
          (Response 200
             (BEnvelope (Envelope (Some (JNum 1)) (str now) (str "RaceLog") (Some exportData))),
           st)
      end
  end.

(** *** Import: cars and tracks *)

(** The variables of the two parent loops: the array being rebuilt, the
    id map, the original ids skipped under [preserve], the two counters and
    the number of identifiers generated so far. *)
Record parents := Parents {
  existing : list obj;
  idMap : idmap;
  skippedIds : list (option jval);
  imported : nat;
  skipped : nat;
  issued : nat
}.

(** [arr[idx] = { ...arr[idx], k1: v1, ... }] with [idx = arr.findIndex(x =>
    x.id === match.id)].  When the id is an array or an object the index
    found is the place of [match] itself, whose listed properties already
    have these values: the assignment changes nothing that is persisted. *)
Definition overwrite_at (found : obj) (props : list (string * option jval))
    (arr : list obj) : list obj :=
  match findIndex (fun x => strict_eq (id_of x) (id_of found)) arr with
  | Some idx =>
      match arr !! idx with
      | Some old => <[idx := fold_left (fun o kv => set_prop (fst kv) (snd kv) o) props old]> arr
      | None => arr
      end
  | None => arr
  end.

Definition same_car (importCar c : obj) : bool :=
  strict_eq (c !! "name") (importCar !! "name")
  && strict_eq (c !! "manufacturer") (importCar !! "manufacturer")
  && strict_eq (c !! "series") (importCar !! "series").

Definition import_car (overwrite : bool) (uid : string) (userCars : list obj)
    (acc : parents) (importCar : obj) : parents :=
  let key := prop_key (id_of importCar) in
  match List.find (same_car importCar) userCars with
  | Some found =>
      if overwrite then
        Parents
          (overwrite_at found
             [("name", importCar !! "name");
              ("manufacturer", importCar !! "manufacturer");
              ("series", importCar !! "series")] (existing acc))
          (idmap_set key (id_of found) (idMap acc))
          (skippedIds acc) (S (imported acc)) (skipped acc) (issued acc)
      else
        Parents (existing acc)
          (idmap_set key (id_of found) (idMap acc))
          (skippedIds acc ++ [id_of importCar]) (imported acc) (S (skipped acc)) (issued acc)
  | None =>
      let newId := uuidv4 (issued acc) in
      let newCar : obj :=
        set_prop "series" (js_or (importCar !! "series") (str ""))
        (set_prop "manufacturer" (js_or (importCar !! "manufacturer") (str ""))
        (set_prop "name" (js_or (importCar !! "name") (str ""))
        (set_prop "userId" (str uid)
        (set_prop "id" (str newId) ∅)))) in
      Parents (existing acc ++ [newCar])
        (idmap_set key (str newId) (idMap acc))
        (skippedIds acc) (S (imported acc)) (skipped acc) (S (issued acc))
  end.

Definition import_cars (overwrite : bool) (uid : string) (importCars : list obj)
    (existingCars : list obj) (issued : nat) : parents :=
  let userCars := List.filter (owned uid) existingCars in
  fold_left (import_car overwrite uid userCars) importCars
    (Parents existingCars ∅ [] 0 0 issued).

Definition same_track (importTrack t : obj) : bool :=
  strict_eq (t !! "name") (importTrack !! "name")
  && strict_eq (t !! "location") (importTrack !! "location").

(** [None]: [startsWith] called on an image URL that is not a string. *)
Definition import_track (overwrite : bool) (uid : string) (userTracks : list obj)
    (acc : parents) (importTrack : obj) : option parents :=
  let key := prop_key (id_of importTrack) in
  match List.find (same_track importTrack) userTracks with
  | Some found =>
      if overwrite then
        Some (Parents
          (overwrite_at found
             [("name", importTrack !! "name");
              ("location", importTrack !! "location");
              ("length", importTrack !! "length");
              ("corners", importTrack !! "corners");
              ("circuitNotes", importTrack !! "circuitNotes");
              ("imageUrl", importTrack !! "imageUrl")] (existing acc))
          (idmap_set key (id_of found) (idMap acc))
          (skippedIds acc) (S (imported acc)) (skipped acc) (issued acc))
      else
        Some (Parents (existing acc)
          (idmap_set key (id_of found) (idMap acc))
          (skippedIds acc ++ [id_of importTrack]) (imported acc) (S (skipped acc)) (issued acc))
  | None =>
      let newId := uuidv4 (issued acc) in
      match js_or (importTrack !! "imageUrl") (str "") with
      | Some (JStr url) =>
          let imageUrl :=
            if String.prefix "/images/tracks/" url
            then ("/images/tracks/" ++ newId ++ extname url)%string
            else url in
          let newTrack : obj :=
            set_prop "circuitNotes" (js_or (importTrack !! "circuitNotes") (str ""))
            (set_prop "corners" (js_or (importTrack !! "corners") (Some (JArr [])))
            (set_prop "imageUrl" (str imageUrl)
            (set_prop "length" (js_or (importTrack !! "length") (str ""))
            (set_prop "location" (js_or (importTrack !! "location") (str ""))
            (set_prop "name" (js_or (importTrack !! "name") (str ""))
            (set_prop "userId" (str uid)
            (set_prop "id" (str newId) ∅))))))) in
          Some (Parents (existing acc ++ [newTrack])
            (idmap_set key (str newId) (idMap acc))
            (skippedIds acc) (S (imported acc)) (skipped acc) (S (issued acc)))
      | _ => None
      end
  end.

Definition import_tracks (overwrite : bool) (uid : string) (importTracks : list obj)
    (existingTracks : list obj) (issued : nat) : option parents :=
  let userTracks := List.filter (owned uid) existingTracks in
  fold_left (fun acc importTrack =>
               match acc with
               | Some acc => import_track overwrite uid userTracks acc importTrack
               | None => None
               end)
    importTracks (Some (Parents existingTracks ∅ [] 0 0 issued)).

(** The image loop writes to the image directory only; it throws when a
    [filename] is not a string ([img.filename.replace]). *)
Definition images_ok (trackImages : list obj) : bool :=
  forallb (fun img => match img !! "filename" with Some (JStr _) => true | _ => false end)
    trackImages.

(** *** Import: dependent records *)

(** The variables of a loop over dependents. *)
Record children := Children {
  rows : list obj;
  sessionIdMap : idmap;
  inserted : nat;
  dropped : nat;
  generated : nat
}.

(** [const n = { ...r, id: uuidv4(), userId }; <remap>; rows.push(n)] *)
Definition insert_child (uid : string) (fix_keys : obj → obj)
    (acc : children) (r : obj) : children :=
  Children (rows acc ++ [fix_keys (adopt (uuidv4 (generated acc)) uid r)])
    (sessionIdMap acc) (S (inserted acc)) (dropped acc) (S (generated acc)).

(** The body of a [preserve] loop:
    [if (carSkipped || trackSkipped) { summary.xSkipped++; continue; }]
    and then the insertion. *)
Definition unless_skipped (skip : obj → bool) (ins : children → obj → children)
    (acc : children) (r : obj) : children :=
  if skip r
  then Children (rows acc) (sessionIdMap acc) (inserted acc) (S (dropped acc)) (generated acc)
  else ins acc r.

(** Setups, track notes and maintenance tasks.  [purge] selects the
    caller's rows to replace under [overwrite]; [skip] the imported rows to
    drop under [preserve]. *)
Definition import_children (overwrite : bool) (uid : string)
    (purge skip : obj → bool) (fix_keys : obj → obj)
    (importRows existingRows : list obj) (issued : nat) : children :=
  if overwrite then
    let filtered :=
      List.filter (fun s => negb (id_selected purge existingRows s)) existingRows in
    fold_left (insert_child uid fix_keys) importRows (Children filtered ∅ 0 0 issued)
  else
    fold_left (unless_skipped skip (insert_child uid fix_keys))
      importRows (Children existingRows ∅ 0 0 issued).

(** Sessions also record the new id of each inserted session. *)
Definition insert_session (uid : string) (fix_keys : obj → obj)
    (acc : children) (session : obj) : children :=
  let newId := uuidv4 (generated acc) in
  Children (rows acc ++ [fix_keys (adopt newId uid session)])
    (idmap_set (prop_key (id_of session)) (str newId) (sessionIdMap acc))
    (S (inserted acc)) (dropped acc) (S (generated acc)).

Definition import_sessions (overwrite : bool) (uid : string)
    (purge skip : obj → bool) (fix_keys : obj → obj)
    (importRows existingRows : list obj) (issued : nat) : children :=
  if overwrite then
    let filtered :=
      List.filter (fun s => negb (id_selected purge existingRows s)) existingRows in
    fold_left (insert_session uid fix_keys) importRows (Children filtered ∅ 0 0 issued)
  else
    fold_left (unless_skipped skip (insert_session uid fix_keys))
      importRows (Children existingRows ∅ 0 0 issued).

(** Corner notes of the imported sessions.  Under [preserve] a note whose
    session has no new id is passed over, and the others take the new id
    without the test on their own [sessionId]. *)
Definition import_corner_notes (overwrite : bool) (uid : string)
    (sessionIds : idmap) (importNotes existingNotes : list obj)
    (issued : nat) : children :=
  let assign cn := set_prop "sessionId" (remapped sessionIds (sessionId_of cn)) cn in
  fold_left (fun acc cn =>
               if overwrite then insert_child uid (remap sessionIds "sessionId") acc cn
               else if negb (found_truthy (idmap_get sessionIds (prop_key (sessionId_of cn))))
               then acc
               else insert_child uid assign acc cn)
    importNotes (Children existingNotes ∅ 0 0 issued).

(** The blocks of [POST /api/import], each guarded by
    [if (importData.x && importData.x.length > 0)]: the loop runs on the
    array read from the file and the result is written back. *)
Definition cars_block (overwrite : bool) (uid : string) (importData : export_data)
    (st : store) : parents * store :=
  match present (d_cars importData) with
  | [] => (Parents (readJsonFile cars_json st) ∅ [] 0 0 0, st)
  | importCars =>
      let cs := import_cars overwrite uid importCars (readJsonFile cars_json st) 0 in
      (cs, writeJsonFile cars_json (existing cs) st)
  end.

(** [None]: the loop has thrown; [tracks.json] is not written. *)
Definition tracks_block (overwrite : bool) (uid : string) (importData : export_data)
    (issued : nat) (st : store) : option (parents * store) :=
  match present (d_tracks importData) with
  | [] => Some (Parents (readJsonFile tracks_json st) ∅ [] 0 0 issued, st)
  | importTracks =>
      match import_tracks overwrite uid importTracks (readJsonFile tracks_json st) issued with
      | Some ts => Some (ts, writeJsonFile tracks_json (existing ts) st)
      | None => None
      end
  end.

(** Setups, track notes and maintenance tasks. *)
Definition rows_block (f : file) (importRows : list obj)
    (run : list obj → list obj → nat → children) (issued : nat) (st : store)
  : children * store :=
  match importRows with
  | [] => (Children (readJsonFile f st) ∅ 0 0 issued, st)
  | _ =>
      let ch := run importRows (readJsonFile f st) issued in
      (ch, writeJsonFile f (rows ch) st)
  end.

(** Sessions and their corner notes; the pair of loop results is
    (sessions, corner notes). *)
Definition sessions_block (overwrite : bool) (uid : string) (importData : export_data)
    (purge skip : obj → bool) (fix_keys : obj → obj) (issued : nat) (st : store)
  : (children * children) * store :=
  match present (d_sessions importData) with
  | [] =>
      ((Children (readJsonFile sessions_json st) ∅ 0 0 issued,
        Children (readJsonFile corner_notes_json st) ∅ 0 0 issued), st)
  | importSessions =>
      let existingSessions := readJsonFile sessions_json st in
      let es := import_sessions overwrite uid purge skip fix_keys importSessions
                  existingSessions issued in
      let toRemove := List.map id_of (List.filter purge existingSessions) in
      let existingCornerNotes :=
        if overwrite
        then List.filter (fun cn => negb (includes toRemove (sessionId_of cn))
                                    || negb (owned uid cn))
               (readJsonFile corner_notes_json st)
        else readJsonFile corner_notes_json st in
      let ns := import_corner_notes overwrite uid (sessionIdMap es)
                  (present (d_cornerNotes importData)) existingCornerNotes (generated es) in
      ((es, ns),
       writeJsonFile corner_notes_json (rows ns)
         (writeJsonFile sessions_json (rows es) st))
  end.

(** [POST /api/import] *)
Definition import (uid : string) (req : import_request) (st : store)
  : response * store :=
  match i_data req with
  | None => (error 400 "Invalid export file format", st)
  | Some importEnvelope =>
  match data importEnvelope with
  | None => (error 400 "Invalid export file format", st)
  | Some importData =>
  if negb (truthy (version importEnvelope)) then
    (error 400 "Invalid export file format", st)
  else if negb (includes [str "overwrite"; str "preserve"] (i_mode req)) then
    (* the message of the source puts the two mode names in quotation marks *)
    (error 400 "Import mode must be overwrite or preserve", st)
  else
    let overwrite := strict_eq (i_mode req) (str "overwrite") in
    (* --- Import Cars --- *)
    let '(cs, st) := cars_block overwrite uid importData st in
    (* --- Import Tracks --- *)
    match tracks_block overwrite uid importData (issued cs) st with
    | None => (thrown, st)
    | Some (ts, st) =>
    (* --- Save track images --- *)
    if negb (images_ok (present (d_trackImages importData))) then (thrown, st)
    else
    let carIdMap := idMap cs in
    let trackIdMap := idMap ts in
    let newCarIds := values carIdMap in
    let newTrackIds := values trackIdMap in
    let purge2 x := owned uid x && (refers "carId" newCarIds x || refers "trackId" newTrackIds x) in
    let skip2 x := refers "carId" (skippedIds cs) x || refers "trackId" (skippedIds ts) x in
    let fix2 x := remap trackIdMap "trackId" (remap carIdMap "carId" x) in
    (* --- Import Setups --- *)
    let '(ss, st) :=
      rows_block setups_json (present (d_setups importData))
        (import_children overwrite uid purge2 skip2 fix2) (issued ts) st in
    (* --- Import Sessions + Corner Notes --- *)
    let '((es, ns), st) :=
      sessions_block overwrite uid importData purge2 skip2 fix2 (generated ss) st in
    (* --- Import Track Notes --- *)
    let '(tn, st) :=
      rows_block track_notes_json (present (d_trackNotes importData))
        (import_children overwrite uid purge2 skip2 fix2) (generated ns) st in
    (* --- Import Maintenance --- *)
    let '(ms, st) :=
      rows_block maintenance_json (present (d_maintenance importData))
        (import_children overwrite uid
           (fun m => owned uid m && refers "carId" newCarIds m)
           (refers "carId" (skippedIds cs))
           (remap carIdMap "carId"))
        (generated tn) st in
    (Response 200
       (BImported
          (ImportSummary (imported cs) (skipped cs) (imported ts) (skipped ts)
             (inserted ss) (dropped ss) (inserted es) (dropped es) (inserted ns)
             (inserted tn) (dropped tn) (inserted ms) (dropped ms))),
     st)
    end
  end
  end.

End Transfer.

(** ** Bulk delete *)

Record bulk_request := BulkRequest {
  b_carIds : list jval;
  b_trackIds : list jval
}.

(** One pass of [POST /api/bulk-delete] over the dependents keyed by [fk]
    (["carId"] or ["trackId"]): setups, sessions with their corner notes, and
    track notes. *)
Definition bulk_children (fk : string) (uid : string) (idSet : list (option jval))
    (sm : delete_summary) (st : store) : delete_summary * store :=
  let doomed x := owned uid x && refers fk idSet x in
  let setups := readJsonFile setups_json st in
  let setups' := List.filter (fun s => negb (doomed s)) setups in
  let st := writeJsonFile setups_json setups' st in
  let sessions := readJsonFile sessions_json st in
  let sessionIdsToDelete := List.map id_of (List.filter doomed sessions) in
  let sessions' := List.filter (fun s => negb (id_selected doomed sessions s)) sessions in
  let st := writeJsonFile sessions_json sessions' st in
  let cornerNotes := readJsonFile corner_notes_json st in
  let cornerNotes' :=
    List.filter (fun cn => negb (owned uid cn && includes sessionIdsToDelete (sessionId_of cn)))
      cornerNotes in
  let st := writeJsonFile corner_notes_json cornerNotes' st in
  let trackNotes := readJsonFile track_notes_json st in
  let trackNotes' := List.filter (fun tn => negb (doomed tn)) trackNotes in
  let st := writeJsonFile track_notes_json trackNotes' st in
  (DeleteSummary (carsDeleted sm) (tracksDeleted sm)
     (setupsDeleted sm + (length setups - length setups'))
     (sessionsDeleted sm + (length sessions - length sessions'))
     (cornerNotesDeleted sm + (length cornerNotes - length cornerNotes'))
     (trackNotesDeleted sm + (length trackNotes - length trackNotes'))
     (maintenanceDeleted sm),
   st).

(** The car cascade of [POST /api/bulk-delete]. *)
Definition bulk_cars (uid : string) (carIds : list (option jval))
    (sm : delete_summary) (st : store) : delete_summary * store :=
  let cars := readJsonFile cars_json st in
  let userCarIds :=
    List.map id_of (List.filter (fun c => owned uid c && includes carIds (id_of c)) cars) in
  let '(sm, st) := bulk_children "carId" uid userCarIds sm st in
  let maintenance := readJsonFile maintenance_json st in
  let maintenance' :=
    List.filter (fun m => negb (owned uid m && refers "carId" userCarIds m)) maintenance in
  let st := writeJsonFile maintenance_json maintenance' st in
  let cars' := List.filter (fun c => negb (owned uid c && includes userCarIds (id_of c))) cars in
  let st := writeJsonFile cars_json cars' st in
  (DeleteSummary (carsDeleted sm + (length cars - length cars')) (tracksDeleted sm)
     (setupsDeleted sm) (sessionsDeleted sm) (cornerNotesDeleted sm) (trackNotesDeleted sm)
     (maintenanceDeleted sm + (length maintenance - length maintenance')),
   st).

(** The track cascade of [POST /api/bulk-delete]. *)
Definition bulk_tracks (uid : string) (trackIds : list (option jval))
    (sm : delete_summary) (st : store) : delete_summary * store :=
  let tracks := readJsonFile tracks_json st in
  let userTrackIds :=
    List.map id_of (List.filter (fun t => owned uid t && includes trackIds (id_of t)) tracks) in
  let '(sm, st) := bulk_children "trackId" uid userTrackIds sm st in
  let tracks' := List.filter (fun t => negb (owned uid t && includes userTrackIds (id_of t))) tracks in
  let st := writeJsonFile tracks_json tracks' st in
  (DeleteSummary (carsDeleted sm) (tracksDeleted sm + (length tracks - length tracks'))
     (setupsDeleted sm) (sessionsDeleted sm) (cornerNotesDeleted sm) (trackNotesDeleted sm)
     (maintenanceDeleted sm),
   st).

(** [POST /api/bulk-delete] *)
Definition bulk_delete (uid : string) (req : bulk_request) (st : store)
  : response * store :=
  match b_carIds req, b_trackIds req with
  | [], [] => (error 400 "Select at least one car or track to delete", st)
  | carIds, trackIds =>
      let sm := DeleteSummary 0 0 0 0 0 0 0 in
      let '(sm, st) :=
        match carIds with
        | [] => (sm, st)
        | _ => bulk_cars uid (List.map Some carIds) sm st
        end in
      let '(sm, st) :=
        match trackIds with
        | [] => (sm, st)
        | _ => bulk_tracks uid (List.map Some trackIds) sm st
        end in
      (Response 200 (BDeleted sm), st)
  end.

(** ** The route table for single records *)

Inductive kind := Car | Setup | Track | TrackNote | CornerNote | Session | Maintenance.

Inductive operation := Get | Put (reqBody : obj) | Delete.

Definition collection (k : kind) : file :=
  match k with
  | Car => cars_json
  | Setup => setups_json
  | Track => tracks_json
  | TrackNote => track_notes_json
  | CornerNote => corner_notes_json
  | Session => sessions_json
  | Maintenance => maintenance_json
  end.

(** [app.get], [app.put] and [app.delete] on [/api/<kind>/:id]; corner
    notes have no [PUT] route. *)
Definition route (downloadTrackImage : string → string → option string)
    (k : kind) (op : operation)
  : option (string → string → store → response * store) :=
  match k, op with
  | Car, Get => Some get_car
  | Car, Put b => Some (fun uid rid => put_car uid rid b)
  | Car, Delete => Some delete_car
  | Setup, Get => Some get_setup
  | Setup, Put b => Some (fun uid rid => put_setup uid rid b)
  | Setup, Delete => Some delete_setup
  | Track, Get => Some get_track
  | Track, Put b => Some (fun uid rid => put_track downloadTrackImage uid rid b)
  | Track, Delete => Some delete_track
  | TrackNote, Get => Some get_track_note
  | TrackNote, Put b => Some (fun uid rid => put_track_note uid rid b)
  | TrackNote, Delete => Some delete_track_note
  | CornerNote, Get => Some get_corner_note
  | CornerNote, Put _ => None
  | CornerNote, Delete => Some delete_corner_note
  | Session, Get => Some get_session
  | Session, Put b => Some (fun uid rid => put_session uid rid b)
  | Session, Delete => Some delete_session
  | Maintenance, Get => Some get_maintenance
  | Maintenance, Put b => Some (fun uid rid => put_maintenance uid rid b)
  | Maintenance, Delete => Some delete_maintenance
  end.

(** ** Collection routes: listing and creating *)

(** [if (req.query.k) arr = arr.filter(x => x.k === req.query.k)]; the
    parsed query string is an object whose values are strings, or arrays
    and objects for repeated and bracketed parameters. *)
Definition by_query (query : obj) (k : string) (arr : list obj) : list obj :=
  if truthy (query !! k)
  then List.filter (fun x => strict_eq (x !! k) (query !! k)) arr
  else arr.

(** [GET /api/<kind>]: the caller's records, then one filter per query
    parameter the route looks at.  The value is the array of the 200
    answer; nothing is written. *)
Definition list_all (f : file) (filters : list string) (uid : string) (query : obj)
    (st : store) : list obj :=
  fold_left (fun arr k => by_query query k arr) filters
    (List.filter (owned uid) (readJsonFile f st)).

Definition list_cars := list_all cars_json [].
Definition list_setups := list_all setups_json ["carId"; "trackId"].
Definition list_tracks := list_all tracks_json [].
Definition list_track_notes := list_all track_notes_json ["carId"; "trackId"].
Definition list_corner_notes := list_all corner_notes_json ["sessionId"].
Definition list_sessions := list_all sessions_json ["carId"; "trackId"].
Definition list_maintenance := list_all maintenance_json ["carId"].

(** [{ id: newId, userId, k1: req.body.k1 || d1, ... }] *)
Definition new_record (newId uid : string) (defaults : list (string * jval))
    (reqBody : obj) : obj :=
  fold_left (fun o kv => set_prop kv.1 (js_or (reqBody !! kv.1) (Some kv.2)) o) defaults
    (set_prop "userId" (str uid) (set_prop "id" (str newId) ∅)).

(** [arr.push(record); writeJsonFile(f, arr); res.status(201).json(record)] *)
Definition push_record (f : file) (record : obj) (st : store) : response * store :=
  (Response 201 (BRecord record),
   writeJsonFile f (readJsonFile f st ++ [record]) st).

Definition four_corners : jval :=
  JObj [("fl", JNum 0); ("fr", JNum 0); ("rl", JNum 0); ("rr", JNum 0)].

Definition car_defaults : list (string * jval) :=
  [("name", JStr ""); ("manufacturer", JStr ""); ("series", JStr "")].

Definition track_note_defaults : list (string * jval) :=
  [("carId", JNull); ("trackId", JNull); ("notes", JStr "")].

Section Creation.

Variable uuidv4 : nat → string.
(** [new Date().toISOString().split('T')[0]] *)
Variable today : string.
Variable downloadTrackImage : string → string → option string.

Definition setup_defaults : list (string * jval) :=
  [("carId", JNull); ("trackId", JNull); ("name", JStr ""); ("date", JStr today);
   ("toeFront", JStr ""); ("toeRear", JStr ""); ("camberFront", JStr "");
   ("camberRear", JStr ""); ("casterFront", JStr ""); ("cornerWeights", four_corners);
   ("totalWeight", JNum 0); ("rideHeightFront", JStr ""); ("rideHeightRear", JStr "");
   ("antiRollBarFront", JStr ""); ("antiRollBarRear", JStr "");
   ("tyrePressures", four_corners); ("fuelQuantity", JStr ""); ("tyreMake", JStr "");
   ("notes", JStr "")].

(** Without [name], which falls back on [type] first. *)
Definition session_defaults : list (string * jval) :=
  [("carId", JNull); ("trackId", JNull); ("type", JStr ""); ("date", JStr today);
   ("trackConditions", JStr ""); ("tyrePressures", JNull); ("frontARB", JStr "");
   ("rearARB", JStr ""); ("brakeBias", JStr ""); ("setupComments", JStr "");
   ("focusAreas", JStr ""); ("bestLaptime", JStr ""); ("idealLaptime", JStr "");
   ("series", JStr "")].

Definition maintenance_defaults : list (string * jval) :=
  [("carId", JNull); ("date", JStr today); ("type", JArr []); ("name", JStr "");
   ("description", JStr ""); ("mileage", JStr ""); ("partsUsed", JStr "");
   ("notes", JStr "")].

(** [POST /api/cars] *)
Definition post_car (uid : string) (reqBody : obj) (st : store) : response * store :=
  push_record cars_json (new_record (uuidv4 0) uid car_defaults reqBody) st.

(** [POST /api/setups] *)
Definition post_setup (uid : string) (reqBody : obj) (st : store) : response * store :=
  push_record setups_json (new_record (uuidv4 0) uid setup_defaults reqBody) st.

(** [POST /api/track-notes] *)
Definition post_track_note (uid : string) (reqBody : obj) (st : store) : response * store :=
  push_record track_notes_json (new_record (uuidv4 0) uid track_note_defaults reqBody) st.

(** [POST /api/sessions]; [name: req.body.name || req.body.type || ''] *)
Definition post_session (uid : string) (reqBody : obj) (st : store) : response * store :=
  push_record sessions_json
    (set_prop "name" (js_or (reqBody !! "name") (js_or (reqBody !! "type") (str "")))
       (new_record (uuidv4 0) uid session_defaults reqBody)) st.

(** [POST /api/maintenance] *)
Definition post_maintenance (uid : string) (reqBody : obj) (st : store) : response * store :=
  push_record maintenance_json (new_record (uuidv4 0) uid maintenance_defaults reqBody) st.

(** [POST /api/tracks]: the image is downloaded when the URL is not a
    local one; a failed download keeps the URL; a truthy URL that is not a
    string makes [startsWith] throw before anything is written. *)
Definition post_track (uid : string) (reqBody : obj) (st : store) : response * store :=
  let trackId := uuidv4 0 in
  let requested := js_or (reqBody !! "imageUrl") (str "") in
  let imageUrl :=
    if truthy requested then
      match requested with
      | Some (JStr url) =>
          if negb (String.prefix "/images/" url)
          then match downloadTrackImage url trackId with
               | Some localUrl => Some (str localUrl)
               | None => Some requested
               end
          else Some requested
      | _ => None
      end
    else Some requested in
  match imageUrl with
  | None => (thrown, st)
  | Some imageUrl =>
      push_record tracks_json
        (set_prop "corners" (js_or (reqBody !! "corners") (Some (JArr [])))
        (set_prop "imageUrl" imageUrl
        (new_record trackId uid
           [("name", JStr ""); ("location", JStr ""); ("length", JStr "")] reqBody))) st
  end.

End Creation.

(** The six [POST] routes that create a record. *)
Definition create_route (uuidv4 : nat → string) (today : string)
    (downloadTrackImage : string → string → option string) (k : kind)
  : option (string → obj → store → response * store) :=
  match k with
  | Car => Some (post_car uuidv4)
  | Setup => Some (post_setup uuidv4 today)
  | Track => Some (post_track uuidv4 downloadTrackImage)
  | TrackNote => Some (post_track_note uuidv4)
  | CornerNote => None
  | Session => Some (post_session uuidv4 today)
  | Maintenance => Some (post_maintenance uuidv4 today)
  end.

(** The query parameters each [GET /api/<kind>] route looks at. *)
Definition list_filters (k : kind) : list string :=
  match k with
  | Car | Track => []
  | Setup | TrackNote | Session => ["carId"; "trackId"]
  | CornerNote => ["sessionId"]
  | Maintenance => ["carId"]
  end.

Definition list_route (k : kind) : string → obj → store → list obj :=
  match k with
  | Car => list_cars
  | Setup => list_setups
  | Track => list_tracks
  | TrackNote => list_track_notes
  | CornerNote => list_corner_notes
  | Session => list_sessions
  | Maintenance => list_maintenance
  end.

(** ** Accounts: registration, login and credentials

    A registration request may carry any JSON value as [username] and
    [password].  The fields of the other account requests are strings when
    they are present.  [toLowerCase], [bcrypt.hash] and [bcrypt.compare]
    are parameters ([None]: the promise is rejected). *)

Record credentials := Credentials {
  c_username : option string;
  c_password : option string
}.

(** [req.session]: the two properties the routes set and read. *)
Record session := LoginSession {
  s_userId : option jval;
  s_username : option jval
}.

(** [req.session && req.session.userId] *)
Definition requireAuth (s : session) : bool := truthy (s_userId s).

(** [!s] for a field that is a string when present. *)
Definition missing (s : option string) : bool :=
  match s with
  | Some s => negb (nonempty s)
  | None => true
  end.

(** [arr.find(p)] for a predicate that can throw: [None] when it throws
    on an element before one is found. *)
Fixpoint find_throwing {A} (p : A → option bool) (l : list A) : option (option A) :=
  match l with
  | [] => Some None
  | x :: l' =>
      match p x with
      | None => None
      | Some true => Some (Some x)
      | Some false => find_throwing p l'
      end
  end.

(** [arr[i].k = v] *)
Definition assign_at (i : nat) (k : string) (v : option jval) (arr : list obj) : list obj :=
  match arr !! i with
  | Some o => <[i := set_prop k v o]> arr
  | None => arr
  end.

Section Accounts.

Variable uuidv4 : nat → string.
Variable now : string.
Variable toLowerCase : string → string.
Variable bcrypt_hash : string → option string.
Variable bcrypt_compare : option jval → option jval → option bool.
(** [Number(s) < n] for a string [s]: the numeric value of a string is
    outside the model. *)
Variable number_below : string → Z → bool.

(** [u => u.username.toLowerCase() === username.toLowerCase()]; it throws
    when the stored username is not a string. *)
Definition same_name (username : string) (u : obj) : option bool :=
  match u !! "username" with
  | Some (JStr stored) => Some (String.eqb (toLowerCase stored) (toLowerCase username))
  | _ => None
  end.

(** The same for a requested name that is any JSON value: only a string
    has [toLowerCase]. *)
Definition same_name_as (username : jval) (u : obj) : option bool :=
  match username with
  | JStr name => same_name name u
  | _ => None
  end.

(** [v.length] for a truthy value [v]: strings and arrays have a length,
    an object may have a property of that name, numbers and booleans have
    none. *)
Definition length_of (v : jval) : option jval :=
  match v with
  | JStr s => Some (JNum (Z.of_nat (utf16_length s)))
  | JArr l => Some (JNum (Z.of_nat (length l)))
  | JObj o => get_pair "length" o
  | _ => None
  end.

(** [x < n] for a number [n]: [undefined] and an object are not numbers,
    [null] is 0, [false] and [true] are 0 and 1, a string is compared by
    its numeric value and an array as the string it is converted to. *)
Definition less_than (x : option jval) (n : Z) : bool :=
  match x with
  | None | Some (JObj _) => false
  | Some JNull => (0 <? n)%Z
  | Some (JBool b) => ((if b then 1 else 0) <? n)%Z
  | Some (JNum m) => (m <? n)%Z
  | Some (JStr s) => number_below s n
  | Some (JArr l) => number_below (to_String (JArr l)) n
  end.

(** [bcrypt.hash(password, 10)]: the library rejects data that is not a
    string. *)
Definition hash_of (password : jval) : option string :=
  match password with
  | JStr p => bcrypt_hash p
  | _ => None
  end.

(** [POST /api/auth/register] *)
Definition register (username password : option jval) (st : store) : response * store :=
  match username, password with
  | Some username, Some password =>
      if negb (truthy (Some username)) || negb (truthy (Some password)) then
        (error 400 "Username and password are required", st)
      else if less_than (length_of username) 3 then
        (error 400 "Username must be at least 3 characters", st)
      else if less_than (length_of password) 6 then
        (error 400 "Password must be at least 6 characters", st)
      else
        let users := readJsonFile users_json st in
        match find_throwing (same_name_as username) users with
        | None => (thrown, st)
        | Some (Some existingUser) => (error 400 "Username already exists", st)
        | Some None =>
            match hash_of password with
            | None => (error 500 "Error registering user", st)
            | Some passwordHash =>
                let newUser : obj :=
                  set_prop "createdAt" (str now)
                  (set_prop "passwordHash" (str passwordHash)
                  (set_prop "username" (Some username)
                  (set_prop "id" (str (uuidv4 0)) ∅))) in
                (Response 201 (BMessage "User registered successfully"),
                 writeJsonFile users_json (users ++ [newUser]) st)
            end
        end
  | _, _ => (error 400 "Username and password are required", st)
  end.

(** [POST /api/auth/login]; the store is only read. *)
Definition login (c : credentials) (s : session) (st : store) : response * session :=
  match c_username c, c_password c with
  | Some username, Some password =>
      if missing (Some username) || missing (Some password) then
        (error 400 "Username and password are required", s)
      else
        let users := readJsonFile users_json st in
        match find_throwing (same_name username) users with
        | None => (thrown, s)
        | Some None => (error 401 "Invalid username or password", s)
        | Some (Some user) =>
            match bcrypt_compare (str password) (user !! "passwordHash") with
            | None => (error 500 "Error logging in", s)
            | Some false => (error 401 "Invalid username or password", s)
            | Some true =>
                (Response 200
                   (BRecord (set_prop "username" (user !! "username")
                               {[ "message" := JStr "Login successful" ]})),
                 LoginSession (id_of user) (user !! "username"))
            end
        end
  | _, _ => (error 400 "Username and password are required", s)
  end.

(** [GET /api/auth/check] *)
Definition auth_check (s : session) : response :=
  if requireAuth s
  then Response 200 (BRecord (set_prop "username" (s_username s)
                                {[ "authenticated" := JBool true ]}))
  else Response 200 (BRecord {[ "authenticated" := JBool false ]}).

(** [PUT /api/user/username] behind [requireAuth] *)
Definition put_username (username : option string) (s : session) (st : store)
  : response * store * session :=
  if negb (requireAuth s) then (error 401 "Unauthorized", st, s)
  else
  match username with
  | Some username =>
      if missing (Some username) || (utf16_length username <? 3)%nat then
        (error 400 "Username must be at least 3 characters", st, s)
      else
        let users := readJsonFile users_json st in
        let taken u :=
          match same_name username u with
          | Some b => Some (b && negb (strict_eq (id_of u) (s_userId s)))
          | None => None
          end in
        match find_throwing taken users with
        | None => (thrown, st, s)
        | Some (Some existingUser) => (error 400 "Username already exists", st, s)
        | Some None =>
            match findIndex (fun u => strict_eq (id_of u) (s_userId s)) users with
            | None => (error 404 "User not found", st, s)
            | Some userIndex =>
                (Response 200
                   (BRecord {[ "message" := JStr "Username updated successfully";
                               "username" := JStr username ]}),
                 writeJsonFile users_json
                   (assign_at userIndex "username" (str username) users) st,
                 LoginSession (s_userId s) (str username))
            end
        end
  | None => (error 400 "Username must be at least 3 characters", st, s)
  end.

(** [PUT /api/user/password] behind [requireAuth] *)
Definition put_password (currentPassword newPassword : option string) (s : session)
    (st : store) : response * store :=
  if negb (requireAuth s) then (error 401 "Unauthorized", st)
  else
  match currentPassword, newPassword with
  | Some currentPassword, Some newPassword =>
      if missing (Some currentPassword) || missing (Some newPassword) then
        (error 400 "Current password and new password are required", st)
      else if (utf16_length newPassword <? 6)%nat then
        (error 400 "New password must be at least 6 characters", st)
      else
        let users := readJsonFile users_json st in
        match List.find (fun u => strict_eq (id_of u) (s_userId s)) users with
        | None => (error 404 "User not found", st)
        | Some user =>
            match bcrypt_compare (str currentPassword) (user !! "passwordHash") with
            | None => (error 500 "Error changing password", st)
            | Some false => (error 401 "Current password is incorrect", st)
            | Some true =>
                match bcrypt_hash newPassword with
                | None => (error 500 "Error changing password", st)
                | Some newPasswordHash =>
                    match findIndex (fun u => strict_eq (id_of u) (s_userId s)) users with
                    | None => (error 500 "Error changing password", st)
                    | Some userIndex =>
                        (Response 200 (BMessage "Password changed successfully"),
                         writeJsonFile users_json
                           (assign_at userIndex "passwordHash" (str newPasswordHash) users) st)
                    end
                end
            end
        end
  | _, _ => (error 400 "Current password and new password are required", st)
  end.

End Accounts.

(** ** Predicates used in the statements *)

(** No record of any collection carries the user's id as [userId], and no
    user record has it as [id]. *)
Definition purged (uid : string) (st : store) : Prop :=
  (∀ f x, f ≠ users_json → x ∈ readJsonFile f st → userId_of x ≠ str uid)
  ∧ (∀ u, u ∈ users st → id_of u ≠ str uid).

(** What an update route does to the record it finds: it answers 200 with
    the updated record, writes it in place, and the updated record is
    related to the input and the stored record by [rel]. *)
Definition updates_with
    (put : string → string → obj → store → response * store) (f : file)
    (rel : obj → obj → obj → Prop) : Prop :=
  ∀ uid rid reqBody st index stored,
    findIndex (own_with_id rid uid) (readJsonFile f st) = Some index →
    readJsonFile f st !! index = Some stored →
    ∃ updated,
      put uid rid reqBody st =
        (Response 200 (BRecord updated),
         writeJsonFile f (<[index := updated]> (readJsonFile f st)) st)
      ∧ rel reqBody stored updated.

(** The update of section 4.2 in the words of the specification: every key
    present in the input, also with the value [null], overwrites; an absent
    key leaves the stored value; [id] and [userId] keep their stored
    values. *)
Definition shallow_merge (reqBody stored updated : obj) : Prop :=
  (∀ k v, reqBody !! k = Some v → k ≠ "id" → k ≠ "userId" → updated !! k = Some v)
  ∧ (∀ k, reqBody !! k = None → updated !! k = stored !! k)
  ∧ updated !! "id" = stored !! "id"
  ∧ updated !! "userId" = stored !! "userId".

(** The listed fields take the input value unless it is absent or [null]. *)
Definition listed_fields (fields : list string) (reqBody stored updated : obj) : Prop :=
  (∀ k v, k ∈ fields → reqBody !! k = Some v → v ≠ JNull → updated !! k = Some v)
  ∧ (∀ k, k ∈ fields → reqBody !! k = None ∨ reqBody !! k = Some JNull →
          updated !! k = stored !! k).

(** Every key outside [fields] keeps its stored value. *)
Definition others_kept (fields : list string) (stored updated : obj) : Prop :=
  ∀ k, k ∉ fields → updated !! k = stored !! k.

Definition field_merge (fields : list string) (reqBody stored updated : obj) : Prop :=
  listed_fields fields reqBody stored updated ∧ others_kept fields stored updated.

(** The track update: three listed fields, two fields with a default, the
    image URL, and nothing else. *)
Definition track_merge (reqBody stored updated : obj) : Prop :=
  listed_fields ["name"; "location"; "length"] reqBody stored updated
  ∧ updated !! "corners"
    = nullish (nullish (reqBody !! "corners") (stored !! "corners")) (Some (JArr []))
  ∧ updated !! "circuitNotes"
    = nullish (nullish (reqBody !! "circuitNotes") (stored !! "circuitNotes")) (str "")
  ∧ others_kept ["name"; "location"; "length"; "imageUrl"; "corners"; "circuitNotes"]
      stored updated.

(** The image URL the track update writes.  Without a requested URL (it
    is absent or falsy) it is [requested ?? stored].  A requested URL that
    is a non-empty string is written as it is when it starts with
    [/images/] or equals the stored one; otherwise the image is downloaded
    and the local URL is written, or the requested URL when the download
    fails. *)
Definition track_image (downloadTrackImage : string → string → option string)
    (rid : string) (reqBody stored updated : obj) : Prop :=
  (truthy (reqBody !! "imageUrl") = false →
   updated !! "imageUrl" = nullish (reqBody !! "imageUrl") (stored !! "imageUrl"))
  ∧ (∀ url, reqBody !! "imageUrl" = str url → url ≠ "" →
       updated !! "imageUrl" =
         if String.prefix "/images/" url || strict_eq (str url) (stored !! "imageUrl")
         then str url
         else match downloadTrackImage url rid with
              | Some localUrl => str localUrl
              | None => str url
              end).

(** The bulk delete of section 4.6 in the words of the specification:
    the car-deletion cascade of the single-car route for each selected car,
    then the track-deletion cascade of the single-track route for each
    selected track.  An id that is not one of the caller's leaves the store
    as it is. *)
Definition spec_bulk_delete (uid : string) (carIds trackIds : list string)
    (st : store) : store :=
  fold_left (fun st rid => (delete_track uid rid st).2) trackIds
    (fold_left (fun st rid => (delete_car uid rid st).2) carIds st).

(** The ids of the caller's own parents among the requested ones
    ([userCarIds], [userTrackIds]). *)
Definition selected (uid : string) (rids : list string) (parents : list obj)
  : list (option jval) :=
  List.map id_of
    (List.filter (fun c => owned uid c && includes (List.map str rids) (id_of c)) parents).

(** [v] is one of the requested ids and the caller owns a parent with it. *)
Definition names_own (uid : string) (parents : list obj) (rids : list string)
    (v : option jval) : bool :=
  existsb (fun rid => existsb (own_with_id rid uid) parents && strict_eq v (str rid)) rids.

(** One step of a cascade over a parent array and one array of children. *)
Definition cascade_step (fk uid : string) (acc : list obj * list obj) (rid : string)
  : list obj * list obj :=
  match findIndex (own_with_id rid uid) acc.1 with
  | None => acc
  | Some i => (splice1 i acc.1, List.filter (not_child fk rid uid) acc.2)
  end.

(** Identifiers as the data model has them: within the array, the
    caller's records have pairwise distinct ids, and no id is the empty
    string. *)
Definition distinct_ids (uid : string) (l : list obj) : Prop :=
  NoDup (List.map id_of (List.filter (owned uid) l)).

Definition no_empty_id (l : list obj) : Prop :=
  ∀ x, x ∈ l → id_of x ≠ str "".

(** The four kinds of dependent records of an envelope, the file each is
    imported into, and the loop [import] runs for it once the id maps of
    the cars ([cs]) and tracks ([ts]) are built. *)
Inductive dependent := DSetup | DSession | DTrackNote | DMaintenance.



Definition import_dependent (uuidv4 : nat → string) (d : dependent) (overwrite : bool)
    (uid : string) (cs ts : parents) (importRows existingRows : list obj) (issued : nat)
  : children :=
  let newCarIds := values (idMap cs) in
  let newTrackIds := values (idMap ts) in
  let purge2 x := owned uid x && (refers "carId" newCarIds x || refers "trackId" newTrackIds x) in
  let skip2 x := refers "carId" (skippedIds cs) x || refers "trackId" (skippedIds ts) x in
  let fix2 x := remap (idMap ts) "trackId" (remap (idMap cs) "carId" x) in
  match d with
  | DSetup | DTrackNote =>
      import_children uuidv4 overwrite uid purge2 skip2 fix2 importRows existingRows issued
  | DSession =>
      import_sessions uuidv4 overwrite uid purge2 skip2 fix2 importRows existingRows issued
  | DMaintenance =>
      import_children uuidv4 overwrite uid
        (fun m => owned uid m && refers "carId" newCarIds m)
        (refers "carId" (skippedIds cs))
        (remap (idMap cs) "carId") importRows existingRows issued
  end.










(** The generator and [path.extname] used to run [import]. *)
Definition demo_uuidv4 (n : nat) : string := "new-" ++ pretty n.
Definition demo_extname (path : string) : string := "".










(** A value that [===] finds equal to itself when it is read from two
    JSON documents: [undefined] or a primitive, not an array or an object. *)
Definition primitive (v : option jval) : Prop := strict_eq v v = true.







(** ** Predicates of the further properties *)

(** [k] ranges over the query parameters a list route looks at: each one
    that is given (truthy) must equal the record's property. *)
Definition asked (query : obj) (filters : list string) (x : obj) : bool :=
  forallb (fun k => negb (truthy (query !! k)) || strict_eq (x !! k) (query !! k)) filters.


(** No record of [uid] has [rid] as its id or as a foreign key. *)
Definition mentions (rid uid : string) (x : obj) : bool :=
  owned uid x
  && (strict_eq (id_of x) (str rid) || strict_eq (carId_of x) (str rid)
      || strict_eq (trackId_of x) (str rid) || strict_eq (sessionId_of x) (str rid)).

Definition unused (rid uid : string) (st : store) : Prop :=
  ∀ f x, x ∈ readJsonFile f st → mentions rid uid x = false.

(** At most one corner note for a user, a session and a corner name, the
    three compared as the upsert compares them. *)
Definition corner_unique (notes : list obj) : Prop :=
  ∀ uid sessionId cornerName i j a b,
    notes !! i = Some a → notes !! j = Some b →
    same_corner sessionId cornerName uid a = true →
    same_corner sessionId cornerName uid b = true → i = j.

(** Every corner note has its session: a session of the same user whose
    id is the note's [sessionId]. *)
Definition attached_to (sessions notes : list obj) : Prop :=
  ∀ cn, cn ∈ notes →
    ∃ s, s ∈ sessions ∧ strict_eq (id_of s) (sessionId_of cn) = true
         ∧ strict_eq (userId_of s) (userId_of cn) = true.

Definition attached (st : store) : Prop := attached_to (sessions st) (cornerNotes st).

(** No record of another user has the id of a record of [uid]. *)
Definition ids_not_shared (uid : string) (l : list obj) : Prop :=
  ∀ x y, x ∈ l → y ∈ l → owned uid x = true →
         strict_eq (id_of x) (id_of y) = true → owned uid y = true.

(** The record written by an upsert that finds [note]. *)
Definition upserted (reqBody note : obj) : obj :=
  if corner_field (reqBody !! "field")
  then set_prop (prop_key (reqBody !! "field")) (js_or (reqBody !! "value") (str "")) note
  else note.

(** The record written by an upsert that finds none. *)
Definition new_corner_note (newId uid : string) (reqBody : obj) : obj :=
  set_prop "exit" (new_corner_text (reqBody !! "field") (reqBody !! "value") "exit")
  (set_prop "apex" (new_corner_text (reqBody !! "field") (reqBody !! "value") "apex")
  (set_prop "entry" (new_corner_text (reqBody !! "field") (reqBody !! "value") "entry")
  (set_prop "cornerName" (reqBody !! "cornerName")
  (set_prop "sessionId" (reqBody !! "sessionId")
  (set_prop "userId" (str uid)
  (set_prop "id" (str newId) ∅)))))).

(** For each of the seven collections, the count a summary reports plus
    the number of records in the store. *)
Definition tally (sm : delete_summary) (st : store) : list nat :=
  [carsDeleted sm + length (cars st); tracksDeleted sm + length (tracks st);
   setupsDeleted sm + length (setups st); sessionsDeleted sm + length (sessions st);
   cornerNotesDeleted sm + length (cornerNotes st);
   trackNotesDeleted sm + length (trackNotes st);
   maintenanceDeleted sm + length (maintenance st)].

(** The loop variables a block of [import] ends with: the loop is not run
    on an array that is absent or empty. *)
Definition ran (importRows : list obj) (run : list obj → list obj → nat → children)
    (existingRows : list obj) (issued : nat) : children :=
  match importRows with
  | [] => Children existingRows ∅ 0 0 issued
  | _ => run importRows existingRows issued
  end.

(** The state of an import loop that matters to the summary: the array
    being rebuilt, the imported counter and the skipped counter. *)
Definition progress : Type := list obj * nat * nat.

Definition of_parents (p : parents) : progress := (existing p, imported p, skipped p).
Definition of_children (c : children) : progress := (rows c, inserted c, dropped c).

(** [n] records were handled between [before] and [after]: each one was
    counted once; under [overwrite] none was skipped; under [preserve]
    the array only grew, by as many records as were counted imported, all
    of them owned by [uid]. *)
Definition accounted (overwrite : bool) (uid : string) (n : nat)
    (before after : progress) : Prop :=
  after.1.2 + after.2 = before.1.2 + before.2 + n
  ∧ (overwrite = true → after.2 = before.2)
  ∧ (overwrite = false →
     ∃ added, after.1.1 = before.1.1 ++ added
              ∧ length added + before.1.2 = after.1.2
              ∧ ∀ x, x ∈ added → userId_of x = str uid).

(** The number of records an import reports as imported into a file. *)
Definition imported_into (f : file) (sm : import_summary) : nat :=
  match f with
  | cars_json => carsImported sm
  | setups_json => setupsImported sm
  | tracks_json => tracksImported sm
  | sessions_json => sessionsImported sm
  | corner_notes_json => cornerNotesImported sm
  | track_notes_json => trackNotesImported sm
  | maintenance_json => maintenanceImported sm
  | users_json => 0
  end.

(** The user name of a user record as [login] and [register] compare it;
    [None] when it is not a string. *)
Definition lower_name (toLowerCase : string → string) (u : obj) : option string :=
  match u !! "username" with
  | Some (JStr stored) => Some (toLowerCase stored)
  | _ => None
  end.

(** Every user has a string as user name, and no two users have the same
    name when case is ignored. *)
Definition unique_usernames (toLowerCase : string → string) (us : list obj) : Prop :=
  (∀ u, u ∈ us → is_Some (lower_name toLowerCase u))
  ∧ NoDup (List.map (lower_name toLowerCase) us).

(** No two user records have the same id. *)
Definition distinct_user_ids (us : list obj) : Prop :=
  ∀ i j x y, us !! i = Some x → us !! j = Some y →
             strict_eq (id_of x) (id_of y) = true → i = j.

(** The body of an upsert request for one field of a corner. *)
Definition corner_request (sessionId cornerName : jval) (field : string)
    (value : option jval) : obj :=
  set_prop "value" value
    {[ "sessionId" := sessionId; "cornerName" := cornerName; "field" := JStr field ]}.

(** ** A small store used to run the handlers *)

Definition demo_car : obj :=
  {[ "id" := JStr "c1"; "userId" := JStr "u1"; "name" := JStr "MX-5";
     "manufacturer" := JStr "Mazda"; "series" := JStr "Cup" ]}.

Definition demo_track : obj :=
  {[ "id" := JStr "t1"; "userId" := JStr "u1"; "name" := JStr "Spa";
     "location" := JStr "Belgium" ]}.

Definition demo_setup : obj :=
  {[ "id" := JStr "s1"; "userId" := JStr "u1"; "carId" := JStr "c1";
     "trackId" := JStr "t1"; "name" := JStr "Wet"; "toeFront" := JStr "0.5mm" ]}.

Definition demo_session : obj :=
  {[ "id" := JStr "e1"; "userId" := JStr "u1"; "carId" := JStr "c1";
     "trackId" := JStr "t1"; "name" := JStr "Practice" ]}.

Definition demo_corner_note : obj :=
  {[ "id" := JStr "n1"; "userId" := JStr "u1"; "sessionId" := JStr "e1";
     "cornerName" := JStr "Turn 1"; "entry" := JStr "late"; "apex" := JStr "";
     "exit" := JStr "" ]}.

Definition demo_track_note : obj :=
  {[ "id" := JStr "k1"; "userId" := JStr "u1"; "carId" := JStr "c1";
     "trackId" := JStr "t1"; "notes" := JStr "bumpy" ]}.

Definition demo_task : obj :=
  {[ "id" := JStr "m1"; "userId" := JStr "u1"; "carId" := JStr "c1";
     "name" := JStr "Oil change" ]}.

Definition demo_user (uid name : string) : obj :=
  {[ "id" := JStr uid; "username" := JStr name; "passwordHash" := JStr "hash" ]}.

Definition demo_store : store :=
  Store [demo_car] [demo_setup] [demo_track] [demo_session] [demo_corner_note]
        [demo_track_note] [demo_task] [demo_user "u1" "ann"; demo_user "u2" "bob"].

(** Stand-ins for the collaborators, to run the routes on [demo_store]:
    a password check that accepts the word secret, a download that always
    fails, no image file on disk. *)
Definition demo_bcrypt (password hash : option jval) : option bool :=
  Some (strict_eq password (str "secret")).
Definition demo_download (url trackId : string) : option string := None.
Definition demo_now : string := "2024-01-01T00:00:00.000Z".

(** More stand-ins, for the routes that create records and for the
    account routes: the date of the request, ASCII lower-casing, and a
    hash that [demo_compare] recognises. *)
Definition demo_today : string := "2024-01-01".

Definition lower_ascii (c : Ascii.ascii) : Ascii.ascii :=
  let n := Ascii.nat_of_ascii c in
  if (65 <=? n)%nat && (n <=? 90)%nat then Ascii.ascii_of_nat (n + 32) else c.

Fixpoint demo_toLowerCase (s : string) : string :=
  match s with
  | EmptyString => EmptyString
  | String c rest => String (lower_ascii c) (demo_toLowerCase rest)
  end.

Definition demo_hash (password : string) : option string :=
  Some ("hash:" ++ password)%string.

Definition demo_compare (password hash : option jval) : option bool :=
  match password, hash with
  | Some (JStr p), Some (JStr h) => Some (String.eqb h ("hash:" ++ p)%string)
  | _, _ => None
  end.

(** No request of the examples has a string where a number is compared. *)
Definition demo_number_below (s : string) (n : Z) : bool := false.

(** The data directory before anything is stored. *)
Definition empty_store : store := Store [] [] [] [] [] [] [] [].

Definition demo_account (uid name password : string) : obj :=
  {[ "id" := JStr uid; "username" := JStr name;
     "passwordHash" := JStr ("hash:" ++ password)%string ]}.

(** Two users, and a second user's session and corner note beside the
    records of [demo_store]. *)
Definition demo_accounts : store :=
  Store [demo_car] [demo_setup] [demo_track]
        [demo_session;
         {[ "id" := JStr "e2"; "userId" := JStr "u2"; "carId" := JStr "c9";
            "name" := JStr "Race" ]}]
        [demo_corner_note;
         {[ "id" := JStr "n2"; "userId" := JStr "u2"; "sessionId" := JStr "e2";
            "cornerName" := JStr "Turn 1"; "entry" := JStr "early" ]}]
        [demo_track_note] [demo_task]
        [demo_account "u1" "Ann" "secret"; demo_account "u2" "bob" "hunter22"].

(** An envelope for the importing user [u1]: a new car, a car that
    matches [demo_car], a setup of each, a session of the new car and a
    corner note of that session. *)
Definition demo_import_data : export_data :=
  ExportData
    (Some [ {[ "id" := JStr "x1"; "name" := JStr "Elise"; "manufacturer" := JStr "Lotus";
               "series" := JStr "Cup" ]};
            {[ "id" := JStr "x2"; "name" := JStr "MX-5"; "manufacturer" := JStr "Mazda";
               "series" := JStr "Cup" ]} ])
    (Some [])
    (Some [ {[ "id" := JStr "y1"; "carId" := JStr "x1"; "name" := JStr "Dry" ]};
            {[ "id" := JStr "y2"; "carId" := JStr "x2"; "name" := JStr "Wet" ]} ])
    (Some [ {[ "id" := JStr "z1"; "carId" := JStr "x1"; "name" := JStr "Quali" ]} ])
    (Some [ {[ "id" := JStr "w1"; "sessionId" := JStr "z1"; "cornerName" := JStr "Turn 2";
               "entry" := JStr "" ]} ])
    None None None.

Definition demo_import_envelope : envelope :=
  Envelope (Some (JNum 1)) (str demo_now) (str "RaceLog") (Some demo_import_data).

(** * Properties *)

(** ** The JavaScript operators *)

Lemma strict_eq_str v s : strict_eq v (str s) = true ↔ v = str s.
Proof.
  unfold str. destruct v as [[| | |x| |]|]; simpl; split; try discriminate.
  - intros H%String.eqb_eq. by subst.
  - intros [= ->]. apply String.eqb_refl.
Qed.

Lemma strict_eq_eq a b : strict_eq a b = true → a = b.
Proof.
  destruct a as [[]|], b as [[]|]; simpl; try discriminate; try done.
  - intros H%Bool.eqb_prop. by subst.
  - intros H%Z.eqb_eq. by subst.
  - intros H%String.eqb_eq. by subst.
Qed.

Lemma strict_eq_sym a b : strict_eq a b = strict_eq b a.
Proof.
  destruct a as [[]|], b as [[]|]; simpl; try done.
  - by destruct b0, b.
  - apply Z.eqb_sym.
  - apply String.eqb_sym.
Qed.

Lemma own_with_id_spec rid uid x :
  own_with_id rid uid x = true ↔ id_of x = str rid ∧ userId_of x = str uid.
Proof. unfold own_with_id. rewrite andb_true_iff, !strict_eq_str. done. Qed.

Lemma owned_spec uid x : owned uid x = true ↔ userId_of x = str uid.
Proof. apply strict_eq_str. Qed.

Lemma own_with_id_owned rid uid x : own_with_id rid uid x = true → owned uid x = true.
Proof. rewrite own_with_id_spec, owned_spec. tauto. Qed.

Lemma nonempty_spec s : nonempty s = true ↔ s ≠ "".
Proof. destruct s; simpl; split; try done. Qed.

(** ** Arrays *)

Lemma findIndex_None {A} (p : A → bool) l :
  findIndex p l = None ↔ ∀ x, x ∈ l → p x = false.
Proof.
  induction l as [|a l IH]; simpl.
  - split; [intros _ x Hx; by apply elem_of_nil in Hx | done].
  - destruct (p a) eqn:Ha.
    + split; [done|]. intros H. specialize (H a (list_elem_of_here _ _)). congruence.
    + destruct (findIndex p l) eqn:Hf; simpl.
      * split; [done|]. intros H.
        assert (Some n = None) as [=]. apply IH. intros x Hx. apply H. by right.
      * split; [|done]. intros _ x [->|Hx]%elem_of_cons; [done|]. by apply IH.
Qed.

Lemma findIndex_Some {A} (p : A → bool) l i :
  findIndex p l = Some i →
  ∃ x, l !! i = Some x ∧ p x = true ∧ ∀ y, y ∈ take i l → p y = false.
Proof.
  revert i. induction l as [|a l IH]; intros i; simpl; [done|].
  destruct (p a) eqn:Ha.
  - intros [= <-]. exists a. split_and!; [done..|]. simpl. intros y Hy.
    by apply elem_of_nil in Hy.
  - destruct (findIndex p l) eqn:Hf; simpl; [|done]. intros [= <-].
    destruct (IH _ eq_refl) as (x & Hx & Hpx & Hbefore). exists x.
    split_and!; [done..|]. simpl. intros y [->|Hy]%elem_of_cons; [done|]. by apply Hbefore.
Qed.

Lemma findIndex_is_Some {A} (p : A → bool) l x :
  x ∈ l → p x = true → is_Some (findIndex p l).
Proof.
  intros Hx Hp. destruct (findIndex p l) eqn:Hf; [by eexists|].
  rewrite findIndex_None in Hf. rewrite (Hf x Hx) in Hp. done.
Qed.

Lemma splice1_spec {A} (l : list A) i x :
  l !! i = Some x → l = take i l ++ x :: drop (S i) l.
Proof. intros H. by rewrite <- (take_drop_middle l i x H) at 1. Qed.

Lemma filter_app_cons_out {A} (q : A → bool) l1 x l2 :
  q x = false → List.filter q (l1 ++ x :: l2) = List.filter q (l1 ++ l2).
Proof. intros H. rewrite !List.filter_app. simpl. by rewrite H. Qed.

Lemma filter_splice1 {A} (q : A → bool) (l : list A) i x :
  l !! i = Some x → q x = false → List.filter q (splice1 i l) = List.filter q l.
Proof.
  intros Hl Hq. unfold splice1. rewrite (splice1_spec l i x Hl) at 3.
  by rewrite filter_app_cons_out.
Qed.

Lemma filter_insert_out {A} (q : A → bool) (l : list A) i x y :
  l !! i = Some x → q x = false → q y = false →
  List.filter q (<[i := y]> l) = List.filter q l.
Proof.
  intros Hl Hx Hy. rewrite (splice1_spec l i x Hl) at 2.
  rewrite insert_take_drop by (by eapply lookup_lt_Some).
  by rewrite !filter_app_cons_out.
Qed.

Lemma filter_filter_in {A} (p q : A → bool) l :
  List.filter p (List.filter q l) = List.filter (fun x => q x && p x) l.
Proof.
  induction l as [|a l IH]; simpl; [done|].
  destruct (q a); simpl; [destruct (p a)|]; by rewrite IH.
Qed.

Lemma filter_ext_elem {A} (p q : A → bool) l :
  (∀ x, x ∈ l → p x = q x) → List.filter p l = List.filter q l.
Proof.
  intros H. apply List.filter_ext_in. intros x Hx. apply H. by apply list_elem_of_In.
Qed.

Lemma elem_of_filter_bool {A} (p : A → bool) l x :
  x ∈ List.filter p l ↔ x ∈ l ∧ p x = true.
Proof. rewrite !list_elem_of_In. apply List.filter_In. Qed.

(** ** The store *)

Lemma read_write_same f data st : readJsonFile f (writeJsonFile f data st) = data.
Proof. by destruct f. Qed.

Lemma read_write_other f g data st :
  f ≠ g → readJsonFile f (writeJsonFile g data st) = readJsonFile f st.
Proof. by destruct f, g. Qed.

Lemma write_read_id f st : writeJsonFile f (readJsonFile f st) st = st.
Proof. by destruct f, st. Qed.

Lemma store_ext st1 st2 :
  (∀ f, readJsonFile f st1 = readJsonFile f st2) → st1 = st2.
Proof.
  intros H. destruct st1, st2.
  pose proof (H cars_json). pose proof (H setups_json). pose proof (H tracks_json).
  pose proof (H sessions_json). pose proof (H corner_notes_json).
  pose proof (H track_notes_json). pose proof (H maintenance_json).
  pose proof (H users_json). simpl in *. congruence.
Qed.

(** ** Closed forms of the cascading deletes *)

Lemma delete_car_found uid rid st i :
  findIndex (own_with_id rid uid) (cars st) = Some i →
  delete_car uid rid st =
    (Response 204 BEmpty,
     Store (splice1 i (cars st))
       (List.filter (not_child "carId" rid uid) (setups st))
       (tracks st) (sessions st) (cornerNotes st)
       (List.filter (not_child "carId" rid uid) (trackNotes st))
       (List.filter (not_child "carId" rid uid) (maintenance st))
       (users st)).
Proof. intros H. unfold delete_car. simpl. by rewrite H. Qed.

Lemma delete_car_missing uid rid st :
  findIndex (own_with_id rid uid) (cars st) = None →
  delete_car uid rid st = (error 404 "Car not found", st).
Proof. intros H. unfold delete_car. simpl. by rewrite H. Qed.

Lemma delete_track_found uid rid st i :
  findIndex (own_with_id rid uid) (tracks st) = Some i →
  delete_track uid rid st =
    (Response 204 BEmpty,
     Store (cars st)
       (List.map (clear_track rid uid) (setups st))
       (splice1 i (tracks st)) (sessions st) (cornerNotes st)
       (List.filter (not_child "trackId" rid uid) (trackNotes st))
       (maintenance st) (users st)).
Proof. intros H. unfold delete_track. simpl. by rewrite H. Qed.

Lemma delete_track_missing uid rid st :
  findIndex (own_with_id rid uid) (tracks st) = None →
  delete_track uid rid st = (error 404 "Track not found", st).
Proof. intros H. unfold delete_track. simpl. by rewrite H. Qed.

Lemma not_child_spec fk rid uid x :
  not_child fk rid uid x = true ↔ ¬ (x !! fk = str rid ∧ userId_of x = str uid).
Proof.
  unfold not_child. rewrite negb_true_iff, <- not_true_iff_false, andb_true_iff.
  by rewrite !strict_eq_str.
Qed.

Lemma not_child_of_not_owned fk rid uid x :
  not_owned uid x = true → not_child fk rid uid x = true.
Proof.
  unfold not_owned. rewrite negb_true_iff, not_child_spec. intros H [_ Hu].
  apply owned_spec in Hu. congruence.
Qed.

(** A filter that keeps every record of the other users does not change
    what the other users see. *)
Lemma filter_keeps_others (q : obj → bool) uid l :
  (∀ x, not_owned uid x = true → q x = true) →
  List.filter (not_owned uid) (List.filter q l) = List.filter (not_owned uid) l.
Proof.
  intros H. rewrite filter_filter_in. apply filter_ext_elem. intros x _.
  destruct (not_owned uid x) eqn:Hn; [by rewrite (H x Hn)|]. by rewrite andb_false_r.
Qed.

Lemma clear_track_owner rid uid s : userId_of (clear_track rid uid s) = userId_of s.
Proof.
  unfold clear_track. destruct (_ && _); [|done]. unfold userId_of. simpl.
  by rewrite lookup_insert_ne.
Qed.

Lemma map_keeps_others (g : obj → obj) uid l :
  (∀ x, not_owned uid x = true → g x = x) →
  (∀ x, not_owned uid (g x) = not_owned uid x) →
  List.filter (not_owned uid) (List.map g l) = List.filter (not_owned uid) l.
Proof.
  intros Hid Hown. induction l as [|a l IH]; simpl; [done|].
  rewrite Hown. destruct (not_owned uid a) eqn:Ha; [|done]. by rewrite (Hid a Ha), IH.
Qed.

Lemma clear_track_keeps_others rid uid l :
  List.filter (not_owned uid) (List.map (clear_track rid uid) l)
  = List.filter (not_owned uid) l.
Proof.
  apply map_keeps_others.
  - intros x Hx. unfold clear_track. unfold not_owned, owned in Hx.
    apply negb_true_iff in Hx. by rewrite Hx, andb_false_r.
  - intros x. unfold not_owned, owned. by rewrite clear_track_owner.
Qed.

Lemma splice1_keeps_others rid uid l i :
  findIndex (own_with_id rid uid) l = Some i →
  List.filter (not_owned uid) (splice1 i l) = List.filter (not_owned uid) l.
Proof.
  intros (x & Hx & Hp & _)%findIndex_Some. apply (filter_splice1 _ _ _ x Hx).
  unfold not_owned. by rewrite (own_with_id_owned _ _ _ Hp).
Qed.

(** ** Car deletion *)

(** C4. When a user deletes one of their cars, that user's setups, track
    notes and maintenance tasks for the car are removed, not nullified:
    each of the three collections is the old one without the records that
    have the car's id as [carId] and the caller as [userId], every other
    record being kept as it was and in place.  So no record of the caller
    in them still has the car's id as [carId].  One car is removed, the
    first one of the caller with that id; tracks, sessions, corner notes
    and users are not written; and in every collection the records that
    are not the caller's are exactly what they were, whatever [carId] they
    carry. *)
Theorem delete_car_cascade (uid rid : string) (st : store) (c : obj) :
  c ∈ cars st → id_of c = str rid → userId_of c = str uid →
  let dependent_of_car x :=
    strict_eq (carId_of x) (str rid) && strict_eq (userId_of x) (str uid) in
  status (delete_car uid rid st).1 = 204
  ∧ (∀ x, x ∈ setups (delete_car uid rid st).2
          ∨ x ∈ maintenance (delete_car uid rid st).2
          ∨ x ∈ trackNotes (delete_car uid rid st).2 →
          ¬ (carId_of x = str rid ∧ userId_of x = str uid))
  ∧ (∀ f, List.filter (not_owned uid) (readJsonFile f (delete_car uid rid st).2)
          = List.filter (not_owned uid) (readJsonFile f st))
  ∧ setups (delete_car uid rid st).2
    = List.filter (fun x => negb (dependent_of_car x)) (setups st)
  ∧ trackNotes (delete_car uid rid st).2
    = List.filter (fun x => negb (dependent_of_car x)) (trackNotes st)
  ∧ maintenance (delete_car uid rid st).2
    = List.filter (fun x => negb (dependent_of_car x)) (maintenance st)
  ∧ (∃ l1 c' l2, cars st = l1 ++ c' :: l2 ∧ cars (delete_car uid rid st).2 = l1 ++ l2
                 ∧ id_of c' = str rid ∧ userId_of c' = str uid
                 ∧ ∀ y, y ∈ l1 → ¬ (id_of y = str rid ∧ userId_of y = str uid))
  ∧ (∀ f, f ∈ [tracks_json; sessions_json; corner_notes_json; users_json] →
          readJsonFile f (delete_car uid rid st).2 = readJsonFile f st).
Proof.
  intros Hc Hid Hu. cbv zeta.
  destruct (findIndex_is_Some (own_with_id rid uid) (cars st) c Hc) as [i Hi].
  { by apply own_with_id_spec. }
  rewrite (delete_car_found _ _ _ _ Hi). simpl. split_and!; [done| | |done..| |].
  - intros x Hx. apply (not_child_spec "carId").
    destruct Hx as [Hx|[Hx|Hx]]; by apply elem_of_filter_bool in Hx as [_ Hx].
  - intros []; simpl; try done.
    + by eapply splice1_keeps_others.
    + apply filter_keeps_others, not_child_of_not_owned.
    + apply filter_keeps_others, not_child_of_not_owned.
    + apply filter_keeps_others, not_child_of_not_owned.
  - destruct (findIndex_Some _ _ _ Hi) as (c' & Hc' & Hp & Hbefore).
    apply own_with_id_spec in Hp as [Hid' Hu'].
    exists (take i (cars st)), c', (drop (S i) (cars st)). split_and!; [|done..|].
    + by apply splice1_spec.
    + intros y Hy Hown. specialize (Hbefore y Hy). apply own_with_id_spec in Hown.
      congruence.
  - intros f Hf.
    assert (f = tracks_json ∨ f = sessions_json ∨ f = corner_notes_json ∨ f = users_json)
      as [->|[->|[->| ->]]] by set_solver; done.
Qed.

(** ** Account deletion *)

Lemma filter_not_owned_purged uid l x :
  x ∈ List.filter (not_owned uid) l → userId_of x ≠ str uid.
Proof.
  intros [_ H]%elem_of_filter_bool Hu. unfold not_owned in H.
  apply negb_true_iff in H. apply owned_spec in Hu. congruence.
Qed.

Section Account.

Variable bcrypt_compare : option jval → option jval → option bool.

Lemma delete_user_verified uid reqBody st user :
  truthy (reqBody !! "password") = true →
  List.find (fun u => strict_eq (id_of u) (str uid)) (users st) = Some user →
  bcrypt_compare (reqBody !! "password") (user !! "passwordHash") = Some true →
  delete_user bcrypt_compare uid reqBody st =
    (Response 200 (BMessage "Account deleted successfully"),
     Store (List.filter (not_owned uid) (cars st))
       (List.filter (not_owned uid) (setups st))
       (List.filter (not_owned uid) (tracks st))
       (List.filter (not_owned uid) (sessions st))
       (List.filter (not_owned uid) (cornerNotes st))
       (List.filter (not_owned uid) (trackNotes st))
       (List.filter (not_owned uid) (maintenance st))
       (List.filter (fun u => negb (strict_eq (id_of u) (str uid))) (users st))).
Proof. intros Hp Hf Hb. unfold delete_user. simpl. by rewrite Hp, Hf, Hb. Qed.

Lemma delete_user_purges uid st :
  purged uid
    (Store (List.filter (not_owned uid) (cars st))
       (List.filter (not_owned uid) (setups st))
       (List.filter (not_owned uid) (tracks st))
       (List.filter (not_owned uid) (sessions st))
       (List.filter (not_owned uid) (cornerNotes st))
       (List.filter (not_owned uid) (trackNotes st))
       (List.filter (not_owned uid) (maintenance st))
       (List.filter (fun u => negb (strict_eq (id_of u) (str uid))) (users st))).
Proof.
  split.
  - intros [] x Hf; simpl; try done; apply filter_not_owned_purged.
  - simpl. intros u [_ H]%elem_of_filter_bool Hu.
    apply negb_true_iff in H. apply strict_eq_str in Hu. congruence.
Qed.

(** C6. Account deletion is all or nothing.  Whatever the request, it
    either answers 200 and leaves no record with the user's [userId] in any
    collection and no user record with that id, or it answers an error and
    leaves every collection as it was.  For an existing user who supplies a
    password: when verification fails the answer is an AuthenticationError
    and the store is unchanged; when it succeeds the account is purged. *)
Theorem delete_user_all_or_nothing (uid : string) (reqBody : obj) (st : store) :
  let r := delete_user bcrypt_compare uid reqBody st in
  ((status r.1 = 200 ∧ purged uid r.2) ∨ (status r.1 ≠ 200 ∧ r.2 = st))
  ∧ (∀ user,
       truthy (reqBody !! "password") = true →
       List.find (fun u => strict_eq (id_of u) (str uid)) (users st) = Some user →
       (bcrypt_compare (reqBody !! "password") (user !! "passwordHash") = Some false →
        AuthenticationError r.1 ∧ r.2 = st)
       ∧ (bcrypt_compare (reqBody !! "password") (user !! "passwordHash") = Some true →
          status r.1 = 200 ∧ purged uid r.2)).
Proof.
  simpl. split.
  - unfold delete_user. destruct (truthy (reqBody !! "password")) eqn:Hp; simpl;
      [|right; split; [unfold error; simpl; lia|done]].
    destruct (List.find (fun u => strict_eq (id_of u) (str uid)) (users st))
      as [user|] eqn:Hf;
      [|right; split; [unfold error; simpl; lia|done]].
    destruct (bcrypt_compare (reqBody !! "password") (user !! "passwordHash"))
      as [[]|] eqn:Hb; [|right; split; [unfold error; simpl; lia|done]..].
    left. split; [done|]. apply delete_user_purges.
  - intros user Hp Hf. split; intros Hb.
    + unfold delete_user. simpl in *. rewrite Hp, Hf, Hb. by split.
    + rewrite (delete_user_verified _ _ _ _ Hp Hf Hb). simpl. split; [done|].
      apply delete_user_purges.
Qed.

End Account.

(** ** Ownership isolation *)

Lemma set_prop_lookup k v (o : obj) k' :
  set_prop k v o !! k' = if decide (k = k') then v else o !! k'.
Proof.
  unfold set_prop. destruct v; case_decide; subst.
  - apply lookup_insert_eq.
  - by apply lookup_insert_ne.
  - apply lookup_delete_eq.
  - by apply lookup_delete_ne.
Qed.

Lemma set_prop_lookup_ne k v (o : obj) k' : k ≠ k' → set_prop k v o !! k' = o !! k'.
Proof. intros. rewrite set_prop_lookup. by case_decide. Qed.

Lemma set_prop_lookup_eq k v (o : obj) : set_prop k v o !! k = v.
Proof. rewrite set_prop_lookup. by case_decide. Qed.

(** Reads a property through a stack of property writes on distinct,
    literal keys. *)
Ltac read_props :=
  repeat first
    [ rewrite set_prop_lookup_eq
    | rewrite lookup_insert_eq
    | rewrite set_prop_lookup_ne by done
    | rewrite lookup_insert_ne by done ].

Lemma merge_fields_lookup fields reqBody stored k :
  merge_fields fields reqBody stored !! k =
    if decide (k ∈ fields) then nullish (reqBody !! k) (stored !! k) else stored !! k.
Proof.
  unfold merge_fields.
  assert (∀ acc : obj,
    fold_left (fun acc k => set_prop k (nullish (reqBody !! k) (stored !! k)) acc)
      fields acc !! k
    = if decide (k ∈ fields) then nullish (reqBody !! k) (stored !! k) else acc !! k)
    as H; [|apply H].
  induction fields as [|a fs IH]; intros acc; cbn [fold_left].
  - case_decide as H; [by apply elem_of_nil in H|done].
  - rewrite IH. rewrite set_prop_lookup.
    destruct (decide (k ∈ a :: fs)) as [Hin'|Hin'];
      destruct (decide (k ∈ fs)) as [Hin|Hin]; try done.
    + apply elem_of_cons in Hin' as [->|?]; [|done]. by case_decide.
    + exfalso. apply Hin'. by right.
    + case_decide as Hak; [|done]. exfalso. apply Hin'. subst. by left.
Qed.

Lemma merge_spread_lookup reqBody stored k :
  merge_spread reqBody stored !! k =
    if decide (k = "id" ∨ k = "userId") then stored !! k
    else match reqBody !! k with Some v => Some v | None => stored !! k end.
Proof.
  unfold merge_spread, spread, userId_of, id_of. rewrite !set_prop_lookup.
  destruct (decide ("userId" = k)) as [Hu|Hu].
  { subst. case_decide as Hk; [done|]. exfalso. apply Hk. by right. }
  destruct (decide ("id" = k)) as [Hi|Hi].
  { subst. case_decide as Hk; [done|]. exfalso. apply Hk. by left. }
  case_decide as Hk; [by destruct Hk as [->| ->]|].
  rewrite lookup_union. destruct (reqBody !! k), (stored !! k); done.
Qed.

Lemma NoDup_map_inj (l : list obj) (x y : obj) :
  NoDup (List.map id_of l) → x ∈ l → y ∈ l → id_of x = id_of y → x = y.
Proof.
  induction l as [|a l IH]; simpl; intros Hnd Hx Hy Heq.
  - by apply elem_of_nil in Hx.
  - apply NoDup_cons in Hnd as [Ha Hnd].
    assert (∀ z, z ∈ l → id_of z ≠ id_of a) as Hfresh.
    { intros z Hz Hza. apply Ha. rewrite <- Hza. apply list_elem_of_In, List.in_map.
      by apply list_elem_of_In. }
    apply elem_of_cons in Hx as [->|Hx]; apply elem_of_cons in Hy as [->|Hy]; try done.
    + exfalso. by eapply Hfresh.
    + exfalso. by eapply Hfresh.
    + by apply IH.
Qed.

Lemma get_one_missing f msg uid rid st :
  (∀ x, x ∈ readJsonFile f st → own_with_id rid uid x = false) →
  get_one f msg uid rid st = (error 404 msg, st).
Proof.
  intros H. unfold get_one.
  destruct (List.find _ _) as [x|] eqn:Hf; [|done].
  apply List.find_some in Hf as [Hin Hp]. apply list_elem_of_In in Hin.
  rewrite (H x Hin) in Hp. done.
Qed.

Lemma put_one_missing f msg merge uid rid reqBody st :
  (∀ x, x ∈ readJsonFile f st → own_with_id rid uid x = false) →
  put_one f msg merge uid rid reqBody st = (error 404 msg, st).
Proof. intros H%findIndex_None. unfold put_one. simpl. by rewrite H. Qed.

Lemma delete_one_missing f msg uid rid st :
  (∀ x, x ∈ readJsonFile f st → own_with_id rid uid x = false) →
  delete_one f msg uid rid st = (error 404 msg, st).
Proof. intros H%findIndex_None. unfold delete_one. simpl. by rewrite H. Qed.

Lemma put_track_missing download uid rid reqBody st :
  (∀ x, x ∈ tracks st → own_with_id rid uid x = false) →
  put_track download uid rid reqBody st = (error 404 "Track not found", st).
Proof. intros H%findIndex_None. unfold put_track. simpl. by rewrite H. Qed.

Lemma delete_session_missing uid rid st :
  (∀ x, x ∈ sessions st → own_with_id rid uid x = false) →
  delete_session uid rid st = (error 404 "Session not found", st).
Proof. intros H%findIndex_None. unfold delete_session. simpl. by rewrite H. Qed.

(** *** What a route can touch: only records of the caller *)

Lemma get_one_store f msg uid rid st : (get_one f msg uid rid st).2 = st.
Proof. unfold get_one. by destruct (List.find _ _). Qed.

Lemma not_owned_of_own rid uid x : own_with_id rid uid x = true → not_owned uid x = false.
Proof. intros H. unfold not_owned. by rewrite (own_with_id_owned _ _ _ H). Qed.

Lemma not_owned_same_owner uid x y :
  userId_of y = userId_of x → not_owned uid y = not_owned uid x.
Proof. intros H. unfold not_owned, owned. by rewrite H. Qed.

Lemma write_keeps_others f uid data st :
  List.filter (not_owned uid) data = List.filter (not_owned uid) (readJsonFile f st) →
  ∀ g, List.filter (not_owned uid) (readJsonFile g (writeJsonFile f data st))
       = List.filter (not_owned uid) (readJsonFile g st).
Proof. intros H g. destruct f, g; simpl in *; done. Qed.

Lemma put_one_keeps_others f msg merge uid rid reqBody st :
  (∀ stored, userId_of (merge reqBody stored) = userId_of stored) →
  ∀ g, List.filter (not_owned uid) (readJsonFile g (put_one f msg merge uid rid reqBody st).2)
       = List.filter (not_owned uid) (readJsonFile g st).
Proof.
  intros Hmerge. unfold put_one. cbv zeta.
  destruct (findIndex (own_with_id rid uid) (readJsonFile f st)) as [i|] eqn:Hi; [|done].
  destruct (findIndex_Some _ _ _ Hi) as (x & Hx & Hp & _). rewrite Hx. cbn [snd].
  apply write_keeps_others. apply (filter_insert_out _ _ _ x); [done|..].
  - by eapply not_owned_of_own.
  - rewrite (not_owned_same_owner _ x) by apply Hmerge. by eapply not_owned_of_own.
Qed.

Lemma merge_fields_owner fields reqBody stored :
  "userId" ∉ fields → userId_of (merge_fields fields reqBody stored) = userId_of stored.
Proof. intros H. unfold userId_of. rewrite merge_fields_lookup. by rewrite decide_False. Qed.

Lemma merge_spread_owner reqBody stored :
  userId_of (merge_spread reqBody stored) = userId_of stored.
Proof.
  unfold userId_of. rewrite merge_spread_lookup. rewrite decide_True; [done|]. by right.
Qed.

Lemma put_track_keeps_others downloadTrackImage uid rid reqBody st :
  ∀ g, List.filter (not_owned uid)
         (readJsonFile g (put_track downloadTrackImage uid rid reqBody st).2)
       = List.filter (not_owned uid) (readJsonFile g st).
Proof.
  unfold put_track. cbv zeta.
  destruct (findIndex (own_with_id rid uid) (readJsonFile tracks_json st)) as [i|] eqn:Hi;
    [|done].
  destruct (findIndex_Some _ _ _ Hi) as (x & Hx & Hp & _). rewrite Hx.
  match goal with
  | |- context [match ?e with Some _ => _ | None => (thrown, st) end] =>
      destruct e as [imageUrl|]; [|done]
  end.
  cbn [snd]. apply write_keeps_others. apply (filter_insert_out _ _ _ x); [done|..].
  - by eapply not_owned_of_own.
  - rewrite (not_owned_same_owner _ x); [by eapply not_owned_of_own|].
    unfold userId_of. rewrite !set_prop_lookup_ne by done.
    rewrite merge_fields_lookup. rewrite decide_False; [done|]. set_solver.
Qed.

Lemma delete_one_keeps_others f msg uid rid st :
  ∀ g, List.filter (not_owned uid) (readJsonFile g (delete_one f msg uid rid st).2)
       = List.filter (not_owned uid) (readJsonFile g st).
Proof.
  unfold delete_one. cbv zeta.
  destruct (findIndex (own_with_id rid uid) (readJsonFile f st)) as [i|] eqn:Hi; [|done].
  cbn [snd]. apply write_keeps_others. by eapply splice1_keeps_others.
Qed.

Lemma delete_car_keeps_others uid rid st :
  ∀ g, List.filter (not_owned uid) (readJsonFile g (delete_car uid rid st).2)
       = List.filter (not_owned uid) (readJsonFile g st).
Proof.
  destruct (findIndex (own_with_id rid uid) (cars st)) as [i|] eqn:Hi.
  - rewrite (delete_car_found _ _ _ _ Hi). intros []; simpl; try done.
    + by eapply splice1_keeps_others.
    + apply filter_keeps_others, not_child_of_not_owned.
    + apply filter_keeps_others, not_child_of_not_owned.
    + apply filter_keeps_others, not_child_of_not_owned.
  - by rewrite (delete_car_missing _ _ _ Hi).
Qed.

Lemma delete_track_keeps_others uid rid st :
  ∀ g, List.filter (not_owned uid) (readJsonFile g (delete_track uid rid st).2)
       = List.filter (not_owned uid) (readJsonFile g st).
Proof.
  destruct (findIndex (own_with_id rid uid) (tracks st)) as [i|] eqn:Hi.
  - rewrite (delete_track_found _ _ _ _ Hi). intros []; simpl; try done.
    + apply clear_track_keeps_others.
    + by eapply splice1_keeps_others.
    + apply filter_keeps_others, not_child_of_not_owned.
  - by rewrite (delete_track_missing _ _ _ Hi).
Qed.

Lemma delete_session_keeps_others uid rid st :
  ∀ g, List.filter (not_owned uid) (readJsonFile g (delete_session uid rid st).2)
       = List.filter (not_owned uid) (readJsonFile g st).
Proof.
  unfold delete_session. cbv zeta. simpl readJsonFile at 1.
  destruct (findIndex (own_with_id rid uid) (sessions st)) as [i|] eqn:Hi; [|done].
  intros []; simpl; try done.
  - by eapply splice1_keeps_others.
  - apply filter_keeps_others, not_child_of_not_owned.
Qed.

(** Whatever the ids, a single-record route leaves in place, in every
    collection, the records that are not the caller's. *)
Lemma route_keeps_others downloadTrackImage k op h uid rid st :
  route downloadTrackImage k op = Some h →
  ∀ g, List.filter (not_owned uid) (readJsonFile g (h uid rid st).2)
       = List.filter (not_owned uid) (readJsonFile g st).
Proof.
  intros Hroute.
  destruct k, op; simpl in Hroute; simplify_eq;
    unfold get_car, get_setup, get_track, get_track_note, get_corner_note,
      get_session, get_maintenance, put_car, put_setup, put_track_note,
      put_session, put_maintenance, delete_setup, delete_track_note,
      delete_corner_note, delete_maintenance;
    first [ by rewrite get_one_store
          | apply put_one_keeps_others; intros stored;
            first [ apply merge_spread_owner
                  | apply merge_fields_owner; unfold car_fields, track_note_fields,
                      session_fields; set_solver ]
          | apply put_track_keeps_others
          | apply delete_one_keeps_others
          | apply delete_car_keeps_others
          | apply delete_track_keeps_others
          | apply delete_session_keeps_others ].
Qed.

(** C7. A record of user [u1] cannot be read, updated or deleted by another
    user [u2].  With identifiers unique within the collection, as the data
    model has them, every single-record route answers NotFound (404, the
    same answer as for an id that does not exist) and leaves the whole store
    as it was.  Even without that assumption the route leaves the records
    that are not the caller's exactly as they were in every collection, so
    the record of [u1] is still there. *)
Theorem ownership_isolation (downloadTrackImage : string → string → option string)
    (k : kind) (op : operation) (h : string → string → store → response * store)
    (u1 u2 rid : string) (st : store) (r : obj) :
  route downloadTrackImage k op = Some h →
  u1 ≠ u2 →
  r ∈ readJsonFile (collection k) st →
  id_of r = str rid →
  userId_of r = str u1 →
  (NoDup (List.map id_of (readJsonFile (collection k) st)) →
   NotFound (h u2 rid st).1 ∧ (h u2 rid st).2 = st)
  ∧ r ∈ readJsonFile (collection k) (h u2 rid st).2
  ∧ (∀ f, List.filter (not_owned u2) (readJsonFile f (h u2 rid st).2)
          = List.filter (not_owned u2) (readJsonFile f st)).
Proof.
  intros Hroute Hne Hr Hid Hu.
  assert (not_owned u2 r = true) as Hnot.
  { unfold not_owned. apply negb_true_iff, not_true_iff_false. intros Ho%owned_spec.
    rewrite Hu in Ho. unfold str in Ho. congruence. }
  pose proof (route_keeps_others downloadTrackImage k op h u2 rid st Hroute) as Hframe.
  split_and!; [| |exact Hframe].
  2:{ assert (r ∈ List.filter (not_owned u2) (readJsonFile (collection k) st)) as Hin
        by (by apply elem_of_filter_bool).
      rewrite <- Hframe in Hin. by apply elem_of_filter_bool in Hin as [? _]. }
  intros Hnd.
  assert (∀ x, x ∈ readJsonFile (collection k) st → own_with_id rid u2 x = false)
    as Hnone.
  { intros x Hx. apply not_true_iff_false. intros [Hxi Hxu]%own_with_id_spec.
    assert (x = r) as -> by (eapply NoDup_map_inj; [done..|congruence]).
    rewrite Hu in Hxu. unfold str in Hxu. congruence. }
  unfold NotFound. clear Hframe.
  destruct k, op; simpl in Hroute, Hnone; simplify_eq;
    unfold get_car, get_setup, get_track, get_track_note, get_corner_note,
      get_session, get_maintenance, put_car, put_setup, put_track_note,
      put_session, put_maintenance, delete_setup, delete_track_note,
      delete_corner_note, delete_maintenance;
    first [ rewrite get_one_missing by done
          | rewrite put_one_missing by done
          | rewrite delete_one_missing by done
          | rewrite put_track_missing by done
          | rewrite delete_session_missing by done
          | rewrite delete_car_missing by (by apply findIndex_None)
          | rewrite delete_track_missing by (by apply findIndex_None) ];
    done.
Qed.

(** ** Updates *)

Lemma put_one_found f msg merge uid rid reqBody st index stored :
  findIndex (own_with_id rid uid) (readJsonFile f st) = Some index →
  readJsonFile f st !! index = Some stored →
  put_one f msg merge uid rid reqBody st =
    (Response 200 (BRecord (merge reqBody stored)),
     writeJsonFile f (<[index := merge reqBody stored]> (readJsonFile f st)) st).
Proof. intros Hi Hs. unfold put_one. simpl. by rewrite Hi, Hs. Qed.

Lemma nullish_value b s v : b = Some v → v ≠ JNull → nullish b s = Some v.
Proof. intros -> Hv. by destruct v. Qed.

Lemma nullish_absent b s : b = None ∨ b = Some JNull → nullish b s = s.
Proof. by intros [-> | ->]. Qed.

Lemma merge_fields_field_merge fields reqBody stored :
  field_merge fields reqBody stored (merge_fields fields reqBody stored).
Proof.
  split; [split|].
  - intros k v Hk Hb Hv. rewrite merge_fields_lookup. rewrite decide_True by done.
    by apply nullish_value.
  - intros k Hk Hb. rewrite merge_fields_lookup. rewrite decide_True by done.
    by apply nullish_absent.
  - intros k Hk. rewrite merge_fields_lookup. by rewrite decide_False.
Qed.

Lemma merge_spread_shallow_merge reqBody stored :
  shallow_merge reqBody stored (merge_spread reqBody stored).
Proof.
  split_and!.
  - intros k v Hb Hi Hu. rewrite merge_spread_lookup, Hb.
    rewrite decide_False; [done|]. by intros [|].
  - intros k Hb. rewrite merge_spread_lookup, Hb. by case_decide.
  - rewrite merge_spread_lookup. rewrite decide_True; [done|]. by left.
  - rewrite merge_spread_lookup. rewrite decide_True; [done|]. by right.
Qed.

(** C3 as worded fails on the car route: an explicit [null] for [name]
    does not clear the stored name. *)
Lemma put_car_null_keeps_name :
  ¬ updates_with put_car cars_json shallow_merge.
Proof.
  intros H.
  destruct (H "u1" "c1" {[ "name" := JNull ]} demo_store 0 demo_car eq_refl eq_refl)
    as (updated & Hput & Hover & _).
  specialize (Hover "name" JNull eq_refl).
  assert (updated !! "name" = Some (JStr "MX-5")) as Hname.
  { vm_compute in Hput. injection Hput as <- . vm_compute. reflexivity. }
  rewrite Hname in Hover. by specialize (Hover ltac:(done) ltac:(done)).
Qed.

Lemma put_track_merge downloadTrackImage uid rid reqBody st index stored :
  findIndex (own_with_id rid uid) (readJsonFile tracks_json st) = Some index →
  readJsonFile tracks_json st !! index = Some stored →
  put_track downloadTrackImage uid rid reqBody st = (thrown, st)
  ∨ ∃ updated,
      put_track downloadTrackImage uid rid reqBody st =
        (Response 200 (BRecord updated),
         writeJsonFile tracks_json (<[index := updated]> (readJsonFile tracks_json st)) st)
      ∧ track_merge reqBody stored updated.
Proof.
  intros Hi Hs. unfold put_track. cbv zeta. rewrite Hi, Hs.
  match goal with
  | |- context [match ?e with Some _ => _ | None => (thrown, st) end] =>
      destruct e as [imageUrl|]; [right|by left]
  end.
  eexists. split; [reflexivity|].
  split_and!.
  - split.
    + intros k v Hk Hb Hv.
      rewrite !set_prop_lookup_ne by (intros <-; set_solver).
      rewrite merge_fields_lookup, decide_True by done. by apply nullish_value.
    + intros k Hk Hb.
      rewrite !set_prop_lookup_ne by (intros <-; set_solver).
      rewrite merge_fields_lookup, decide_True by done. by apply nullish_absent.
  - rewrite set_prop_lookup_ne by done. by rewrite set_prop_lookup_eq.
  - by rewrite set_prop_lookup_eq.
  - intros k Hk.
    rewrite !set_prop_lookup_ne by (intros <-; set_solver).
    rewrite merge_fields_lookup, decide_False; [done|]. set_solver.
Qed.

(** When the track update throws and when it does not. *)
Lemma put_track_image downloadTrackImage uid rid reqBody st index stored :
  findIndex (own_with_id rid uid) (readJsonFile tracks_json st) = Some index →
  readJsonFile tracks_json st !! index = Some stored →
  (truthy (reqBody !! "imageUrl") = true → (∀ url, reqBody !! "imageUrl" ≠ str url) →
   put_track downloadTrackImage uid rid reqBody st = (thrown, st))
  ∧ (truthy (reqBody !! "imageUrl") = false ∨ (∃ url, reqBody !! "imageUrl" = str url) →
     ∃ updated,
       put_track downloadTrackImage uid rid reqBody st =
         (Response 200 (BRecord updated),
          writeJsonFile tracks_json (<[index := updated]> (readJsonFile tracks_json st)) st)
       ∧ track_merge reqBody stored updated
       ∧ track_image downloadTrackImage rid reqBody stored updated).
Proof.
  intros Hi Hs. split.
  - intros Ht Hnot. unfold put_track. cbv zeta. rewrite Hi, Hs, Ht.
    destruct (reqBody !! "imageUrl") as [[| | |url| |]|]; try done.
    by destruct (Hnot url).
  - intros Hcase.
    destruct (put_track_merge downloadTrackImage uid rid reqBody st index stored Hi Hs)
      as [Hthrown|(updated & Hput & Hmerge)].
    + exfalso. revert Hthrown. unfold put_track. cbv zeta. rewrite Hi, Hs.
      destruct Hcase as [Hf|[url Hurl]].
      * by rewrite Hf.
      * rewrite Hurl. unfold str. destruct (truthy (Some (JStr url))); [|done].
        destruct (negb _ && negb _); [|done]. by destruct (downloadTrackImage url rid).
    + exists updated. split_and!; [done..|].
      revert Hput. unfold put_track. cbv zeta. rewrite Hi, Hs. intros Hput. split.
      * intros Hf. rewrite Hf in Hput. injection Hput as <-.
        rewrite !set_prop_lookup_ne by done. first [by rewrite set_prop_lookup_eq | by rewrite lookup_insert_eq].
      * intros url Hurl Hne. rewrite Hurl in Hput.
        assert (truthy (str url) = true) as Ht by (by apply nonempty_spec).
        unfold str in *. rewrite Ht in Hput.
        rewrite (strict_eq_sym (Some (JStr url))) in Hput |- *.
        revert Hput.
        destruct (String.prefix "/images/" url),
          (strict_eq (stored !! "imageUrl") (Some (JStr url)));
          cbn [negb andb orb]; try destruct (downloadTrackImage url rid);
          intros [= <-]; rewrite !set_prop_lookup_ne by done;
          first [by rewrite set_prop_lookup_eq | by rewrite lookup_insert_eq].
Qed.

(** C3, as the code has it.  The setup and maintenance routes merge the
    whole input over the stored record: every key of the input, also with
    the value [null], overwrites; absent keys are kept; [id] and [userId]
    keep their stored values.  The car, track-note and session routes only
    look at their own list of fields: a listed key with a value other than
    [null] overwrites, a listed key that is absent or [null] leaves the
    stored value, and every other key ([id] and [userId] among them) keeps
    its stored value.  The track route throws, before it writes anything,
    when the requested [imageUrl] is a truthy value that is not a string.
    In every other case (no [imageUrl], a falsy one, or a string) it
    answers 200 and writes the record in place: [name], [location] and
    [length] as the car route treats its fields, [corners] and
    [circuitNotes] with a default when neither side has a value, the
    image URL as [track_image] says, and every other key as stored. *)
Theorem update_merge_semantics (downloadTrackImage : string → string → option string) :
  updates_with put_setup setups_json shallow_merge
  ∧ updates_with put_maintenance maintenance_json shallow_merge
  ∧ updates_with put_car cars_json (field_merge car_fields)
  ∧ updates_with put_track_note track_notes_json (field_merge track_note_fields)
  ∧ updates_with put_session sessions_json (field_merge session_fields)
  ∧ (∀ uid rid reqBody st index stored,
       findIndex (own_with_id rid uid) (readJsonFile tracks_json st) = Some index →
       readJsonFile tracks_json st !! index = Some stored →
       (truthy (reqBody !! "imageUrl") = true →
        (∀ url, reqBody !! "imageUrl" ≠ str url) →
        put_track downloadTrackImage uid rid reqBody st = (thrown, st))
       ∧ (truthy (reqBody !! "imageUrl") = false
          ∨ (∃ url, reqBody !! "imageUrl" = str url) →
          ∃ updated,
            put_track downloadTrackImage uid rid reqBody st =
              (Response 200 (BRecord updated),
               writeJsonFile tracks_json
                 (<[index := updated]> (readJsonFile tracks_json st)) st)
            ∧ track_merge reqBody stored updated
            ∧ track_image downloadTrackImage rid reqBody stored updated)).
Proof.
  split_and!;
    try (intros uid rid reqBody st index stored Hi Hs; eexists;
         split; [by apply put_one_found|];
         first [apply merge_spread_shallow_merge | apply merge_fields_field_merge]).
  intros. by apply put_track_image.
Qed.

(** ** The corner-note upsert *)

Lemma corner_field_spec field :
  corner_field field = true ↔ ∃ f, f ∈ ["entry"; "apex"; "exit"] ∧ field = str f.
Proof.
  unfold corner_field, includes. cbn [existsb].
  rewrite !(strict_eq_sym _ field). split.
  - intros [_ H]%andb_true_iff.
    repeat (apply orb_true_iff in H as [H|H]); try done;
      apply strict_eq_str in H; eexists; (split; [|done]); set_solver.
  - intros (f & Hf & ->).
    assert (f = "entry" ∨ f = "apex" ∨ f = "exit") as [->|[->| ->]] by set_solver; done.
Qed.

(** C5 as worded fails for a value that is given but falsy: the upsert
    stores [value || ''], so the given values [false], [0] and [null] are
    replaced by the empty string.  On [demo_store] the request to set
    [entry] of the existing note to [false] is answered 200, and the note
    is written back with [entry] equal to the empty string. *)
Lemma corner_note_upsert_falsy_value :
  let reqBody := corner_request (JStr "e1") (JStr "Turn 1") "entry" (Some (JBool false)) in
  let r := post_corner_note demo_uuidv4 "u1" reqBody demo_store in
  reqBody !! "value" = Some (JBool false)
  ∧ findIndex (same_corner (reqBody !! "sessionId") (reqBody !! "cornerName") "u1")
      (cornerNotes demo_store) = Some 0
  ∧ status r.1 = 200
  ∧ (∃ updated, cornerNotes r.2 = [updated] ∧ r.1 = Response 200 (BRecord updated)
                ∧ updated !! "entry" = str ""
                ∧ updated !! "entry" ≠ reqBody !! "value").
Proof.
  cbv zeta. split_and!; [by vm_compute..|].
  eexists. split_and!; [by vm_compute|by vm_compute|by vm_compute|].
  vm_compute. discriminate.
Qed.

Section Upsert.

Variable uuidv4 : nat → string.

Lemma post_corner_note_existing uid reqBody st i note :
  truthy (reqBody !! "sessionId") = true →
  truthy (reqBody !! "cornerName") = true →
  findIndex (same_corner (reqBody !! "sessionId") (reqBody !! "cornerName") uid)
    (cornerNotes st) = Some i →
  cornerNotes st !! i = Some note →
  post_corner_note uuidv4 uid reqBody st =
    let updated :=
      if corner_field (reqBody !! "field")
      then set_prop (prop_key (reqBody !! "field"))
             (js_or (reqBody !! "value") (str "")) note
      else note in
    (Response 200 (BRecord updated),
     writeJsonFile corner_notes_json (<[i := updated]> (cornerNotes st)) st).
Proof.
  intros Hs Hc Hi Hn. unfold post_corner_note. simpl. by rewrite Hs, Hc, Hi, Hn.
Qed.

(** C9. When the corner note for this session and corner exists and the
    request names no field, or a field other than [entry], [apex] and
    [exit], the upsert answers 200 with the existing record and the store,
    hence every field of every corner note, is unchanged. *)
Theorem corner_note_upsert_without_field (uid : string) (reqBody : obj) (st : store)
    (i : nat) (note : obj) :
  truthy (reqBody !! "sessionId") = true →
  truthy (reqBody !! "cornerName") = true →
  findIndex (same_corner (reqBody !! "sessionId") (reqBody !! "cornerName") uid)
    (cornerNotes st) = Some i →
  cornerNotes st !! i = Some note →
  (reqBody !! "field" = None
   ∨ ∀ f, f ∈ ["entry"; "apex"; "exit"] → reqBody !! "field" ≠ str f) →
  post_corner_note uuidv4 uid reqBody st = (Response 200 (BRecord note), st).
Proof.
  intros Hs Hc Hi Hn Hfield.
  rewrite (post_corner_note_existing _ _ _ _ _ Hs Hc Hi Hn).
  assert (corner_field (reqBody !! "field") = false) as ->.
  { apply not_true_iff_false. intros (f & Hf & Heq)%corner_field_spec.
    destruct Hfield as [Hnone|Hother]; [by rewrite Hnone in Heq|]. by apply (Hother f). }
  cbv zeta. rewrite list_insert_id by done.
  f_equal. apply (write_read_id corner_notes_json).
Qed.

(** C5, as the code has it.  Without a [sessionId] or a [cornerName] the
    upsert is rejected with a ValidationError and nothing changes.
    Otherwise, for a field among [entry], [apex] and [exit]: if a note of
    the caller exists for the session and corner, that note is written
    back with the named field set to [value || ''] (the value when it is
    truthy, the empty string when it is absent or falsy) and every other
    property untouched, and returned with 200 ("updated"); if none exists,
    a note with the named field set in the same way and the other two
    empty is appended and returned with 201 ("created").  The sessions
    collection is never consulted. *)
Theorem corner_note_upsert (uid : string) (reqBody : obj) (st : store) :
  let sessionId := reqBody !! "sessionId" in
  let cornerName := reqBody !! "cornerName" in
  let value := reqBody !! "value" in
  let r := post_corner_note uuidv4 uid reqBody st in
  (truthy sessionId = false ∨ truthy cornerName = false →
   ValidationError r.1 ∧ r.2 = st)
  ∧ (truthy sessionId = true → truthy cornerName = true →
     ∀ f, f ∈ ["entry"; "apex"; "exit"] → reqBody !! "field" = str f →
       (∀ i note,
          findIndex (same_corner sessionId cornerName uid) (cornerNotes st) = Some i →
          cornerNotes st !! i = Some note →
          ∃ updated,
            r = (Response 200 (BRecord updated),
                 writeJsonFile corner_notes_json (<[i := updated]> (cornerNotes st)) st)
            ∧ updated !! f = js_or value (str "")
            ∧ ∀ k, k ≠ f → updated !! k = note !! k)
       ∧ (findIndex (same_corner sessionId cornerName uid) (cornerNotes st) = None →
          ∃ created,
            r = (Response 201 (BRecord created),
                 writeJsonFile corner_notes_json (cornerNotes st ++ [created]) st)
            ∧ created !! f = js_or value (str "")
            ∧ (∀ g, g ∈ ["entry"; "apex"; "exit"] → g ≠ f → created !! g = str "")
            ∧ sessionId_of created = sessionId
            ∧ created !! "cornerName" = cornerName
            ∧ userId_of created = str uid
            ∧ id_of created = str (uuidv4 0)))
  ∧ (js_or value (str "") = if truthy value then value else str "")
  ∧ (∀ sessions',
       (post_corner_note uuidv4 uid reqBody (writeJsonFile sessions_json sessions' st)).1 = r.1
       ∧ cornerNotes
           (post_corner_note uuidv4 uid reqBody (writeJsonFile sessions_json sessions' st)).2
         = cornerNotes r.2).
Proof.
  cbv zeta. split_and!.
  - intros Hmissing. unfold post_corner_note.
    assert (negb (truthy (reqBody !! "sessionId")) || negb (truthy (reqBody !! "cornerName"))
            = true) as ->; [|done].
    destruct Hmissing as [-> | ->]; [done|]. apply orb_true_r.
  - intros Hs Hc f Hf Hfield. split.
    + intros i note Hi Hn. eexists. split.
      { by apply post_corner_note_existing. }
      rewrite (proj2 (corner_field_spec _)) by eauto.
      rewrite Hfield. simpl. split; [apply set_prop_lookup_eq|].
      intros k Hk. by apply set_prop_lookup_ne.
    + intros Hnone. unfold post_corner_note. simpl. rewrite Hs, Hc, Hnone. simpl.
      eexists. split; [reflexivity|].
      unfold new_corner_text, sessionId_of, userId_of, id_of. rewrite Hfield.
      assert (f = "entry" ∨ f = "apex" ∨ f = "exit") as Hcases by set_solver.
      split_and!.
      * destruct Hcases as [->|[->| ->]]; simpl; by read_props.
      * intros g Hg Hgf.
        assert (g = "entry" ∨ g = "apex" ∨ g = "exit") as Hg' by set_solver.
        destruct Hcases as [->|[->| ->]], Hg' as [->|[->| ->]]; try done; simpl;
          by read_props.
      * by read_props.
      * by read_props.
      * by read_props.
      * by read_props.
  - done.
  - intros sessions'. unfold post_corner_note. simpl.
    destruct (negb _ || negb _); [done|].
    destruct (findIndex _ _) as [i|]; [|done].
    by destruct (cornerNotes st !! i).
Qed.

End Upsert.

(** ** Track deletion *)

Lemma delete_track_sessions uid rid st :
  sessions (delete_track uid rid st).2 = sessions st.
Proof.
  destruct (findIndex (own_with_id rid uid) (tracks st)) as [i|] eqn:Hi.
  - by rewrite (delete_track_found _ _ _ _ Hi).
  - by rewrite (delete_track_missing _ _ _ Hi).
Qed.

(** C1, on the store [demo_store]: user [u1] deletes track [t1], which a
    setup, a track note and a session of theirs reference.  The route
    succeeds, the track is gone, the setup is kept with [trackId] null and
    the track note is removed, but the session is still there with
    [trackId] equal to the id of the deleted track. *)
Theorem delete_track_leaves_session_reference :
  status (delete_track "u1" "t1" demo_store).1 = 204
  ∧ tracks (delete_track "u1" "t1" demo_store).2 = []
  ∧ setups (delete_track "u1" "t1" demo_store).2
    = [set_prop "trackId" (Some JNull) demo_setup]
  ∧ trackNotes (delete_track "u1" "t1" demo_store).2 = []
  ∧ sessions (delete_track "u1" "t1" demo_store).2 = [demo_session]
  ∧ userId_of demo_session = str "u1"
  ∧ trackId_of demo_session = str "t1".
Proof. by rewrite (delete_track_found "u1" "t1" demo_store 0 eq_refl). Qed.

(** ** Bulk delete *)

Lemma filter_all {A} (p : A → bool) l :
  (∀ x, x ∈ l → p x = true) → List.filter p l = l.
Proof.
  induction l as [|a l IH]; simpl; intros H; [done|].
  rewrite (H a) by left. f_equal. apply IH. intros x Hx. apply H. by right.
Qed.

Lemma existsb_true {A} (p : A → bool) l :
  existsb p l = true ↔ ∃ x, x ∈ l ∧ p x = true.
Proof.
  rewrite List.existsb_exists. split; intros (x & Hx & Hp); exists x;
    (split; [by apply list_elem_of_In|done]).
Qed.

Lemma includes_true arr v :
  includes arr v = true ↔ ∃ x, x ∈ arr ∧ strict_eq x v = true.
Proof. apply existsb_true. Qed.

Lemma elem_of_map {A B} (f : A → B) l y :
  y ∈ List.map f l ↔ ∃ x, x ∈ l ∧ y = f x.
Proof.
  rewrite list_elem_of_In, List.in_map_iff. split; intros (x & H1 & H2); exists x.
  - split; [by apply list_elem_of_In|done].
  - split; [done|by apply list_elem_of_In].
Qed.

Lemma bool_eq_iff (a b : bool) : (a = true ↔ b = true) → a = b.
Proof. destruct a, b; intros [H1 H2]; try done; [symmetry|]; auto. Qed.

(** The set of selected ids, read pointwise. *)
Lemma includes_selected uid rids parents v :
  includes (selected uid rids parents) v = names_own uid parents rids v.
Proof.
  apply bool_eq_iff. unfold selected, names_own.
  rewrite includes_true, existsb_true. split.
  - intros (y & (c & [Hc Hsel]%elem_of_filter_bool & ->)%elem_of_map & Hv).
    apply andb_true_iff in Hsel as [Ho (z & (rid & Hrid & ->)%elem_of_map & Hz)%includes_true].
    apply strict_eq_eq in Hz. exists rid. split; [done|].
    apply andb_true_iff. split.
    + apply existsb_true. exists c. split; [done|].
      apply own_with_id_spec. split; [done|by apply owned_spec].
    + apply strict_eq_eq in Hv. rewrite <- Hv, <- Hz. by apply strict_eq_str.
  - intros (rid & Hrid & [(c & Hc & [Hid Hu]%own_with_id_spec)%existsb_true
                            Hv%strict_eq_str]%andb_true_iff).
    exists (id_of c). split.
    + apply elem_of_map. exists c. split; [|done].
      apply elem_of_filter_bool. split; [done|]. apply andb_true_iff. split.
      * by apply owned_spec.
      * apply includes_true. exists (str rid). split.
        -- apply elem_of_map. by exists rid.
        -- rewrite Hid. by apply strict_eq_str.
    + rewrite Hid, Hv. by apply strict_eq_str.
Qed.

Lemma names_own_truthy uid parents rids v :
  no_empty_id parents → names_own uid parents rids v = true → truthy v = true.
Proof.
  intros Hne (rid & _ & [(c & Hc & [Hid _]%own_with_id_spec)%existsb_true
                          ->%strict_eq_str]%andb_true_iff)%existsb_true.
  simpl. apply nonempty_spec. intros ->. by apply (Hne c Hc).
Qed.

Lemma refers_selected fk uid rids parents x :
  no_empty_id parents →
  refers fk (selected uid rids parents) x = names_own uid parents rids (x !! fk).
Proof.
  intros Hne. unfold refers. rewrite includes_selected.
  destruct (names_own uid parents rids (x !! fk)) eqn:Hn; [|apply andb_false_r].
  by rewrite (names_own_truthy _ _ _ _ Hne Hn).
Qed.

Lemma map_filter_subset (q : obj → bool) uid l y :
  y ∈ List.map id_of (List.filter (owned uid) (List.filter q l)) →
  y ∈ List.map id_of (List.filter (owned uid) l).
Proof.
  intros (x & [[Hx _]%elem_of_filter_bool Ho]%elem_of_filter_bool & ->)%elem_of_map.
  apply elem_of_map. exists x. split; [|done]. by apply elem_of_filter_bool.
Qed.

Lemma distinct_ids_filter uid (q : obj → bool) l :
  distinct_ids uid l → distinct_ids uid (List.filter q l).
Proof.
  unfold distinct_ids. induction l as [|a l IH]; simpl; [done|].
  destruct (owned uid a) eqn:Ho; simpl.
  - intros [Ha Hnd]%NoDup_cons. destruct (q a); simpl; [|by apply IH].
    rewrite Ho. simpl. apply NoDup_cons. split; [|by apply IH].
    intros Hin. apply Ha. by eapply map_filter_subset.
  - intros Hnd. destruct (q a); simpl; [|by apply IH]. rewrite Ho. by apply IH.
Qed.

(** With distinct ids, removing the first record found removes every record
    with that id and owner. *)
Lemma splice1_first_filter uid rid l i :
  distinct_ids uid l →
  findIndex (own_with_id rid uid) l = Some i →
  splice1 i l = List.filter (fun c => negb (own_with_id rid uid c)) l.
Proof.
  unfold distinct_ids. revert i. induction l as [|a l IH]; intros i Hnd; simpl; [done|].
  destruct (own_with_id rid uid a) eqn:Ha; simpl.
  - intros [= <-]. unfold splice1. simpl. rewrite drop_0. symmetry.
    apply filter_all. intros x Hx. apply negb_true_iff, not_true_iff_false.
    intros [Hxi Hxu]%own_with_id_spec. apply own_with_id_spec in Ha as [Hai Hau].
    simpl in Hnd. rewrite (proj2 (owned_spec uid a) Hau) in Hnd. simpl in Hnd.
    apply NoDup_cons in Hnd as [Hfresh _]. apply Hfresh.
    apply elem_of_map. exists x. split; [|congruence].
    apply elem_of_filter_bool. split; [done|]. by apply owned_spec.
  - destruct (findIndex (own_with_id rid uid) l) as [j|] eqn:Hj; simpl; [|done].
    intros [= <-]. unfold splice1. simpl. f_equal. apply (IH j); [|done].
    revert Hnd. simpl. destruct (owned uid a); [by intros [_ ?]%NoDup_cons|done].
Qed.

Lemma existsb_filter_other uid rid r (l : list obj) :
  r ≠ rid →
  existsb (own_with_id r uid) (List.filter (fun c => negb (own_with_id rid uid c)) l)
  = existsb (own_with_id r uid) l.
Proof.
  intros Hne. apply bool_eq_iff. rewrite !existsb_true. split.
  - intros (x & [Hx _]%elem_of_filter_bool & Hp). by exists x.
  - intros (x & Hx & Hp). exists x. split; [|done].
    apply elem_of_filter_bool. split; [done|].
    apply negb_true_iff, not_true_iff_false. intros [Hid _]%own_with_id_spec.
    apply own_with_id_spec in Hp as [Hid' _]. rewrite Hid in Hid'.
    unfold str in Hid'. congruence.
Qed.

Lemma names_own_after uid rid parents rest v :
  strict_eq v (str rid) || names_own uid parents rest v
  = strict_eq v (str rid)
    || names_own uid (List.filter (fun c => negb (own_with_id rid uid c)) parents) rest v.
Proof.
  destruct (strict_eq v (str rid)) eqn:Hv; simpl; [done|].
  unfold names_own. induction rest as [|r rest IH]; simpl; [done|].
  rewrite IH. f_equal.
  destruct (strict_eq v (str r)) eqn:Hr; [|by rewrite !andb_false_r].
  rewrite !andb_true_r. symmetry. apply existsb_filter_other.
  intros ->. congruence.
Qed.

Lemma names_own_cons uid parents rid rest v :
  names_own uid parents (rid :: rest) v
  = existsb (own_with_id rid uid) parents && strict_eq v (str rid)
    || names_own uid parents rest v.
Proof. done. Qed.

Lemma cascade_fold fk uid rids : ∀ parents rows,
  distinct_ids uid parents →
  fold_left (cascade_step fk uid) rids (parents, rows) =
    (List.filter (fun c => negb (owned uid c && names_own uid parents rids (id_of c))) parents,
     List.filter (fun x => negb (owned uid x && names_own uid parents rids (x !! fk))) rows).
Proof.
  induction rids as [|rid rest IH]; intros parents rows Hnd.
  - simpl. by rewrite !filter_all by (intros; by rewrite andb_false_r).
  - cbn [fold_left]. unfold cascade_step at 2. cbn [fst snd].
    destruct (findIndex (own_with_id rid uid) parents) as [i|] eqn:Hi.
    + rewrite (splice1_first_filter _ _ _ _ Hnd Hi).
      rewrite IH by (by apply distinct_ids_filter).
      assert (existsb (own_with_id rid uid) parents = true) as Hex.
      { apply findIndex_Some in Hi as (x & Hx & Hp & _). apply existsb_true.
        exists x. split; [|done]. by eapply list_elem_of_lookup_2. }
      rewrite !filter_filter_in. f_equal; apply filter_ext_elem; intros x _;
        rewrite names_own_cons, Hex, andb_true_l, names_own_after;
        unfold own_with_id, not_child, owned, id_of;
        by destruct (strict_eq _ (str rid)), (strict_eq (userId_of x) (str uid)),
             (names_own _ _ _ _).
    + rewrite IH by done.
      assert (existsb (own_with_id rid uid) parents = false) as Hex.
      { apply not_true_iff_false. intros (x & Hx & Hp)%existsb_true.
        rewrite findIndex_None in Hi. rewrite (Hi x Hx) in Hp. done. }
      f_equal; apply filter_ext_elem; intros x _;
        by rewrite names_own_cons, Hex, andb_false_l, orb_false_l.
Qed.

(** The cascades of the single-record routes are cascade steps on the
    arrays concerned, and so are their folds over the requested ids. *)
Lemma delete_car_step uid rid st :
  (cars (delete_car uid rid st).2, trackNotes (delete_car uid rid st).2)
    = cascade_step "carId" uid (cars st, trackNotes st) rid
  ∧ (cars (delete_car uid rid st).2, maintenance (delete_car uid rid st).2)
    = cascade_step "carId" uid (cars st, maintenance st) rid
  ∧ tracks (delete_car uid rid st).2 = tracks st
  ∧ users (delete_car uid rid st).2 = users st.
Proof.
  unfold cascade_step. cbn [fst snd].
  destruct (findIndex (own_with_id rid uid) (cars st)) as [i|] eqn:Hi.
  - by rewrite (delete_car_found _ _ _ _ Hi).
  - by rewrite (delete_car_missing _ _ _ Hi).
Qed.

Lemma delete_track_step uid rid st :
  (tracks (delete_track uid rid st).2, trackNotes (delete_track uid rid st).2)
    = cascade_step "trackId" uid (tracks st, trackNotes st) rid
  ∧ cars (delete_track uid rid st).2 = cars st
  ∧ maintenance (delete_track uid rid st).2 = maintenance st
  ∧ users (delete_track uid rid st).2 = users st.
Proof.
  unfold cascade_step. cbn [fst snd].
  destruct (findIndex (own_with_id rid uid) (tracks st)) as [i|] eqn:Hi.
  - by rewrite (delete_track_found _ _ _ _ Hi).
  - by rewrite (delete_track_missing _ _ _ Hi).
Qed.

Lemma car_pass uid rids : ∀ st,
  let st' := fold_left (fun st rid => (delete_car uid rid st).2) rids st in
  (cars st', trackNotes st')
    = fold_left (cascade_step "carId" uid) rids (cars st, trackNotes st)
  ∧ (cars st', maintenance st')
    = fold_left (cascade_step "carId" uid) rids (cars st, maintenance st)
  ∧ tracks st' = tracks st
  ∧ users st' = users st.
Proof.
  induction rids as [|rid rest IH]; intros st; [done|].
  cbn [fold_left]. cbv zeta.
  destruct (IH (delete_car uid rid st).2) as (-> & -> & -> & ->).
  destruct (delete_car_step uid rid st) as (-> & -> & -> & ->). done.
Qed.

Lemma track_pass uid rids : ∀ st,
  let st' := fold_left (fun st rid => (delete_track uid rid st).2) rids st in
  (tracks st', trackNotes st')
    = fold_left (cascade_step "trackId" uid) rids (tracks st, trackNotes st)
  ∧ cars st' = cars st
  ∧ maintenance st' = maintenance st
  ∧ users st' = users st.
Proof.
  induction rids as [|rid rest IH]; intros st; [done|].
  cbn [fold_left]. cbv zeta.
  destruct (IH (delete_track uid rid st).2) as (-> & -> & -> & ->).
  destruct (delete_track_step uid rid st) as (-> & -> & -> & ->). done.
Qed.

Lemma filter_none_in {A} (p : A → bool) l :
  (∀ x, x ∈ l → p x = false) → List.filter p l = [].
Proof.
  induction l as [|a l IH]; simpl; intros H; [done|].
  rewrite (H a) by left. apply IH. intros x Hx. apply H. by right.
Qed.

Lemma filter_none {A} (p : A → bool) l :
  (∀ x, p x = false) → List.filter p l = [].
Proof. intros H. induction l as [|a l IH]; simpl; [done|]. by rewrite H. Qed.

Lemma bulk_cars_store uid ids sm st :
  (bulk_cars uid ids sm st).2 =
    let userCarIds :=
      List.map id_of
        (List.filter (fun c => owned uid c && includes ids (id_of c)) (cars st)) in
    let doomed x := owned uid x && refers "carId" userCarIds x in
    Store
      (List.filter (fun c => negb (owned uid c && includes userCarIds (id_of c))) (cars st))
      (List.filter (fun s => negb (doomed s)) (setups st))
      (tracks st)
      (List.filter (fun s => negb (id_selected doomed (sessions st) s)) (sessions st))
      (List.filter
         (fun cn => negb (owned uid cn
                          && includes (List.map id_of (List.filter doomed (sessions st)))
                               (sessionId_of cn)))
         (cornerNotes st))
      (List.filter (fun tn => negb (doomed tn)) (trackNotes st))
      (List.filter (fun m => negb (doomed m)) (maintenance st))
      (users st).
Proof. reflexivity. Qed.

Lemma bulk_tracks_store uid ids sm st :
  (bulk_tracks uid ids sm st).2 =
    let userTrackIds :=
      List.map id_of
        (List.filter (fun t => owned uid t && includes ids (id_of t)) (tracks st)) in
    let doomed x := owned uid x && refers "trackId" userTrackIds x in
    Store
      (cars st)
      (List.filter (fun s => negb (doomed s)) (setups st))
      (List.filter (fun t => negb (owned uid t && includes userTrackIds (id_of t))) (tracks st))
      (List.filter (fun s => negb (id_selected doomed (sessions st) s)) (sessions st))
      (List.filter
         (fun cn => negb (owned uid cn
                          && includes (List.map id_of (List.filter doomed (sessions st)))
                               (sessionId_of cn)))
         (cornerNotes st))
      (List.filter (fun tn => negb (doomed tn)) (trackNotes st))
      (maintenance st)
      (users st).
Proof. reflexivity. Qed.

Lemma bulk_pass_nil uid fk (l : list obj) :
  List.filter (fun x => negb (owned uid x && refers fk [] x)) l = l.
Proof. apply filter_all. intros x _. unfold refers. simpl. by rewrite !andb_false_r. Qed.

Lemma doomed_nil uid fk (l : list obj) :
  List.filter (fun x => owned uid x && refers fk [] x) l = [].
Proof. apply filter_none. intros x. unfold refers. simpl. by rewrite !andb_false_r. Qed.

Lemma bulk_cars_nil uid sm st : (bulk_cars uid [] sm st).2 = st.
Proof.
  rewrite bulk_cars_store. cbv zeta. cbn [includes existsb].
  rewrite (filter_none (fun c => owned uid c && false)) by (intros; apply andb_false_r).
  cbn [List.map]. rewrite !bulk_pass_nil, doomed_nil.
  rewrite !filter_all; [by destruct st|..]; intros x _; unfold id_selected;
    rewrite ?doomed_nil; unfold refers; simpl; by rewrite ?andb_false_r.
Qed.

Lemma bulk_tracks_nil uid sm st : (bulk_tracks uid [] sm st).2 = st.
Proof.
  rewrite bulk_tracks_store. cbv zeta. cbn [includes existsb].
  rewrite (filter_none (fun c => owned uid c && false)) by (intros; apply andb_false_r).
  cbn [List.map]. rewrite !bulk_pass_nil, doomed_nil.
  rewrite !filter_all; [by destruct st|..]; intros x _; unfold id_selected;
    rewrite ?doomed_nil; unfold refers; simpl; by rewrite ?andb_false_r.
Qed.

Lemma bulk_delete_store uid carIds trackIds st :
  (bulk_delete uid (BulkRequest carIds trackIds) st).2 =
    (bulk_tracks uid (List.map Some trackIds) (DeleteSummary 0 0 0 0 0 0 0)
       (bulk_cars uid (List.map Some carIds) (DeleteSummary 0 0 0 0 0 0 0) st).2).2.
Proof.
  destruct carIds as [|c cs], trackIds as [|t ts].
  - simpl List.map. by rewrite bulk_cars_nil, bulk_tracks_nil.
  - simpl List.map at 2. rewrite bulk_cars_nil. reflexivity.
  - simpl List.map at 1. rewrite bulk_tracks_nil. reflexivity.
  - reflexivity.
Qed.

Lemma spec_bulk_delete_reads uid carIds trackIds st :
  distinct_ids uid (cars st) → distinct_ids uid (tracks st) →
  let spec := spec_bulk_delete uid carIds trackIds st in
  cars spec
    = List.filter (fun c => negb (owned uid c && names_own uid (cars st) carIds (id_of c)))
        (cars st)
  ∧ tracks spec
    = List.filter (fun t => negb (owned uid t && names_own uid (tracks st) trackIds (id_of t)))
        (tracks st)
  ∧ trackNotes spec
    = List.filter
        (fun x => negb (owned uid x && names_own uid (tracks st) trackIds (x !! "trackId")))
        (List.filter
           (fun x => negb (owned uid x && names_own uid (cars st) carIds (x !! "carId")))
           (trackNotes st))
  ∧ maintenance spec
    = List.filter (fun x => negb (owned uid x && names_own uid (cars st) carIds (x !! "carId")))
        (maintenance st)
  ∧ users spec = users st.
Proof.
  intros Hdc Hdt. cbv zeta. unfold spec_bulk_delete.
  destruct (car_pass uid carIds st) as (Hc1 & Hc2 & Hc3 & Hc4).
  destruct (track_pass uid trackIds
              (fold_left (fun st rid => (delete_car uid rid st).2) carIds st))
    as (Ht1 & -> & -> & ->).
  rewrite cascade_fold in Hc1, Hc2 by done.
  rewrite Hc3 in Ht1. rewrite cascade_fold in Ht1 by done.
  apply pair_equal_spec in Hc1 as [Hc1 Hc1'].
  apply pair_equal_spec in Hc2 as [_ Hc2'].
  apply pair_equal_spec in Ht1 as [Ht1 Ht1'].
  rewrite Ht1, Ht1', Hc1, Hc1', Hc2', Hc4. done.
Qed.

(** C2 as worded fails: for a selected track the bulk route removes the
    caller's setup that references it, where the track-deletion cascade
    keeps the setup with a null [trackId]. *)
Lemma bulk_delete_removes_setup_of_track :
  setups (bulk_delete "u1" (BulkRequest [] [JStr "t1"]) demo_store).2 = []
  ∧ setups (spec_bulk_delete "u1" [] ["t1"] demo_store)
    = [set_prop "trackId" (Some JNull) demo_setup]
  ∧ (bulk_delete "u1" (BulkRequest [] [JStr "t1"]) demo_store).2
    ≠ spec_bulk_delete "u1" [] ["t1"] demo_store.
Proof.
  assert (setups (bulk_delete "u1" (BulkRequest [] [JStr "t1"]) demo_store).2 = [])
    as Hbulk by (vm_compute; reflexivity).
  assert (setups (spec_bulk_delete "u1" [] ["t1"] demo_store)
          = [set_prop "trackId" (Some JNull) demo_setup])
    as Hspec by (vm_compute; reflexivity).
  split_and!; [done..|]. intros Heq. rewrite Heq, Hspec in Hbulk. done.
Qed.

(** C2, as the code has it.  With distinct, non-empty ids among the
    caller's cars and tracks, the bulk delete leaves the cars, tracks, track
    notes, maintenance tasks and users exactly as the car cascade applied to
    each selected car followed by the track cascade applied to each
    selected track.  It differs on the dependents the cascades do not
    remove: every setup of the caller that references a selected car or a
    selected track is removed (for a track, not kept with a null
    [trackId]), and no session of the caller that references a selected car
    or track remains. *)
Theorem bulk_delete_cascades (uid : string) (carIds trackIds : list string) (st : store) :
  distinct_ids uid (cars st) → distinct_ids uid (tracks st) →
  no_empty_id (cars st) → no_empty_id (tracks st) →
  let bulk := (bulk_delete uid (BulkRequest (List.map JStr carIds) (List.map JStr trackIds)) st).2 in
  let spec := spec_bulk_delete uid carIds trackIds st in
  let userCarIds := selected uid carIds (cars st) in
  let userTrackIds := selected uid trackIds (tracks st) in
  let doomed x :=
    owned uid x && (refers "carId" userCarIds x || refers "trackId" userTrackIds x) in
  cars bulk = cars spec
  ∧ tracks bulk = tracks spec
  ∧ trackNotes bulk = trackNotes spec
  ∧ maintenance bulk = maintenance spec
  ∧ users bulk = users spec
  ∧ setups bulk = List.filter (fun s => negb (doomed s)) (setups st)
  ∧ (∀ s, s ∈ sessions bulk → s ∈ sessions st ∧ doomed s = false).
Proof.
  intros Hdc Hdt Hnc Hnt. cbv zeta.
  destruct (spec_bulk_delete_reads uid carIds trackIds st Hdc Hdt)
    as (-> & -> & -> & -> & ->).
  rewrite bulk_delete_store, bulk_tracks_store, bulk_cars_store. cbv zeta.
  cbn [cars setups tracks sessions cornerNotes trackNotes maintenance users].
  rewrite !List.map_map.
  change (List.map (fun x => Some (JStr x)) carIds) with (List.map str carIds).
  change (List.map (fun x => Some (JStr x)) trackIds) with (List.map str trackIds).
  fold (selected uid carIds (cars st)). fold (selected uid trackIds (tracks st)).
  split_and!.
  - apply filter_ext_elem. intros x _. by rewrite includes_selected.
  - apply filter_ext_elem. intros x _. by rewrite includes_selected.
  - rewrite !filter_filter_in. apply filter_ext_elem. intros x _.
    by rewrite !refers_selected.
  - apply filter_ext_elem. intros x _. by rewrite refers_selected.
  - done.
  - rewrite filter_filter_in. apply filter_ext_elem. intros x _.
    by destruct (owned uid x), (refers "carId" _ x), (refers "trackId" _ x).
  - intros s [[Hs Hcar]%elem_of_filter_bool Htrack]%elem_of_filter_bool.
    split; [done|]. unfold id_selected in Hcar, Htrack.
    apply negb_true_iff, orb_false_iff in Hcar as [Hcar _].
    apply negb_true_iff, orb_false_iff in Htrack as [Htrack _].
    destruct (owned uid s); simpl in *; [|done]. by rewrite Hcar, Htrack.
Qed.

(** ** Import *)


Section ImportFacts.

Variable uuidv4 : nat → string.
Variable extname : string → string.

(** *** The loops over dependents only append *)

Section Loop.

Variables (uid : string) (fix_keys : obj → obj) (skip : obj → bool).
Variable ins : children → obj → children.
Hypothesis ins_rows : ∀ acc r,
  rows (ins acc r) = rows acc ++ [fix_keys (adopt (uuidv4 (generated acc)) uid r)].



End Loop.





(** *** Re-keying *)

Lemma remap_lookup_ne idMap fk r k : k ≠ fk → remap idMap fk r !! k = r !! k.
Proof.
  intros Hk. unfold remap. destruct (truthy (r !! fk)); [|done].
  by rewrite set_prop_lookup_ne.
Qed.





Lemma adopt_userId newId uid r : userId_of (adopt newId uid r) = str uid.
Proof. unfold adopt, userId_of. by rewrite set_prop_lookup_eq. Qed.

(** *** The id maps and the skipped ids of the parent loops *)











End ImportFacts.

Section ImportRuns.

Variable uuidv4 : nat → string.
Variable extname : string → string.

(** *** What each block reads and writes *)






End ImportRuns.

Section ImportWhole.

Variable uuidv4 : nat → string.
Variable extname : string → string.

Lemma cars_block_run overwrite uid importData st :
  cars_block uuidv4 overwrite uid importData st =
    let cs := import_cars uuidv4 overwrite uid (present (d_cars importData)) (cars st) 0 in
    (cs, writeJsonFile cars_json (existing cs) st).
Proof.
  unfold cars_block. destruct (present (d_cars importData)) as [|c l]; [|done].
  cbv zeta. unfold import_cars. cbn [fold_left existing]. by rewrite write_read_id.
Qed.

Lemma tracks_block_run overwrite uid importData n st :
  tracks_block uuidv4 extname overwrite uid importData n st =
    match import_tracks uuidv4 extname overwrite uid (present (d_tracks importData))
            (tracks st) n with
    | Some ts => Some (ts, writeJsonFile tracks_json (existing ts) st)
    | None => None
    end.
Proof.
  unfold tracks_block. destruct (present (d_tracks importData)) as [|t l]; [|done].
  unfold import_tracks. cbn [fold_left existing]. by rewrite write_read_id.
Qed.

Lemma rows_block_run f importRows run n st :
  rows_block f importRows run n st =
    let ch := ran importRows run (readJsonFile f st) n in
    (ch, writeJsonFile f (rows ch) st).
Proof.
  unfold rows_block, ran. destruct importRows as [|r l]; [|done].
  cbv zeta. cbn [rows]. by rewrite write_read_id.
Qed.

Lemma sessions_block_run overwrite uid importData purge skip fix_keys n st :
  sessions_block uuidv4 overwrite uid importData purge skip fix_keys n st =
    let en := (sessions_block uuidv4 overwrite uid importData purge skip fix_keys n st).1 in
    (en, writeJsonFile corner_notes_json (rows en.2)
           (writeJsonFile sessions_json (rows en.1) st)).
Proof.
  unfold sessions_block. destruct (present (d_sessions importData)) as [|r l]; [|done].
  cbv zeta. cbn [fst snd rows]. by destruct st.
Qed.

Lemma sessions_block_reads overwrite uid importData purge skip fix_keys n st st' :
  sessions st' = sessions st → cornerNotes st' = cornerNotes st →
  (sessions_block uuidv4 overwrite uid importData purge skip fix_keys n st').1
  = (sessions_block uuidv4 overwrite uid importData purge skip fix_keys n st).1.
Proof.
  intros H1 H2. unfold sessions_block. cbn [readJsonFile]. rewrite H1, H2.
  by destruct (present (d_sessions importData)).
Qed.

(** A successful import, block by block, in terms of the store it was
    given. *)
Lemma import_run uid env importData mode st :
  data env = Some importData →
  status (import uuidv4 extname uid (ImportRequest (Some env) mode) st).1 = 200 →
  let overwrite := strict_eq mode (str "overwrite") in
  let cs := import_cars uuidv4 overwrite uid (present (d_cars importData)) (cars st) 0 in
  ∃ ts,
    import_tracks uuidv4 extname overwrite uid (present (d_tracks importData))
      (tracks st) (issued cs) = Some ts
    ∧ includes [str "overwrite"; str "preserve"] mode = true
    ∧ let newCarIds := values (idMap cs) in
      let newTrackIds := values (idMap ts) in
      let purge2 x :=
        owned uid x && (refers "carId" newCarIds x || refers "trackId" newTrackIds x) in
      let skip2 x := refers "carId" (skippedIds cs) x || refers "trackId" (skippedIds ts) x in
      let fix2 x := remap (idMap ts) "trackId" (remap (idMap cs) "carId" x) in
      let ss := ran (present (d_setups importData))
                  (import_dependent uuidv4 DSetup overwrite uid cs ts) (setups st) (issued ts) in
      let en := (sessions_block uuidv4 overwrite uid importData purge2 skip2 fix2
                   (generated ss) st).1 in
      let tn := ran (present (d_trackNotes importData))
                  (import_dependent uuidv4 DTrackNote overwrite uid cs ts) (trackNotes st)
                  (generated en.2) in
      let ms := ran (present (d_maintenance importData))
                  (import_dependent uuidv4 DMaintenance overwrite uid cs ts) (maintenance st)
                  (generated tn) in
      import uuidv4 extname uid (ImportRequest (Some env) mode) st =
        (Response 200
           (BImported
              (ImportSummary (imported cs) (skipped cs) (imported ts) (skipped ts)
                 (inserted ss) (dropped ss) (inserted en.1) (dropped en.1) (inserted en.2)
                 (inserted tn) (dropped tn) (inserted ms) (dropped ms))),
         Store (existing cs) (rows ss) (existing ts) (rows en.1) (rows en.2)
           (rows tn) (rows ms) (users st)).
Proof.
  intros Hdata Hok. cbv zeta.
  unfold import in *. cbn [i_data i_mode] in *. rewrite Hdata in *.
  destruct (negb (truthy (version env))); [by vm_compute in Hok|].
  destruct (includes [str "overwrite"; str "preserve"] mode) eqn:Hmode;
    [|by vm_compute in Hok]. cbn [negb] in *.
  rewrite cars_block_run in Hok. rewrite cars_block_run. cbv beta iota zeta in Hok |- *.
  rewrite tracks_block_run in Hok. rewrite tracks_block_run.
  change (tracks (writeJsonFile cars_json ?l st)) with (tracks st) in *.
  destruct (import_tracks _ _ _ _ _ _ _) as [ts|]; [|by vm_compute in Hok].
  exists ts. split_and!; [done..|]. cbv beta iota zeta in Hok |- *.
  destruct (negb (images_ok _)); [by vm_compute in Hok|].
  rewrite rows_block_run. cbv beta iota zeta.
  rewrite sessions_block_run. cbv beta iota zeta.
  rewrite !(sessions_block_reads _ _ _ _ _ _ _ st) by (by destruct st).
  destruct (sessions_block _ _ _ _ _ _ _ _ st).1 as [es ns]. cbv beta iota zeta.
  rewrite rows_block_run. cbv beta iota zeta.
  rewrite rows_block_run. cbv beta iota zeta.
  cbn [fst snd]. by destruct st.
Qed.

End ImportWhole.

Section ImportOrphans.

Variable uuidv4 : nat → string.
Variable extname : string → string.






(** *** The ids skipped under [preserve], exactly *)





(** *** The loops under [preserve], exactly *)





End ImportOrphans.

(** ** Export followed by import *)


Section RoundTrip.

Variable uuidv4 : nat → string.
Variable extname : string → string.
Variable basename : string → string.
Variable readTrackImage : string → option string.
Variable now : string.

















End RoundTrip.

(** * Further properties of the handlers *)

(** ** Deleting a session *)

Lemma findIndex_split {A} (p : A → bool) (l : list A) i :
  findIndex p l = Some i →
  ∃ l1 x l2, l = l1 ++ x :: l2 ∧ length l1 = i ∧ p x = true
             ∧ (∀ y, y ∈ l1 → p y = false) ∧ splice1 i l = l1 ++ l2.
Proof.
  intros Hi. destruct (findIndex_Some _ _ _ Hi) as (x & Hx & Hp & Hbefore).
  exists (take i l), x, (drop (S i) l). split_and!; [|..|done|done|done].
  - by apply splice1_spec.
  - apply length_take_le. apply lookup_lt_Some in Hx. lia.
Qed.

(** X1.  Deleting a session removes exactly one session, the first one of
    the caller with that id, removes the caller's corner notes of that
    session and no other corner note, and leaves every other collection as
    it was. *)
Theorem delete_session_cascade (uid rid : string) (st : store) (s : obj) :
  s ∈ sessions st → id_of s = str rid → userId_of s = str uid →
  let r := delete_session uid rid st in
  status r.1 = 204
  ∧ (∃ l1 s' l2, sessions st = l1 ++ s' :: l2 ∧ sessions r.2 = l1 ++ l2
                 ∧ id_of s' = str rid ∧ userId_of s' = str uid
                 ∧ ∀ y, y ∈ l1 → own_with_id rid uid y = false)
  ∧ (∀ cn, cn ∈ cornerNotes r.2 ↔
           cn ∈ cornerNotes st ∧ ¬ (sessionId_of cn = str rid ∧ userId_of cn = str uid))
  ∧ (∀ f, f ≠ sessions_json → f ≠ corner_notes_json →
          readJsonFile f r.2 = readJsonFile f st).
Proof.
  intros Hs Hid Huid. cbv zeta. unfold delete_session. cbv zeta.
  destruct (findIndex_is_Some (own_with_id rid uid) (readJsonFile sessions_json st) s)
    as [i Hi]; [done|by apply own_with_id_spec|].
  rewrite Hi. cbn [fst snd status].
  destruct (findIndex_split _ _ _ Hi) as (l1 & s' & l2 & Hl & _ & Hp & Hbefore & Hsp).
  apply own_with_id_spec in Hp as [Hid' Huid'].
  split_and!; [done|..].
  - exists l1, s', l2. simpl in *. by rewrite Hsp.
  - intros cn. simpl. rewrite elem_of_filter_bool, not_child_spec. done.
  - intros f Hf1 Hf2. by destruct f.
Qed.

(** ** Listing *)

Lemma by_query_filter query k arr :
  by_query query k arr =
  List.filter (fun x => negb (truthy (query !! k)) || strict_eq (x !! k) (query !! k)) arr.
Proof.
  unfold by_query. destruct (truthy (query !! k)); simpl; [done|].
  symmetry. by apply filter_all.
Qed.

Lemma list_all_filter f filters uid query st :
  list_all f filters uid query st =
  List.filter (fun x => owned uid x && asked query filters x) (readJsonFile f st).
Proof.
  unfold list_all. rewrite <- filter_filter_in.
  generalize (List.filter (owned uid) (readJsonFile f st)) as l.
  induction filters as [|k filters IH]; intros l; simpl.
  - symmetry. by apply filter_all.
  - rewrite IH, by_query_filter, filter_filter_in. done.
Qed.

Lemma list_route_all k : list_route k = list_all (collection k) (list_filters k).
Proof. by destruct k. Qed.

(** X2.  A list route returns the caller's records that match every query
    parameter the route looks at and that is given, in the order of the
    collection; a parameter that is absent or empty does not filter, a
    parameter the route does not look at is ignored, and records of other
    users are never returned. *)
Theorem list_route_exact (k : kind) (uid : string) (query : obj) (st : store) :
  let answer := list_route k uid query st in
  sublist answer (readJsonFile (collection k) st)
  ∧ (∀ x, x ∈ answer ↔
          x ∈ readJsonFile (collection k) st ∧ userId_of x = str uid
          ∧ ∀ p, p ∈ list_filters k → truthy (query !! p) = true →
                 strict_eq (x !! p) (query !! p) = true).
Proof.
  cbv zeta. rewrite list_route_all, list_all_filter. split.
  - generalize (readJsonFile (collection k) st) as l.
    induction l as [|a l IH]; simpl; [done|].
    destruct (_ && _); by constructor.
  - intros x. rewrite elem_of_filter_bool, andb_true_iff, owned_spec.
    unfold asked. rewrite forallb_forall.
    split.
    + intros (Hx & Hu & Hall). split_and!; [done..|].
      intros p Hp Ht. apply list_elem_of_In in Hp. specialize (Hall p Hp).
      by rewrite Ht in Hall.
    + intros (Hx & Hu & Hall). split_and!; [done..|].
      intros p Hp. destruct (truthy (query !! p)) eqn:Ht; [|done].
      simpl. apply Hall; [by apply list_elem_of_In|done].
Qed.

(** ** Creating *)

Lemma new_record_lookup newId uid defaults reqBody k :
  k ∉ defaults.*1 →
  new_record newId uid defaults reqBody !! k
  = set_prop "userId" (str uid) (set_prop "id" (str newId) ∅) !! k.
Proof.
  unfold new_record.
  generalize (set_prop "userId" (str uid) (set_prop "id" (str newId) (∅ : obj))) as o.
  induction defaults as [|[k' d] defaults IH]; intros o Hk; simpl; [done|].
  rewrite IH by (intros ?; apply Hk; by right).
  apply set_prop_lookup_ne. intros ->. apply Hk. by left.
Qed.

Lemma new_record_ids newId uid defaults reqBody :
  "id" ∉ defaults.*1 → "userId" ∉ defaults.*1 →
  id_of (new_record newId uid defaults reqBody) = str newId
  ∧ userId_of (new_record newId uid defaults reqBody) = str uid.
Proof.
  intros H1 H2. unfold id_of, userId_of. rewrite !new_record_lookup by done. done.
Qed.

(** What a create route does: it appends one record with the generated id
    and the caller as owner, or (tracks only) throws on an image URL
    that is not a string. *)
Lemma create_route_spec uuidv4 today download k h uid reqBody st :
  create_route uuidv4 today download k = Some h →
  (∃ record, h uid reqBody st = push_record (collection k) record st
             ∧ id_of record = str (uuidv4 0) ∧ userId_of record = str uid)
  ∨ (k = Track ∧ h uid reqBody st = (thrown, st)
     ∧ truthy (reqBody !! "imageUrl") = true
     ∧ ∀ url, reqBody !! "imageUrl" ≠ str url).
Proof.
  assert (∀ defaults, "id" ∉ defaults.*1 → "userId" ∉ defaults.*1 →
            id_of (new_record (uuidv4 0) uid defaults reqBody) = str (uuidv4 0)
            ∧ userId_of (new_record (uuidv4 0) uid defaults reqBody) = str uid) as Hids
    by (intros; by apply new_record_ids).
  destruct k; intros [= <-].
  - left. eexists. split; [done|]. apply Hids; set_solver.
  - left. eexists. split; [done|]. apply Hids; unfold setup_defaults; set_solver.
  - unfold post_track. cbv zeta.
    destruct (Hids [("name", JStr ""); ("location", JStr ""); ("length", JStr "")])
      as [Hi Hu]; [set_solver..|].
    assert (∀ v w,
      id_of (set_prop "corners" v (set_prop "imageUrl" w
        (new_record (uuidv4 0) uid
           [("name", JStr ""); ("location", JStr ""); ("length", JStr "")] reqBody)))
        = str (uuidv4 0)
      ∧ userId_of (set_prop "corners" v (set_prop "imageUrl" w
        (new_record (uuidv4 0) uid
           [("name", JStr ""); ("location", JStr ""); ("length", JStr "")] reqBody)))
        = str uid) as Hrec.
    { intros v w. unfold id_of, userId_of in *.
      rewrite !set_prop_lookup_ne by done. done. }
    unfold js_or.
    destruct (truthy (reqBody !! "imageUrl")) eqn:Ht.
    + rewrite Ht. destruct (reqBody !! "imageUrl") as [[| | |url| |]|] eqn:Hurl;
        try (right; split_and!; [done|done|done|intros ?; unfold str; congruence]).
      left. destruct (negb _); [destruct (download _ _)|]; eexists; (split; [done|apply Hrec]).
    + left. eexists; (split; [done|apply (Hrec _ (str ""))]).
  - left. eexists. split; [done|]. apply Hids; set_solver.
  - left. eexists. split; [done|].
    destruct (Hids (session_defaults today)) as [Hi Hu];
      [unfold session_defaults; set_solver..|].
    unfold id_of, userId_of in *. rewrite !set_prop_lookup_ne by done. done.
  - left. eexists. split; [done|]. apply Hids; unfold maintenance_defaults; set_solver.
Qed.

(** X3.  A create route never takes the id or the owner from the request:
    the new record carries the generated id and the caller's user id, it is
    appended to its collection, whose earlier records keep their place, and
    no other collection is written.  Only the track route can fail: it
    throws, with nothing written, on an image URL that is truthy and not a
    string. *)
Theorem create_assigns_id_and_owner (uuidv4 : nat → string) (today : string)
    (download : string → string → option string) (k : kind)
    (h : string → obj → store → response * store)
    (uid : string) (reqBody : obj) (st : store) :
  create_route uuidv4 today download k = Some h →
  let r := h uid reqBody st in
  (∃ record,
      r.1 = Response 201 (BRecord record)
      ∧ id_of record = str (uuidv4 0) ∧ userId_of record = str uid
      ∧ readJsonFile (collection k) r.2 = readJsonFile (collection k) st ++ [record]
      ∧ ∀ f, f ≠ collection k → readJsonFile f r.2 = readJsonFile f st)
  ∨ (k = Track ∧ r = (thrown, st)
     ∧ truthy (reqBody !! "imageUrl") = true ∧ ∀ url, reqBody !! "imageUrl" ≠ str url).
Proof.
  intros Hh. cbv zeta.
  destruct (create_route_spec _ _ _ _ _ uid reqBody st Hh)
    as [(record & -> & Hid & Huid)|Hthrown]; [left|by right].
  exists record. unfold push_record. cbn [fst snd].
  split_and!; [done..| |].
  - apply read_write_same.
  - intros f Hf. by apply read_write_other.
Qed.

Lemma findIndex_app_last {A} (p : A → bool) l r :
  (∀ x, x ∈ l → p x = false) → p r = true → findIndex p (l ++ [r]) = Some (length l).
Proof.
  intros Hl Hr. induction l as [|a l IH]; simpl; [by rewrite Hr|].
  rewrite (Hl a) by (by left). rewrite IH; [done|]. intros x Hx. apply Hl. by right.
Qed.

Lemma find_app_last {A} (p : A → bool) l r :
  (∀ x, x ∈ l → p x = false) → p r = true → List.find p (l ++ [r]) = Some r.
Proof.
  intros Hl Hr. induction l as [|a l IH]; simpl; [by rewrite Hr|].
  rewrite (Hl a) by (by left). apply IH. intros x Hx. apply Hl. by right.
Qed.

Lemma splice1_app_last {A} (l : list A) r : splice1 (length l) (l ++ [r]) = l.
Proof.
  unfold splice1. rewrite take_app_length. rewrite drop_ge; [by rewrite app_nil_r|].
  rewrite length_app. simpl. lia.
Qed.

Lemma write_write f a b st : writeJsonFile f a (writeJsonFile f b st) = writeJsonFile f a st.
Proof. by destruct f. Qed.

Lemma push_then_splice f record st :
  writeJsonFile f (splice1 (length (readJsonFile f st)) (readJsonFile f st ++ [record]))
    (writeJsonFile f (readJsonFile f st ++ [record]) st) = st.
Proof. by rewrite splice1_app_last, write_write, write_read_id. Qed.

Lemma route_get download k g :
  route download k Get = Some g → ∃ msg, g = get_one (collection k) msg.
Proof. destruct k; intros [= <-]; by eexists. Qed.

Lemma created_record uuidv4 today download k h uid reqBody st :
  create_route uuidv4 today download k = Some h →
  status (h uid reqBody st).1 = 201 →
  ∃ record, h uid reqBody st = push_record (collection k) record st
            ∧ id_of record = str (uuidv4 0) ∧ userId_of record = str uid.
Proof.
  intros Hh Hst.
  destruct (create_route_spec _ _ _ _ _ uid reqBody st Hh) as [Hrec|(_ & Hthrown & _)]; [done|].
  by rewrite Hthrown in Hst.
Qed.

(** X4.  A record that was created can be read back: when the generated
    id is not yet the id of a record of the caller in the collection, the
    single-record route finds the new record under that id and answers
    with exactly what the create route answered, and the list route
    without filters returns what it returned before followed by the
    new record. *)
Theorem create_then_read (uuidv4 : nat → string) (today : string)
    (download : string → string → option string) (k : kind)
    (h : string → obj → store → response * store)
    (g : string → string → store → response * store)
    (uid : string) (reqBody : obj) (st : store) :
  create_route uuidv4 today download k = Some h →
  route download k Get = Some g →
  (∀ x, x ∈ readJsonFile (collection k) st → own_with_id (uuidv4 0) uid x = false) →
  status (h uid reqBody st).1 = 201 →
  let st' := (h uid reqBody st).2 in
  g uid (uuidv4 0) st' = (Response 200 (payload (h uid reqBody st).1), st')
  ∧ ∃ record, payload (h uid reqBody st).1 = BRecord record
              ∧ list_route k uid ∅ st' = list_route k uid ∅ st ++ [record].
Proof.
  intros Hh Hg Hfresh Hst. cbv zeta.
  destruct (created_record _ _ _ _ _ _ _ _ Hh Hst) as (record & -> & Hid & Huid).
  destruct (route_get _ _ _ Hg) as [msg ->].
  unfold push_record. cbn [fst snd payload]. split.
  - unfold get_one. rewrite read_write_same.
    rewrite (find_app_last _ _ record); [done|done|]. by apply own_with_id_spec.
  - exists record. split; [done|].
    rewrite list_route_all, !list_all_filter, read_write_same.
    rewrite List.filter_app. f_equal. simpl.
    assert (owned uid record = true) as -> by (by apply owned_spec).
    assert (asked ∅ (list_filters k) record = true) as ->; [|done].
    unfold asked. apply forallb_forall. intros p _. by rewrite lookup_empty.
Qed.

Lemma unused_spec rid uid st f x :
  unused rid uid st → x ∈ readJsonFile f st →
  own_with_id rid uid x = false
  ∧ ∀ fk, fk ∈ ["carId"; "trackId"; "sessionId"] →
          strict_eq (x !! fk) (str rid) && strict_eq (userId_of x) (str uid) = false.
Proof.
  intros Hun Hx. specialize (Hun f x Hx). unfold mentions, owned in Hun.
  unfold own_with_id, carId_of, trackId_of, sessionId_of in *.
  destruct (strict_eq (userId_of x) (str uid)); [|split; [by rewrite andb_false_r|
    intros; by rewrite andb_false_r]].
  simpl in Hun. rewrite !orb_false_iff in Hun. destruct Hun as [[[H1 H2] H3] H4].
  split; [by rewrite H1|]. intros fk Hfk.
  repeat (apply elem_of_cons in Hfk as [->|Hfk]; [by rewrite ?H2, ?H3, ?H4|]).
  by apply elem_of_nil in Hfk.
Qed.

Lemma unused_not_child fk rid uid st f :
  unused rid uid st → fk ∈ ["carId"; "trackId"; "sessionId"] →
  List.filter (not_child fk rid uid) (readJsonFile f st) = readJsonFile f st.
Proof.
  intros Hun Hfk. apply filter_all. intros x Hx.
  destruct (unused_spec _ _ _ _ _ Hun Hx) as [_ H]. unfold not_child. by rewrite H.
Qed.

Lemma unused_clear_track rid uid st f :
  unused rid uid st →
  List.map (clear_track rid uid) (readJsonFile f st) = readJsonFile f st.
Proof.
  intros Hun. rewrite <- (map_id (readJsonFile f st)) at 2.
  apply map_ext_in. intros x Hx%list_elem_of_In.
  destruct (unused_spec _ _ _ _ _ Hun Hx) as [_ H]. unfold clear_track, trackId_of.
  rewrite (H "trackId"); [done|set_solver].
Qed.

(** X5.  Creating a record and deleting it again under the generated id
    restores the store exactly, cascades included, when that id was not
    in use: no record of the caller had it as its id or as [carId],
    [trackId] or [sessionId]. *)
Theorem create_then_delete (uuidv4 : nat → string) (today : string)
    (download : string → string → option string) (k : kind)
    (h : string → obj → store → response * store)
    (d : string → string → store → response * store)
    (uid : string) (reqBody : obj) (st : store) :
  create_route uuidv4 today download k = Some h →
  route download k Delete = Some d →
  unused (uuidv4 0) uid st →
  status (h uid reqBody st).1 = 201 →
  d uid (uuidv4 0) (h uid reqBody st).2 = (Response 204 BEmpty, st).
Proof.
  intros Hh Hd Hun Hst.
  destruct (created_record _ _ _ _ _ _ _ _ Hh Hst) as (record & -> & Hid & Huid).
  assert (own_with_id (uuidv4 0) uid record = true) as Hown by (by apply own_with_id_spec).
  assert (∀ f, findIndex (own_with_id (uuidv4 0) uid) (readJsonFile f st ++ [record])
               = Some (length (readJsonFile f st))) as Hidx.
  { intros f. apply findIndex_app_last; [|done].
    intros x Hx. by destruct (unused_spec _ _ _ _ _ Hun Hx). }
  assert (∀ fk f, fk ∈ ["carId"; "trackId"; "sessionId"] →
            List.filter (not_child fk (uuidv4 0) uid) (readJsonFile f st) = readJsonFile f st)
    as Hkeep by (intros; by apply unused_not_child).
  pose proof (unused_clear_track _ _ _ setups_json Hun) as Hclear.
  unfold push_record. cbn [snd].
  destruct k; cbn [create_route route collection] in *; simplify_eq.
  - unfold delete_car. rewrite read_write_same, Hidx. cbv zeta.
    rewrite splice1_app_last. f_equal. apply store_ext. intros f.
    pose proof (Hkeep "carId" setups_json) as H1.
    pose proof (Hkeep "carId" track_notes_json) as H2.
    pose proof (Hkeep "carId" maintenance_json) as H3.
    destruct f, st; simpl in *; rewrite ?H1, ?H2, ?H3; done || set_solver.
  - unfold delete_setup, delete_one. rewrite read_write_same, Hidx. cbv zeta.
    by rewrite push_then_splice.
  - unfold delete_track. rewrite read_write_same, Hidx. cbv zeta.
    rewrite splice1_app_last. f_equal. apply store_ext. intros f.
    pose proof (Hkeep "trackId" track_notes_json) as H2.
    destruct f, st; simpl in *; rewrite ?H2, ?Hclear; done || set_solver.
  - unfold delete_track_note, delete_one. rewrite read_write_same, Hidx. cbv zeta.
    by rewrite push_then_splice.
  - unfold delete_session. rewrite read_write_same, Hidx. cbv zeta.
    rewrite splice1_app_last. f_equal. apply store_ext. intros f.
    pose proof (Hkeep "sessionId" corner_notes_json) as H2.
    destruct f, st; simpl in *; rewrite ?H2; done || set_solver.
  - unfold delete_maintenance, delete_one. rewrite read_write_same, Hidx. cbv zeta.
    by rewrite push_then_splice.
Qed.

(** ** Updating *)

Lemma findIndex_insert {A} (p : A → bool) l i y :
  findIndex p l = Some i → p y = true → findIndex p (<[i := y]> l) = Some i.
Proof.
  revert i. induction l as [|a l IH]; intros i; simpl; [done|].
  destruct (p a) eqn:Ha.
  - intros [= <-] Hy. simpl. by rewrite Hy.
  - destruct (findIndex p l) as [j|] eqn:Hj; simpl; [|done].
    intros [= <-] Hy. simpl. rewrite Ha. by rewrite (IH j).
Qed.

Lemma find_findIndex {A} (p : A → bool) l i x :
  findIndex p l = Some i → l !! i = Some x → List.find p l = Some x.
Proof.
  revert i. induction l as [|a l IH]; intros i; simpl; [done|].
  destruct (p a) eqn:Ha.
  - intros [= <-] [= ->]. done.
  - destruct (findIndex p l) as [j|] eqn:Hj; simpl; [|done].
    intros [= <-] Hx. simpl in Hx. by apply (IH j).
Qed.

Lemma merge_fields_ids fields reqBody stored :
  "id" ∉ fields → "userId" ∉ fields →
  id_of (merge_fields fields reqBody stored) = id_of stored
  ∧ userId_of (merge_fields fields reqBody stored) = userId_of stored.
Proof.
  intros H1 H2. unfold id_of, userId_of. rewrite !merge_fields_lookup.
  by rewrite !decide_False by done.
Qed.

Lemma merge_spread_ids reqBody stored :
  id_of (merge_spread reqBody stored) = id_of stored
  ∧ userId_of (merge_spread reqBody stored) = userId_of stored.
Proof.
  unfold id_of, userId_of. rewrite !merge_spread_lookup.
  rewrite !decide_True by tauto. done.
Qed.

Lemma merge_fields_twice fields reqBody stored :
  merge_fields fields reqBody (merge_fields fields reqBody stored)
  = merge_fields fields reqBody stored.
Proof.
  apply map_eq. intros k. rewrite !merge_fields_lookup.
  case_decide; [|done]. by destruct (reqBody !! k) as [[]|].
Qed.

Lemma merge_spread_twice reqBody stored :
  merge_spread reqBody (merge_spread reqBody stored) = merge_spread reqBody stored.
Proof.
  apply map_eq. intros k. rewrite !merge_spread_lookup.
  case_decide; [done|]. by destruct (reqBody !! k).
Qed.

Lemma merge_fields_empty fields stored : merge_fields fields ∅ stored = stored.
Proof.
  apply map_eq. intros k. rewrite merge_fields_lookup, lookup_empty.
  by case_decide.
Qed.

Lemma merge_spread_empty stored : merge_spread ∅ stored = stored.
Proof.
  apply map_eq. intros k. rewrite merge_spread_lookup, lookup_empty.
  by case_decide.
Qed.

(** The five synchronous update routes are [put_one] with a merge that
    keeps the id and the owner and is idempotent. *)
Lemma route_put download k reqBody h :
  route download k (Put reqBody) = Some h → k ≠ Track →
  ∃ msg merge,
    h = (fun uid rid => put_one (collection k) msg merge uid rid reqBody)
    ∧ (∀ stored, id_of (merge reqBody stored) = id_of stored
                 ∧ userId_of (merge reqBody stored) = userId_of stored)
    ∧ (∀ stored, merge reqBody (merge reqBody stored) = merge reqBody stored).
Proof.
  intros Hh Hk.
  destruct k; cbn [route collection] in *; simplify_eq; do 2 eexists;
    (split; [reflexivity|]); split_and!; intros;
    first [ apply merge_spread_ids | apply merge_spread_twice
          | apply merge_fields_twice
          | apply merge_fields_ids; unfold car_fields, track_note_fields, session_fields;
            set_solver ].
Qed.

Lemma put_one_result f msg merge uid rid reqBody st :
  (put_one f msg merge uid rid reqBody st = (error 404 msg, st)
   ∧ findIndex (own_with_id rid uid) (readJsonFile f st) = None)
  ∨ ∃ index stored,
      findIndex (own_with_id rid uid) (readJsonFile f st) = Some index
      ∧ readJsonFile f st !! index = Some stored
      ∧ own_with_id rid uid stored = true
      ∧ put_one f msg merge uid rid reqBody st =
          (Response 200 (BRecord (merge reqBody stored)),
           writeJsonFile f (<[index := merge reqBody stored]> (readJsonFile f st)) st).
Proof.
  unfold put_one. cbv zeta.
  destruct (findIndex _ _) as [i|] eqn:Hi; [right|by left].
  destruct (findIndex_Some _ _ _ Hi) as (x & Hx & Hp & _).
  exists i, x. by rewrite Hx.
Qed.

Lemma own_with_id_same rid uid x y :
  id_of y = id_of x → userId_of y = userId_of x →
  own_with_id rid uid y = own_with_id rid uid x.
Proof. intros H1 H2. unfold own_with_id. by rewrite H1, H2. Qed.

(** X6.  The update routes of cars, setups, track notes, sessions and
    maintenance tasks are idempotent: sending the same body for the same
    id a second time gives the same answer and leaves the store as the
    first request left it. *)
Theorem update_idempotent (download : string → string → option string) (k : kind)
    (reqBody : obj) (h : string → string → store → response * store)
    (uid rid : string) (st : store) :
  route download k (Put reqBody) = Some h → k ≠ Track →
  h uid rid (h uid rid st).2 = h uid rid st.
Proof.
  intros Hh Hk.
  destruct (route_put _ _ _ _ Hh Hk) as (msg & merge & -> & Hids & Htwice).
  destruct (put_one_result (collection k) msg merge uid rid reqBody st)
    as [[Hr _]|(i & stored & Hi & Hs & Hown & Hr)]; rewrite Hr; cbn [snd]; [done|].
  destruct (Hids stored) as [Hid Huid].
  assert (own_with_id rid uid (merge reqBody stored) = true) as Hown'
    by (by rewrite (own_with_id_same _ _ stored)).
  erewrite put_one_found.
  - rewrite Htwice, read_write_same, list_insert_insert_eq, write_write. done.
  - rewrite read_write_same. by apply findIndex_insert.
  - rewrite read_write_same. apply list_lookup_insert_eq. by eapply lookup_lt_Some.
Qed.

Lemma put_one_empty f msg merge uid rid st :
  (∀ stored, merge ∅ stored = stored) →
  put_one f msg merge uid rid ∅ st = get_one f msg uid rid st.
Proof.
  intros Hempty.
  destruct (put_one_result f msg merge uid rid ∅ st)
    as [[Hr Hnone]|(i & stored & Hi & Hs & Hown & Hr)]; rewrite Hr.
  - rewrite get_one_missing; [done|]. by apply findIndex_None.
  - rewrite Hempty. rewrite list_insert_id by done. rewrite write_read_id.
    unfold get_one. by rewrite (find_findIndex _ _ _ _ Hi Hs).
Qed.

(** X7.  An update with an empty body changes nothing: for cars, setups,
    track notes, sessions and maintenance tasks it answers exactly what
    reading the record under that id answers, the 404 included, and
    leaves the store as it was. *)
Theorem update_with_empty_body (download : string → string → option string) (k : kind)
    (h g : string → string → store → response * store) (uid rid : string) (st : store) :
  route download k (Put ∅) = Some h → route download k Get = Some g → k ≠ Track →
  h uid rid st = g uid rid st ∧ (h uid rid st).2 = st.
Proof.
  intros Hh Hg Hk.
  assert (h uid rid st = g uid rid st) as ->.
  { destruct k; cbn [route] in *; simplify_eq; apply put_one_empty; intros;
      apply merge_fields_empty || apply merge_spread_empty. }
  split; [done|]. destruct (route_get _ _ _ Hg) as [msg ->]. apply get_one_store.
Qed.

(** X8.  An update can be read back: after an update that answers 200,
    the single-record route finds a record under the same id and answers
    with exactly the record the update answered; tracks included. *)
Theorem update_then_get (download : string → string → option string) (k : kind)
    (reqBody : obj) (h g : string → string → store → response * store)
    (uid rid : string) (st : store) :
  route download k (Put reqBody) = Some h →
  route download k Get = Some g →
  status (h uid rid st).1 = 200 →
  g uid rid (h uid rid st).2 = (Response 200 (payload (h uid rid st).1), (h uid rid st).2).
Proof.
  intros Hh Hg Hst. destruct (route_get _ _ _ Hg) as [msg' ->].
  assert (∃ index stored updated,
    findIndex (own_with_id rid uid) (readJsonFile (collection k) st) = Some index
    ∧ readJsonFile (collection k) st !! index = Some stored
    ∧ own_with_id rid uid updated = true
    ∧ h uid rid st = (Response 200 (BRecord updated),
        writeJsonFile (collection k) (<[index := updated]> (readJsonFile (collection k) st)) st))
    as (i & stored & updated & Hi & Hs & Hown & Hr).
  { assert (k = Track ∨ k ≠ Track) as [->|Hk] by (destruct k; (by left) || (by right)).
    - cbn [route collection] in *. simplify_eq.
      destruct (findIndex (own_with_id rid uid) (readJsonFile tracks_json st)) as [i|] eqn:Hi;
        [|by rewrite put_track_missing in Hst by (by apply findIndex_None)].
      destruct (findIndex_Some _ _ _ Hi) as (stored & Hs & Hown & _).
      destruct (put_track_merge download uid rid reqBody st i stored Hi Hs)
        as [Hthrown|(updated & Hr & _ & _ & _ & Hkept)]; [by rewrite Hthrown in Hst|].
      exists i, stored, updated. split_and!; [done..| |done].
      rewrite (own_with_id_same _ _ stored); [done|..]; unfold id_of, userId_of;
        apply Hkept; set_solver.
    - destruct (route_put _ _ _ _ Hh Hk) as (msg & merge & -> & Hids & _).
      destruct (put_one_result (collection k) msg merge uid rid reqBody st)
        as [[Hr _]|(i & stored & Hi & Hs & Hown & Hr)]; [by rewrite Hr in Hst|].
      exists i, stored, (merge reqBody stored). split_and!; [done..| |done].
      destruct (Hids stored). by rewrite (own_with_id_same _ _ stored). }
  rewrite Hr. cbn [fst snd payload]. unfold get_one. rewrite read_write_same.
  erewrite find_findIndex; [done|by apply findIndex_insert|].
  apply list_lookup_insert_eq. by eapply lookup_lt_Some.
Qed.

(** ** Corner notes *)

Lemma post_corner_note_result uuidv4 uid reqBody st :
  let notes := cornerNotes st in
  let same := same_corner (reqBody !! "sessionId") (reqBody !! "cornerName") uid in
  (post_corner_note uuidv4 uid reqBody st
     = (error 400 "sessionId and cornerName are required", st)
   ∧ (truthy (reqBody !! "sessionId") = false ∨ truthy (reqBody !! "cornerName") = false))
  ∨ (truthy (reqBody !! "sessionId") = true ∧ truthy (reqBody !! "cornerName") = true
     ∧ ((∃ i note, findIndex same notes = Some i ∧ notes !! i = Some note
                   ∧ same note = true
                   ∧ post_corner_note uuidv4 uid reqBody st
                     = (Response 200 (BRecord (upserted reqBody note)),
                        writeJsonFile corner_notes_json
                          (<[i := upserted reqBody note]> notes) st))
        ∨ (findIndex same notes = None
           ∧ post_corner_note uuidv4 uid reqBody st
             = (Response 201 (BRecord (new_corner_note (uuidv4 0) uid reqBody)),
                writeJsonFile corner_notes_json
                  (notes ++ [new_corner_note (uuidv4 0) uid reqBody]) st)))).
Proof.
  cbv zeta. unfold post_corner_note. cbv zeta.
  destruct (truthy (reqBody !! "sessionId")) eqn:Hs; [|left; split; [done|by left]].
  destruct (truthy (reqBody !! "cornerName")) eqn:Hc; [|left; split; [done|by right]].
  right. split_and!; [done..|]. cbn [negb orb].
  change (readJsonFile corner_notes_json st) with (cornerNotes st).
  destruct (findIndex _ (cornerNotes st)) as [i|] eqn:Hi; [left|right; by split].
  destruct (findIndex_Some _ _ _ Hi) as (note & Hn & Hsame & _).
  exists i, note. rewrite Hn. by split_and!.
Qed.

Lemma upserted_same reqBody note sessionId cornerName uid :
  same_corner sessionId cornerName uid (upserted reqBody note)
  = same_corner sessionId cornerName uid note.
Proof.
  unfold upserted. destruct (corner_field _) eqn:Hf; [|done].
  apply corner_field_spec in Hf as (f & Hf & ->).
  unfold same_corner, sessionId_of, userId_of. cbn [prop_key str to_String].
  assert (f ≠ "sessionId" ∧ f ≠ "cornerName" ∧ f ≠ "userId") as (? & ? & ?).
  { split_and!; intros ->; set_solver. }
  by rewrite !set_prop_lookup_ne by done.
Qed.

Lemma new_corner_note_same newId uid reqBody sessionId cornerName uid' :
  same_corner sessionId cornerName uid' (new_corner_note newId uid reqBody) = true →
  sessionId = reqBody !! "sessionId" ∧ cornerName = reqBody !! "cornerName" ∧ uid' = uid.
Proof.
  unfold same_corner, new_corner_note, sessionId_of, userId_of. read_props.
  rewrite !andb_true_iff. intros [[H1 H2] H3].
  apply strict_eq_eq in H1, H2, H3. unfold str in H3. by simplify_eq.
Qed.

(** X9.  The upsert keeps corner notes unique: if no two corner notes
    stand for the same user, session and corner name before the request,
    none do after it, whatever the request. *)
Theorem corner_note_upsert_keeps_unique (uuidv4 : nat → string) (uid : string)
    (reqBody : obj) (st : store) :
  corner_unique (cornerNotes st) →
  corner_unique (cornerNotes (post_corner_note uuidv4 uid reqBody st).2).
Proof.
  intros Huniq.
  destruct (post_corner_note_result uuidv4 uid reqBody st)
    as [[-> _]|(_ & _ & [(e & note & He & Hn & Hsame & ->)|[Hnone ->]])]; [done|..];
    cbn [snd]; change (cornerNotes (writeJsonFile corner_notes_json ?l st)) with l.
  - intros uid' sid name i j a b Ha Hb Hsa Hsb.
    assert (∀ i a, <[e := upserted reqBody note]> (cornerNotes st) !! i = Some a →
              same_corner sid name uid' a = true →
              ∃ a', cornerNotes st !! i = Some a' ∧ same_corner sid name uid' a' = true) as Hback.
    { intros i' a' Hi' Hs'. destruct (decide (e = i')) as [<-|Hne].
      - rewrite list_lookup_insert_eq in Hi' by (by eapply lookup_lt_Some).
        simplify_eq. rewrite upserted_same in Hs'. by exists note.
      - rewrite list_lookup_insert_ne in Hi' by done. by exists a'. }
    destruct (Hback _ _ Ha Hsa) as (a' & Ha' & Hsa').
    destruct (Hback _ _ Hb Hsb) as (b' & Hb' & Hsb').
    by eapply Huniq.
  - rewrite findIndex_None in Hnone.
    intros uid' sid name i j a b Ha Hb Hsa Hsb.
    apply lookup_app_Some in Ha as [Ha|[Hi Ha]], Hb as [Hb|[Hj Hb]].
    + by eapply Huniq.
    + apply list_lookup_singleton_Some in Hb as [_ <-].
      apply new_corner_note_same in Hsb as (-> & -> & ->).
      rewrite (Hnone a) in Hsa; [done|]. by eapply list_elem_of_lookup_2.
    + apply list_lookup_singleton_Some in Ha as [_ <-].
      apply new_corner_note_same in Hsa as (-> & -> & ->).
      rewrite (Hnone b) in Hsb; [done|]. by eapply list_elem_of_lookup_2.
    + apply list_lookup_singleton_Some in Ha as [Ha _], Hb as [Hb _]. lia.
Qed.

Lemma upserted_twice reqBody note : upserted reqBody (upserted reqBody note) = upserted reqBody note.
Proof.
  unfold upserted. destruct (corner_field _) eqn:Hf; [|done].
  unfold js_or. destruct (truthy (reqBody !! "value")) eqn:Hv.
  - destruct (reqBody !! "value") as [v|]; [|done]. simpl. apply insert_insert_eq.
  - simpl. apply insert_insert_eq.
Qed.

Lemma upserted_new newId uid reqBody :
  upserted reqBody (new_corner_note newId uid reqBody) = new_corner_note newId uid reqBody.
Proof.
  unfold upserted. destruct (corner_field _) eqn:Hf; [|done].
  apply corner_field_spec in Hf as (f & Hf & Hfield). rewrite Hfield.
  cbn [prop_key str to_String].
  assert (∃ v, js_or (reqBody !! "value") (str "") = Some v) as [v Hv].
  { unfold js_or. destruct (truthy _) eqn:Ht; [|by eexists].
    destruct (reqBody !! "value"); [by eexists|done]. }
  rewrite Hv. simpl. apply insert_id.
  unfold new_corner_note, new_corner_text. rewrite Hfield, Hv.
  assert (f = "entry" ∨ f = "apex" ∨ f = "exit") as [->|[->| ->]] by set_solver;
    by read_props.
Qed.

(** X10.  Repeating an upsert changes nothing more: when the first
    request is accepted and its [sessionId] and [cornerName] are
    primitive values, the same request sent again answers 200 with the
    record the first one answered and leaves the store as the first one
    left it; no second note is created. *)
Theorem corner_note_upsert_twice (uuidv4 uuidv4' : nat → string) (uid : string)
    (reqBody : obj) (st : store) :
  primitive (reqBody !! "sessionId") → primitive (reqBody !! "cornerName") →
  let r := post_corner_note uuidv4 uid reqBody st in
  status r.1 ≠ 400 →
  post_corner_note uuidv4' uid reqBody r.2 = (Response 200 (payload r.1), r.2).
Proof.
  intros Hps Hpn. cbv zeta.
  destruct (post_corner_note_result uuidv4 uid reqBody st)
    as [[-> _]|(Hs & Hc & [(e & note & He & Hn & Hsame & ->)|[Hnone ->]])]; [done|..];
    intros _; cbn [fst snd payload].
  - rewrite (post_corner_note_existing uuidv4' uid reqBody _ e (upserted reqBody note));
      [|done|done|..].
    + fold (upserted reqBody (upserted reqBody note)). rewrite upserted_twice. cbv zeta.
      change (cornerNotes (writeJsonFile corner_notes_json ?l st)) with l.
      by rewrite list_insert_insert_eq, write_write.
    + change (cornerNotes (writeJsonFile corner_notes_json ?l st)) with l.
      apply findIndex_insert; [done|]. by rewrite upserted_same.
    + change (cornerNotes (writeJsonFile corner_notes_json ?l st)) with l.
      apply list_lookup_insert_eq. by eapply lookup_lt_Some.
  - set (new := new_corner_note (uuidv4 0) uid reqBody).
    assert (same_corner (reqBody !! "sessionId") (reqBody !! "cornerName") uid new = true)
      as Hnew.
    { unfold same_corner, new, new_corner_note, sessionId_of, userId_of. read_props.
      unfold primitive in *. rewrite Hps, Hpn. by apply strict_eq_str. }
    rewrite (post_corner_note_existing uuidv4' uid reqBody _ (length (cornerNotes st)) new);
      [|done|done|..].
    + fold (upserted reqBody new). unfold new at 1 2. rewrite upserted_new. fold new. cbv zeta.
      change (cornerNotes (writeJsonFile corner_notes_json ?l st)) with l.
      rewrite list_insert_id; [by rewrite write_write|].
      by rewrite lookup_app_r, Nat.sub_diag by lia.
    + change (cornerNotes (writeJsonFile corner_notes_json ?l st)) with l.
      apply findIndex_app_last; [|done]. by apply findIndex_None.
    + change (cornerNotes (writeJsonFile corner_notes_json ?l st)) with l.
      by rewrite lookup_app_r, Nat.sub_diag by lia.
Qed.

Lemma owned_same_owner uid x y :
  strict_eq (userId_of x) (userId_of y) = true → owned uid x = owned uid y.
Proof. intros H%strict_eq_eq. unfold owned. by rewrite H. Qed.

Lemma includes_elem (l : list (option jval)) v w :
  v ∈ l → strict_eq v w = true → includes l w = true.
Proof.
  intros Hv Hw. unfold includes. apply existsb_exists. exists v.
  split; [by apply list_elem_of_In|done].
Qed.

Lemma includes_witness (l : list (option jval)) w :
  includes l w = true → ∃ v, v ∈ l ∧ strict_eq v w = true.
Proof.
  unfold includes. intros (v & Hv & Hw)%existsb_exists. exists v.
  split; [by apply list_elem_of_In|done].
Qed.

Lemma strict_eq_left a b : strict_eq a b = true → strict_eq a a = true.
Proof.
  destruct a as [[]|], b as [[]|]; simpl; try done; intros _.
  - by destruct b0.
  - apply Z.eqb_refl.
  - apply String.eqb_refl.
Qed.

(** The session pass of a bulk delete, for any selection [doomed] of
    sessions of the caller. *)
Lemma session_pass_attached uid (doomed : obj → bool) sessions notes :
  (∀ x, doomed x = true → owned uid x = true) →
  ids_not_shared uid sessions →
  attached_to sessions notes →
  attached_to
    (List.filter (fun s => negb (id_selected doomed sessions s)) sessions)
    (List.filter
       (fun cn => negb (owned uid cn
                        && includes (List.map id_of (List.filter doomed sessions))
                             (sessionId_of cn))) notes).
Proof.
  intros Hdoomed Hshare Hatt cn [Hcn Hkept]%elem_of_filter_bool.
  destruct (Hatt cn Hcn) as (s & Hs & Hid & Huid). exists s. split_and!; [|done..].
  apply elem_of_filter_bool. split; [done|].
  apply negb_true_iff. apply not_true_iff_false. intros Hsel.
  apply negb_true_iff, not_true_iff_false in Hkept. apply Hkept. clear Hkept.
  assert (∃ s2, s2 ∈ sessions ∧ doomed s2 = true ∧ strict_eq (id_of s2) (id_of s) = true
                ∧ owned uid s = true) as (s2 & Hs2 & Hd2 & Hid2 & Hown).
  { unfold id_selected in Hsel. apply orb_true_iff in Hsel as [Hd|Hinc].
    - exists s. split_and!; [done..|by eapply strict_eq_left|by apply Hdoomed].
    - apply includes_witness in Hinc as (v & Hv & Hvs).
      apply elem_of_map in Hv as (s2 & Hs2 & ->).
      apply elem_of_filter_bool in Hs2 as [Hs2 Hd2].
      exists s2. split_and!; [done..|]. eapply Hshare; [exact Hs2|done|by apply Hdoomed|done]. }
  rewrite <- (owned_same_owner uid s cn Huid), Hown. simpl.
  apply (includes_elem _ (id_of s2)).
  - apply elem_of_map. exists s2. split; [by apply elem_of_filter_bool|done].
  - apply strict_eq_eq in Hid2. by rewrite Hid2.
Qed.

Lemma ids_not_shared_filter uid (l : list obj) (q : obj → bool) :
  ids_not_shared uid l → ids_not_shared uid (List.filter q l).
Proof.
  intros H x y [Hx _]%elem_of_filter_bool [Hy _]%elem_of_filter_bool. by apply H.
Qed.

Lemma bulk_children_attached fk uid ids sm st :
  ids_not_shared uid (sessions st) → attached st →
  let st' := (bulk_children fk uid ids sm st).2 in
  ids_not_shared uid (sessions st') ∧ attached st'.
Proof.
  intros Hshare Hatt. cbv zeta. unfold bulk_children. cbv zeta. cbn [snd].
  split.
  - destruct st; simpl in *. by apply ids_not_shared_filter.
  - unfold attached. destruct st; simpl in *.
    apply (session_pass_attached uid (fun x => owned uid x && refers fk ids x)); [|done..].
    by intros x [? _]%andb_true_iff.
Qed.

(** X11.  Deleting never leaves a corner note without its session: when
    every corner note has a session of the same user with its
    [sessionId], that still holds after deleting a session, after
    deleting an account, and, provided no session of another user has
    the id of a session of the caller, after a bulk delete. *)
Theorem deletions_keep_notes_attached
    (bcrypt_compare : option jval → option jval → option bool)
    (uid : string) (st : store) :
  attached st →
  (∀ rid, attached (delete_session uid rid st).2)
  ∧ (∀ reqBody, attached (delete_user bcrypt_compare uid reqBody st).2)
  ∧ (ids_not_shared uid (sessions st) → ∀ req, attached (bulk_delete uid req st).2).
Proof.
  intros Hatt. split_and!.
  - intros rid. unfold delete_session. cbv zeta.
    destruct (findIndex _ _) as [i|] eqn:Hi; [|done].
    destruct (findIndex_split _ _ _ Hi) as (l1 & s0 & l2 & Hl & _ & Hp & _ & Hsp).
    rewrite Hsp. apply own_with_id_spec in Hp as [Hid0 Huid0].
    intros cn. destruct st as [cs ss ts es ns ks ms us]; simpl in *.
    intros [Hcn Hkept]%elem_of_filter_bool.
    destruct (Hatt cn Hcn) as (s & Hs & Hid & Huid). simpl in *. subst es.
    exists s. split_and!; [|done..].
    apply elem_of_app in Hs as [Hs|Hs]; [set_solver|].
    apply elem_of_cons in Hs as [->|Hs]; [|set_solver].
    exfalso. apply not_child_spec in Hkept. apply Hkept.
    rewrite Hid0 in Hid. rewrite Huid0 in Huid.
    apply strict_eq_eq in Hid, Huid. unfold sessionId_of in Hid. by split.
  - intros reqBody. unfold delete_user. cbv zeta.
    destruct (negb _); [done|]. destruct (List.find _ _); [|done].
    destruct (bcrypt_compare _ _) as [[]|]; [|done..].
    destruct st; simpl in *.
    intros cn [Hcn Hkept]%elem_of_filter_bool.
    destruct (Hatt cn Hcn) as (s & Hs & Hid & Huid). exists s. split_and!; [|done..].
    apply elem_of_filter_bool. split; [done|]. unfold not_owned in *.
    by rewrite (owned_same_owner uid s cn Huid).
  - intros Hshare [carIds trackIds]. rewrite bulk_delete_store.
    assert (∀ ids sm st0, ids_not_shared uid (sessions st0) → attached st0 →
              ids_not_shared uid (sessions (bulk_cars uid ids sm st0).2)
              ∧ attached (bulk_cars uid ids sm st0).2) as Hcars.
    { intros ids sm st0 H1 H2. unfold bulk_cars. cbv zeta.
      destruct (bulk_children _ _ _ _ _) as [sm' st1] eqn:Hch.
      pose proof (bulk_children_attached "carId" uid
        (List.map id_of (List.filter (fun c => owned uid c && includes ids (id_of c))
           (readJsonFile cars_json st0))) sm st0 H1 H2) as Hc.
      rewrite Hch in Hc. cbv zeta in Hc. cbn [snd] in *. by destruct st1. }
    assert (∀ ids sm st0, ids_not_shared uid (sessions st0) → attached st0 →
              attached (bulk_tracks uid ids sm st0).2) as Htracks.
    { intros ids sm st0 H1 H2. unfold bulk_tracks. cbv zeta.
      destruct (bulk_children _ _ _ _ _) as [sm' st1] eqn:Hch.
      pose proof (bulk_children_attached "trackId" uid
        (List.map id_of (List.filter (fun c => owned uid c && includes ids (id_of c))
           (readJsonFile tracks_json st0))) sm st0 H1 H2) as Hc.
      rewrite Hch in Hc. cbv zeta in Hc. cbn [snd] in *. destruct st1. apply Hc. }
    destruct (Hcars (List.map Some carIds) (DeleteSummary 0 0 0 0 0 0 0) st Hshare Hatt).
    by apply Htracks.
Qed.

(** ** Bulk delete *)

Lemma count_removed {A} (c : nat) (q : A → bool) (l : list A) :
  c + (length l - length (List.filter q l)) + length (List.filter q l) = c + length l.
Proof. pose proof (List.filter_length_le q l). lia. Qed.

Lemma bulk_children_tally fk uid ids sm st :
  tally (bulk_children fk uid ids sm st).1 (bulk_children fk uid ids sm st).2 = tally sm st.
Proof.
  unfold bulk_children, tally. cbv zeta. destruct st as [cs ss ts es ns ks ms us].
  cbn [fst snd cars tracks setups sessions cornerNotes trackNotes maintenance
       readJsonFile writeJsonFile carsDeleted tracksDeleted setupsDeleted
       sessionsDeleted cornerNotesDeleted trackNotesDeleted maintenanceDeleted].
  by rewrite !count_removed.
Qed.

Lemma bulk_cars_tally uid ids sm st :
  tally (bulk_cars uid ids sm st).1 (bulk_cars uid ids sm st).2 = tally sm st.
Proof.
  rewrite <- (bulk_children_tally "carId" uid
    (List.map id_of (List.filter (fun c => owned uid c && includes ids (id_of c))
       (readJsonFile cars_json st))) sm st).
  unfold bulk_cars. cbv zeta. destruct (bulk_children _ _ _ _ _) as [sm1 st1] eqn:Hch.
  assert (cars st1 = cars st) as Hcars.
  { change st1 with (sm1, st1).2. rewrite <- Hch. by destruct st. }
  unfold tally. destruct st1 as [cs ss ts es ns ks ms us].
  cbn [fst snd cars tracks setups sessions cornerNotes trackNotes maintenance
       readJsonFile writeJsonFile carsDeleted tracksDeleted setupsDeleted
       sessionsDeleted cornerNotesDeleted trackNotesDeleted maintenanceDeleted] in *.
  rewrite <- Hcars. by rewrite !count_removed.
Qed.

Lemma bulk_tracks_tally uid ids sm st :
  tally (bulk_tracks uid ids sm st).1 (bulk_tracks uid ids sm st).2 = tally sm st.
Proof.
  rewrite <- (bulk_children_tally "trackId" uid
    (List.map id_of (List.filter (fun c => owned uid c && includes ids (id_of c))
       (readJsonFile tracks_json st))) sm st).
  unfold bulk_tracks. cbv zeta. destruct (bulk_children _ _ _ _ _) as [sm1 st1] eqn:Hch.
  assert (tracks st1 = tracks st) as Htracks.
  { change st1 with (sm1, st1).2. rewrite <- Hch. by destruct st. }
  unfold tally. destruct st1 as [cs ss ts es ns ks ms us].
  cbn [fst snd cars tracks setups sessions cornerNotes trackNotes maintenance
       readJsonFile writeJsonFile carsDeleted tracksDeleted setupsDeleted
       sessionsDeleted cornerNotesDeleted trackNotesDeleted maintenanceDeleted] in *.
  rewrite <- Htracks. by rewrite !count_removed.
Qed.

(** X12.  The summary of a bulk delete counts what was removed: for each
    of the seven collections, the reported number plus the number of
    records left equals the number of records there were, both passes
    taken together. *)
Theorem bulk_delete_summary_counts (uid : string) (req : bulk_request) (st st' : store)
    (sm : delete_summary) :
  bulk_delete uid req st = (Response 200 (BDeleted sm), st') →
  carsDeleted sm + length (cars st') = length (cars st)
  ∧ tracksDeleted sm + length (tracks st') = length (tracks st)
  ∧ setupsDeleted sm + length (setups st') = length (setups st)
  ∧ sessionsDeleted sm + length (sessions st') = length (sessions st)
  ∧ cornerNotesDeleted sm + length (cornerNotes st') = length (cornerNotes st)
  ∧ trackNotesDeleted sm + length (trackNotes st') = length (trackNotes st)
  ∧ maintenanceDeleted sm + length (maintenance st') = length (maintenance st).
Proof.
  intros Hr.
  assert (tally sm st' = tally (DeleteSummary 0 0 0 0 0 0 0) st) as Ht.
  { unfold bulk_delete in Hr. cbv zeta in Hr.
    destruct (b_carIds req) as [|c carIds] eqn:Hc, (b_trackIds req) as [|t trackIds] eqn:Htr.
    - done.
    - destruct (bulk_tracks _ _ _ _) as [sm1 st1] eqn:H1. simplify_eq.
      change sm with (sm, st').1. change st' with (sm, st').2 at 2.
      rewrite <- H1. apply bulk_tracks_tally.
    - destruct (bulk_cars _ _ _ _) as [sm1 st1] eqn:H1. simplify_eq.
      change sm with (sm, st').1. change st' with (sm, st').2 at 2.
      rewrite <- H1. apply bulk_cars_tally.
    - destruct (bulk_cars _ _ _ _) as [sm1 st1] eqn:H1.
      destruct (bulk_tracks _ _ _ _) as [sm2 st2] eqn:H2. simplify_eq.
      change sm with (sm, st').1. change st' with (sm, st').2 at 2.
      rewrite <- H2, bulk_tracks_tally.
      change sm1 with (sm1, st1).1. change st1 with (sm1, st1).2 at 2.
      rewrite <- H1. apply bulk_cars_tally. }
  unfold tally in Ht. simpl in Ht. by simplify_eq.
Qed.

Lemma bulk_cars_none uid ids sm st :
  List.filter (fun c => owned uid c && includes ids (id_of c)) (cars st) = [] →
  (bulk_cars uid ids sm st).2 = st.
Proof.
  intros Hnone. rewrite bulk_cars_store. cbv zeta. rewrite Hnone.
  cbn [List.map]. rewrite !bulk_pass_nil, doomed_nil.
  rewrite !filter_all; [by destruct st|..]; intros x _; unfold id_selected;
    rewrite ?doomed_nil; unfold refers; simpl; by rewrite ?andb_false_r.
Qed.

Lemma bulk_tracks_none uid ids sm st :
  List.filter (fun t => owned uid t && includes ids (id_of t)) (tracks st) = [] →
  (bulk_tracks uid ids sm st).2 = st.
Proof.
  intros Hnone. rewrite bulk_tracks_store. cbv zeta. rewrite Hnone.
  cbn [List.map]. rewrite !bulk_pass_nil, doomed_nil.
  rewrite !filter_all; [by destruct st|..]; intros x _; unfold id_selected;
    rewrite ?doomed_nil; unfold refers; simpl; by rewrite ?andb_false_r.
Qed.

Lemma tally_same_store sm sm' st : tally sm' st = tally sm st → sm' = sm.
Proof.
  unfold tally. intros H. destruct sm, sm'. simpl in H. simplify_eq. f_equal; lia.
Qed.

(** X13.  A bulk delete that names no car and no track of the caller
    deletes nothing: whatever ids are sent, ids of other users' records
    included, the answer is 200 with a summary of zeros and the store is
    unchanged. *)
Theorem bulk_delete_of_foreign_ids (uid : string) (req : bulk_request) (st : store) :
  b_carIds req ≠ [] ∨ b_trackIds req ≠ [] →
  (∀ c, c ∈ cars st → owned uid c = true →
        includes (List.map Some (b_carIds req)) (id_of c) = false) →
  (∀ t, t ∈ tracks st → owned uid t = true →
        includes (List.map Some (b_trackIds req)) (id_of t) = false) →
  bulk_delete uid req st = (Response 200 (BDeleted (DeleteSummary 0 0 0 0 0 0 0)), st).
Proof.
  intros Hsome Hcars Htracks.
  assert (∀ sm, bulk_cars uid (List.map Some (b_carIds req)) sm st = (sm, st)) as Hc.
  { intros sm. pose proof (bulk_cars_tally uid (List.map Some (b_carIds req)) sm st) as Ht.
    rewrite bulk_cars_none in Ht.
    - apply tally_same_store in Ht.
      destruct (bulk_cars _ _ _ _) as [sm1 st1] eqn:H1.
      pose proof (bulk_cars_none uid (List.map Some (b_carIds req)) sm st) as H2.
      rewrite H1 in H2. simpl in *. rewrite H2; [by subst|].
      apply filter_none_in. intros x Hx. destruct (owned uid x) eqn:Ho; [|done].
      by rewrite Hcars.
    - apply filter_none_in. intros x Hx. destruct (owned uid x) eqn:Ho; [|done].
      by rewrite Hcars. }
  assert (∀ sm, bulk_tracks uid (List.map Some (b_trackIds req)) sm st = (sm, st)) as Htr.
  { intros sm. pose proof (bulk_tracks_tally uid (List.map Some (b_trackIds req)) sm st) as Ht.
    rewrite bulk_tracks_none in Ht.
    - apply tally_same_store in Ht.
      destruct (bulk_tracks _ _ _ _) as [sm1 st1] eqn:H1.
      pose proof (bulk_tracks_none uid (List.map Some (b_trackIds req)) sm st) as H2.
      rewrite H1 in H2. simpl in *. rewrite H2; [by subst|].
      apply filter_none_in. intros x Hx. destruct (owned uid x) eqn:Ho; [|done].
      by rewrite Htracks.
    - apply filter_none_in. intros x Hx. destruct (owned uid x) eqn:Ho; [|done].
      by rewrite Htracks. }
  unfold bulk_delete. cbv zeta.
  destruct (b_carIds req) as [|c carIds] eqn:Hcs, (b_trackIds req) as [|t trackIds] eqn:Hts.
  - by destruct Hsome.
  - by rewrite Htr.
  - by rewrite Hc.
  - by rewrite Hc, Htr.
Qed.

Lemma filter_keeps_others_in (q : obj → bool) uid l :
  (∀ x, x ∈ l → not_owned uid x = true → q x = true) →
  List.filter (not_owned uid) (List.filter q l) = List.filter (not_owned uid) l.
Proof.
  intros H. rewrite filter_filter_in. apply filter_ext_elem. intros x Hx.
  destruct (not_owned uid x) eqn:Hn; [|by rewrite andb_false_r].
  by rewrite (H x Hx Hn).
Qed.

Lemma session_pass_keeps_others uid (doomed : obj → bool) sessions :
  (∀ x, doomed x = true → owned uid x = true) →
  ids_not_shared uid sessions →
  List.filter (not_owned uid)
    (List.filter (fun s => negb (id_selected doomed sessions s)) sessions)
  = List.filter (not_owned uid) sessions.
Proof.
  intros Hdoomed Hshare. apply filter_keeps_others_in. intros x Hx Hn.
  apply negb_true_iff, not_true_iff_false. intros Hsel.
  unfold not_owned in Hn. apply negb_true_iff in Hn.
  apply orb_true_iff in Hsel as [Hd|Hinc].
  - by rewrite (Hdoomed x Hd) in Hn.
  - apply includes_witness in Hinc as (v & Hv & Hvs).
    apply elem_of_map in Hv as (s2 & Hs2 & ->).
    apply elem_of_filter_bool in Hs2 as [Hs2 Hd2].
    rewrite (Hshare s2 x Hs2 Hx (Hdoomed _ Hd2) Hvs) in Hn. done.
Qed.

Lemma own_pass_keeps_others uid (q : obj → bool) l :
  List.filter (not_owned uid) (List.filter (fun x => negb (owned uid x && q x)) l)
  = List.filter (not_owned uid) l.
Proof.
  apply filter_keeps_others. intros x Hn. unfold not_owned in Hn.
  apply negb_true_iff in Hn. by rewrite Hn.
Qed.

(** X14.  A bulk delete leaves the records of other users alone: in
    every collection but the sessions, the records that are not the
    caller's are the same before and after, whatever the request; the
    same holds for the sessions when no session of another user has the
    id of a session of the caller (sessions are removed by id). *)
Theorem bulk_delete_keeps_others (uid : string) (req : bulk_request) (st : store) :
  let st' := (bulk_delete uid req st).2 in
  (∀ f, f ≠ sessions_json →
        List.filter (not_owned uid) (readJsonFile f st')
        = List.filter (not_owned uid) (readJsonFile f st))
  ∧ (ids_not_shared uid (sessions st) →
     List.filter (not_owned uid) (sessions st') = List.filter (not_owned uid) (sessions st)).
Proof.
  cbv zeta. destruct req as [carIds trackIds]. rewrite bulk_delete_store.
  rewrite bulk_tracks_store, bulk_cars_store. cbv zeta.
  cbn [cars tracks setups sessions cornerNotes trackNotes maintenance users].
  split.
  - intros f Hf.
    destruct f; cbn [readJsonFile cars tracks setups sessions cornerNotes trackNotes
                     maintenance users]; try done;
      by rewrite ?own_pass_keeps_others.
  - intros Hshare.
    rewrite session_pass_keeps_others.
    + rewrite session_pass_keeps_others; [done| |done]. by intros x [? _]%andb_true_iff.
    + by intros x [? _]%andb_true_iff.
    + by apply ids_not_shared_filter.
Qed.

(** ** Export *)

Lemma refers_either_spec carIds trackIds (x : obj) :
  refers "carId" carIds x || refers "trackId" trackIds x = true ↔
  (truthy (carId_of x) = true ∧ includes carIds (carId_of x) = true)
  ∨ (truthy (trackId_of x) = true ∧ includes trackIds (trackId_of x) = true).
Proof.
  unfold refers, carId_of, trackId_of. rewrite orb_true_iff, !andb_true_iff. done.
Qed.

(** X15.  An export only reads, and the envelope holds exactly the
    caller's records that were asked for: the caller's cars and tracks
    with a requested id; when the category is included, the caller's
    setups, sessions and track notes whose [carId] or [trackId] is a
    requested id, and maintenance tasks whose [carId] is; and with the
    sessions the caller's corner notes of an exported session.  No record
    of another user is ever exported, and an empty selection is
    rejected. *)
Theorem export_only_selected (basename : string → string)
    (readTrackImage : string → option string) (now uid : string)
    (req : export_request) (st : store) :
  let r := export basename readTrackImage now uid req st in
  let carIds := List.map Some (x_carIds req) in
  let trackIds := List.map Some (x_trackIds req) in
  let chosen x := refers "carId" carIds x || refers "trackId" trackIds x in
  r.2 = st
  ∧ (x_carIds req = [] → x_trackIds req = [] → ValidationError r.1)
  ∧ ∀ e d, payload r.1 = BEnvelope e → data e = Some d →
      (∀ c, c ∈ present (d_cars d) ↔
            c ∈ cars st ∧ userId_of c = str uid ∧ includes carIds (id_of c) = true)
      ∧ (∀ t, t ∈ present (d_tracks d) ↔
              t ∈ tracks st ∧ userId_of t = str uid ∧ includes trackIds (id_of t) = true)
      ∧ (∀ s, s ∈ present (d_setups d) ↔
              truthy (includeSetups req) = true
              ∧ s ∈ setups st ∧ userId_of s = str uid ∧ chosen s = true)
      ∧ (∀ s, s ∈ present (d_sessions d) ↔
              truthy (includeSessions req) = true
              ∧ s ∈ sessions st ∧ userId_of s = str uid ∧ chosen s = true)
      ∧ (∀ cn, cn ∈ present (d_cornerNotes d) ↔
               truthy (includeSessions req) = true
               ∧ cn ∈ cornerNotes st ∧ userId_of cn = str uid
               ∧ includes (List.map id_of (present (d_sessions d))) (sessionId_of cn) = true)
      ∧ (∀ n, n ∈ present (d_trackNotes d) ↔
              truthy (includeTrackNotes req) = true
              ∧ n ∈ trackNotes st ∧ userId_of n = str uid ∧ chosen n = true)
      ∧ (∀ m, m ∈ present (d_maintenance d) ↔
              truthy (includeMaintenance req) = true
              ∧ m ∈ maintenance st ∧ userId_of m = str uid
              ∧ refers "carId" carIds m = true).
Proof.
  cbv zeta. unfold export. cbv zeta.
  assert (∀ (b : bool) (l : list obj) (P : obj → Prop),
            (∀ x, x ∈ l ↔ P x) →
            ∀ x, x ∈ present (if b then Some l else None) ↔ b = true ∧ P x) as Hopt.
  { intros [] l P H x; simpl; rewrite ?H; [tauto|]. split; [by intros ?%elem_of_nil|by intros []]. }
  assert (∀ (q : obj → bool) (l : list obj) x,
            x ∈ List.filter q (List.filter (owned uid) l)
            ↔ x ∈ l ∧ userId_of x = str uid ∧ q x = true) as Hown.
  { intros q l x. rewrite !elem_of_filter_bool, owned_spec. tauto. }
  remember (List.map Some (x_carIds req)) as carIds' eqn:Hcar.
  remember (List.map Some (x_trackIds req)) as trackIds' eqn:Htrack.
  cbn [readJsonFile].
  destruct (x_carIds req) as [|c carIds] eqn:Hc, (x_trackIds req) as [|t trackIds] eqn:Ht;
    [split_and!; [done|done|intros e d [=]]|..];
    (destruct (export_images _ _ _) as [images|];
      [|split_and!; [done|done|intros e d [=]]]);
    (split_and!; [done|done|]); intros e d [= <-] [= <-];
    cbn [d_cars d_tracks d_setups d_sessions d_cornerNotes d_trackNotes d_maintenance
         present];
    (split_and!; [apply Hown|apply Hown|apply Hopt, Hown|apply Hopt, Hown|
                  |apply Hopt, Hown|apply Hopt, Hown]);
    (intros cn; destruct (truthy (includeSessions req)); simpl;
      [rewrite Hown; tauto|split; [by intros ?%elem_of_nil|by intros []]]).
Qed.

(** ** Import *)


Lemma accounted_refl overwrite uid p : accounted overwrite uid 0 p p.
Proof.
  split_and!; [lia|done|]. intros _. exists []. rewrite app_nil_r.
  split_and!; [done..|]. by intros x ?%elem_of_nil.
Qed.

Lemma accounted_trans overwrite uid n m p q r :
  accounted overwrite uid n p q → accounted overwrite uid m q r →
  accounted overwrite uid (n + m) p r.
Proof.
  intros (H1 & H2 & H3) (H4 & H5 & H6). split_and!.
  - lia.
  - intros Ho. rewrite H5, H2; done.
  - intros Ho. destruct (H3 Ho) as (a1 & E1 & L1 & O1), (H6 Ho) as (a2 & E2 & L2 & O2).
    exists (a1 ++ a2). split_and!.
    + by rewrite E2, E1, app_assoc.
    + rewrite length_app. lia.
    + intros x [?|?]%elem_of_app; auto.
Qed.

Lemma accounted_fold {T} (view : T → progress) overwrite uid (step : T → obj → T) l :
  (∀ acc r, accounted overwrite uid 1 (view acc) (view (step acc r))) →
  ∀ acc, accounted overwrite uid (length l) (view acc) (view (fold_left step l acc)).
Proof.
  intros Hstep. induction l as [|a l IH]; intros acc; [apply accounted_refl|].
  cbn [fold_left length]. change (S (length l)) with (1 + length l).
  eapply accounted_trans; [apply Hstep|apply IH].
Qed.

Lemma accounted_inserted overwrite uid l i s x :
  userId_of x = str uid → accounted overwrite uid 1 (l, i, s) (l ++ [x], S i, s).
Proof.
  intros Hx. split_and!; simpl; [lia|done|]. intros _. exists [x].
  split_and!; [done|simpl; lia|]. by intros y ->%list_elem_of_singleton.
Qed.

Lemma accounted_skipped uid l i s : accounted false uid 1 (l, i, s) (l, i, S s).
Proof.
  split_and!; simpl; [lia|done|]. intros _. exists []. rewrite app_nil_r.
  split_and!; [done..|]. by intros x ?%elem_of_nil.
Qed.

Lemma accounted_overwritten uid l l' i s : accounted true uid 1 (l, i, s) (l', S i, s).
Proof. split_and!; simpl; [lia|done|done]. Qed.

Section ImportCounts.

Variable uuidv4 : nat → string.
Variable extname : string → string.

Lemma import_car_accounted overwrite uid userCars acc c :
  accounted overwrite uid 1 (of_parents acc)
    (of_parents (import_car uuidv4 overwrite uid userCars acc c)).
Proof.
  unfold import_car, of_parents. destruct (List.find _ _).
  - destruct overwrite; cbn [existing imported skipped].
    + apply accounted_overwritten.
    + apply accounted_skipped.
  - cbn [existing imported skipped]. apply accounted_inserted.
    unfold userId_of. by read_props.
Qed.

Lemma import_cars_accounted overwrite uid importCars existingCars n :
  accounted overwrite uid (length importCars) (existingCars, 0, 0)
    (of_parents (import_cars uuidv4 overwrite uid importCars existingCars n)).
Proof.
  unfold import_cars.
  refine (accounted_fold of_parents overwrite uid _ importCars
            (import_car_accounted overwrite uid _) (Parents existingCars ∅ [] 0 0 n)).
Qed.

Lemma import_track_accounted overwrite uid userTracks acc t acc' :
  import_track uuidv4 extname overwrite uid userTracks acc t = Some acc' →
  accounted overwrite uid 1 (of_parents acc) (of_parents acc').
Proof.
  unfold import_track, of_parents. destruct (List.find _ _).
  - destruct overwrite; intros [= <-]; cbn [existing imported skipped].
    + apply accounted_overwritten.
    + apply accounted_skipped.
  - destruct (js_or _ _) as [[| | |url| |]|]; try done. intros [= <-].
    cbn [existing imported skipped]. apply accounted_inserted.
    unfold userId_of. by read_props.
Qed.

Lemma import_tracks_accounted overwrite uid importTracks existingTracks n ts :
  import_tracks uuidv4 extname overwrite uid importTracks existingTracks n = Some ts →
  accounted overwrite uid (length importTracks) (existingTracks, 0, 0) (of_parents ts).
Proof.
  unfold import_tracks.
  generalize (List.filter (owned uid) existingTracks) as userTracks. intros userTracks.
  change (existingTracks, 0, 0) with (of_parents (Parents existingTracks ∅ [] 0 0 n)).
  generalize (Parents existingTracks ∅ [] 0 0 n) as acc.
  induction importTracks as [|t l IH]; intros acc; cbn [fold_left length].
  - intros [= <-]. apply accounted_refl.
  - destruct (import_track uuidv4 extname overwrite uid userTracks acc t) as [acc1|] eqn:Hstep.
    + intros Hrest. change (S (length l)) with (1 + length l).
      eapply accounted_trans; [by eapply import_track_accounted|by apply IH].
    + intros Hnone. exfalso. clear -Hnone. induction l as [|a l IH]; [done|by apply IH].
Qed.

Lemma fix_keys_owner uid (fix_keys : obj → obj) :
  (∀ x, userId_of (fix_keys x) = userId_of x) →
  ∀ newId r, userId_of (fix_keys (adopt newId uid r)) = str uid.
Proof. intros H newId r. by rewrite H, adopt_userId. Qed.

Lemma import_children_accounted overwrite uid purge skip fix_keys importRows existingRows n :
  (∀ x, userId_of (fix_keys x) = userId_of x) →
  ∃ kept,
    accounted overwrite uid (length importRows) (kept, 0, 0)
      (of_children (import_children uuidv4 overwrite uid purge skip fix_keys
                      importRows existingRows n))
    ∧ (overwrite = false → kept = existingRows).
Proof.
  intros Hfix. unfold import_children. destruct overwrite.
  - exists (List.filter (fun s => negb (id_selected purge existingRows s)) existingRows).
    split; [|done].
    refine (accounted_fold of_children true uid (insert_child uuidv4 uid fix_keys)
              importRows _ (Children _ ∅ 0 0 n)).
    intros acc r. unfold of_children, insert_child. cbn [rows inserted dropped].
    apply accounted_inserted. by apply fix_keys_owner.
  - exists existingRows. split; [|done].
    refine (accounted_fold of_children false uid
              (unless_skipped skip (insert_child uuidv4 uid fix_keys))
              importRows _ (Children existingRows ∅ 0 0 n)).
    intros acc r. unfold of_children, unless_skipped, insert_child.
    destruct (skip r); cbn [rows inserted dropped].
    + apply accounted_skipped.
    + apply accounted_inserted. by apply fix_keys_owner.
Qed.

Lemma import_sessions_accounted overwrite uid purge skip fix_keys importRows existingRows n :
  (∀ x, userId_of (fix_keys x) = userId_of x) →
  ∃ kept,
    accounted overwrite uid (length importRows) (kept, 0, 0)
      (of_children (import_sessions uuidv4 overwrite uid purge skip fix_keys
                      importRows existingRows n))
    ∧ (overwrite = false → kept = existingRows).
Proof.
  intros Hfix. unfold import_sessions. destruct overwrite.
  - exists (List.filter (fun s => negb (id_selected purge existingRows s)) existingRows).
    split; [|done].
    refine (accounted_fold of_children true uid (insert_session uuidv4 uid fix_keys)
              importRows _ (Children _ ∅ 0 0 n)).
    intros acc r. unfold of_children, insert_session. cbn [rows inserted dropped].
    apply accounted_inserted. by apply fix_keys_owner.
  - exists existingRows. split; [|done].
    refine (accounted_fold of_children false uid
              (unless_skipped skip (insert_session uuidv4 uid fix_keys))
              importRows _ (Children existingRows ∅ 0 0 n)).
    intros acc r. unfold of_children, unless_skipped, insert_session.
    destruct (skip r); cbn [rows inserted dropped].
    + apply accounted_skipped.
    + apply accounted_inserted. by apply fix_keys_owner.
Qed.

Lemma remap_owner idMap fk (x : obj) :
  fk ≠ "userId" → userId_of (remap idMap fk x) = userId_of x.
Proof. intros. unfold userId_of. by apply remap_lookup_ne. Qed.

Lemma import_dependent_accounted d overwrite uid cs ts importRows existingRows n :
  ∃ kept,
    accounted overwrite uid (length importRows) (kept, 0, 0)
      (of_children (ran importRows (import_dependent uuidv4 d overwrite uid cs ts)
                      existingRows n))
    ∧ (overwrite = false → kept = existingRows).
Proof.
  destruct importRows as [|r l]; [exists existingRows; split; [apply accounted_refl|done]|].
  unfold ran.
  destruct d; cbn [import_dependent]; cbv zeta;
    first [ apply import_children_accounted | apply import_sessions_accounted ];
    intros x; rewrite ?remap_owner; done.
Qed.

End ImportCounts.

Section ImportTotals.

Variable uuidv4 : nat → string.
Variable extname : string → string.

Lemma import_corner_notes_appends overwrite uid sessionIds importNotes existingNotes n :
  let ns := import_corner_notes uuidv4 overwrite uid sessionIds importNotes existingNotes n in
  (inserted ns ≤ length importNotes)%nat
  ∧ (overwrite = true → inserted ns = length importNotes)
  ∧ ∃ added, rows ns = existingNotes ++ added ∧ length added = inserted ns
             ∧ ∀ x, x ∈ added → userId_of x = str uid.
Proof.
  cbv zeta. unfold import_corner_notes. cbv zeta.
  set (step := fun (acc : children) (cn : obj) => _).
  assert (∀ l acc,
    (inserted (fold_left step l acc) ≤ inserted acc + length l)%nat
    ∧ (overwrite = true → inserted (fold_left step l acc) = inserted acc + length l)
    ∧ ∃ added, rows (fold_left step l acc) = rows acc ++ added
               ∧ length added + inserted acc = inserted (fold_left step l acc)
               ∧ ∀ x, x ∈ added → userId_of x = str uid) as Hfold.
  { induction l as [|cn l IH]; intros acc; cbn [fold_left length].
    - split_and!; [lia|lia|]. exists []. rewrite app_nil_r.
      split_and!; [done..|]. by intros x ?%elem_of_nil.
    - destruct (IH (step acc cn)) as (Hle & Heq & added & Hrows & Hlen & Hown).
      assert ((step acc cn = acc ∧ overwrite = false)
              ∨ ∃ x, rows (step acc cn) = rows acc ++ [x]
                     ∧ inserted (step acc cn) = S (inserted acc)
                     ∧ userId_of x = str uid) as [[Hsame Hmode]|(x & Hx & Hi & Hu)].
      { unfold step. destruct overwrite.
        - right. eexists. split_and!; [done..|].
          by rewrite remap_owner, adopt_userId.
        - destruct (negb _); [by left|]. right. eexists. split_and!; [done..|].
          unfold userId_of. rewrite set_prop_lookup_ne by done. apply adopt_userId. }
      + rewrite Hsame in *. split_and!; [lia|by rewrite Hmode|].
        exists added. by split_and!.
      + rewrite Hi in *. split_and!; [lia|intros Ho; rewrite Heq by done; lia|].
        exists (x :: added). split_and!.
        * by rewrite Hrows, Hx, <- app_assoc.
        * simpl. lia.
        * intros y [->|Hy]%elem_of_cons; auto. }
  destruct (Hfold importNotes (Children existingNotes ∅ 0 0 n))
    as (Hle & Heq & added & Hrows & Hlen & Hown).
  cbn [inserted rows] in *. split_and!; [lia|intros Ho; rewrite Heq by done; lia|].
  exists added. split_and!; [done|lia|done].
Qed.

Lemma sessions_block_accounted overwrite uid importData purge skip fix_keys n st :
  (∀ x, userId_of (fix_keys x) = userId_of x) →
  let en := (sessions_block uuidv4 overwrite uid importData purge skip fix_keys n st).1 in
  (∃ kept,
      accounted overwrite uid (length (present (d_sessions importData))) (kept, 0, 0)
        (of_children en.1)
      ∧ (overwrite = false → kept = sessions st))
  ∧ (inserted en.2 ≤ length (present (d_cornerNotes importData)))%nat
  ∧ (overwrite = false →
     ∃ added, rows en.2 = cornerNotes st ++ added ∧ length added = inserted en.2
              ∧ ∀ x, x ∈ added → userId_of x = str uid).
Proof.
  intros Hfix. cbv zeta. unfold sessions_block.
  destruct (present (d_sessions importData)) as [|r l] eqn:Hrows.
  - cbn [fst snd rows inserted]. split_and!.
    + exists (sessions st). split; [apply accounted_refl|done].
    + lia.
    + intros _. exists []. rewrite app_nil_r. split_and!; [done..|].
      by intros x ?%elem_of_nil.
  - cbv zeta. cbn [fst snd]. split_and!.
    + by apply import_sessions_accounted.
    + apply import_corner_notes_appends.
    + intros ->.
      destruct (import_corner_notes_appends false uid
                  (sessionIdMap (import_sessions uuidv4 false uid purge skip fix_keys
                     (r :: l) (readJsonFile sessions_json st) n))
                  (present (d_cornerNotes importData))
                  (readJsonFile corner_notes_json st)
                  (generated (import_sessions uuidv4 false uid purge skip fix_keys
                     (r :: l) (readJsonFile sessions_json st) n)))
        as (_ & _ & added & H1 & H2 & H3).
      exists added. by split_and!.
Qed.

End ImportTotals.

Lemma mode_known (mode : option jval) :
  includes [str "overwrite"; str "preserve"] mode = true
  ↔ mode = str "overwrite" ∨ mode = str "preserve".
Proof.
  unfold includes. cbn [existsb]. rewrite !orb_true_iff, !(strict_eq_sym _ mode).
  rewrite !strict_eq_str. naive_solver.
Qed.

(** X16.  An import is rejected with 400 exactly when the request is
    malformed: the envelope, its [version] or its [data] is missing, or
    the mode is neither [overwrite] nor [preserve].  A rejected request
    leaves the store as it was. *)
Theorem import_rejects_malformed (uuidv4 : nat → string) (extname : string → string)
    (uid : string) (req : import_request) (st : store) :
  let r := import uuidv4 extname uid req st in
  (ValidationError r.1 ↔
   ¬ ((∃ env importData, i_data req = Some env ∧ data env = Some importData
                         ∧ truthy (version env) = true)
      ∧ (i_mode req = str "overwrite" ∨ i_mode req = str "preserve")))
  ∧ (ValidationError r.1 → r.2 = st).
Proof.
  cbv zeta. unfold ValidationError, import.
  destruct (i_data req) as [env|] eqn:Henv;
    [|split; [split; [|done]|done]; intros _ [(e & d & ? & ? & ?) _]; congruence].
  destruct (data env) as [importData|] eqn:Hdata;
    [|split; [split; [|done]|done]; intros _ [(e & d & ? & ? & ?) _]; congruence].
  destruct (truthy (version env)) eqn:Hv; cbn [negb];
    [|split; [split; [|done]|done]; intros _ [(e & d & ? & ? & ?) _]; congruence].
  destruct (includes _ (i_mode req)) eqn:Hmode; cbn [negb].
  - apply mode_known in Hmode.
    assert (∀ r : response * store, status r.1 = 200 ∨ r.1 = thrown →
              (status r.1 = 400 ↔ ¬ ((∃ env0 importData0, Some env = Some env0
                  ∧ data env0 = Some importData0 ∧ truthy (version env0) = true)
                  ∧ (i_mode req = str "overwrite" ∨ i_mode req = str "preserve")))
              ∧ (status r.1 = 400 → r.2 = st)) as Hfine.
    { intros r Hr. split; [split|].
      - intros H400. destruct Hr as [Hr|Hr]; rewrite Hr in H400; done.
      - intros Hn. exfalso. apply Hn. split; [|done]. by exists env, importData.
      - intros H400. destruct Hr as [Hr|Hr]; rewrite Hr in H400; done. }
    apply Hfine.
    destruct (cars_block _ _ _ _ _) as [cs st1].
    destruct (tracks_block _ _ _ _ _ _ _) as [[ts st2]|]; [|by right].
    destruct (negb (images_ok _)); [by right|].
    destruct (rows_block setups_json _ _ _ _) as [ss st3].
    destruct (sessions_block _ _ _ _ _ _ _ _ _) as [[es ns] st4].
    destruct (rows_block track_notes_json _ _ _ _) as [tn st5].
    destruct (rows_block maintenance_json _ _ _ _) as [ms st6]. by left.
  - split; [split|]; [|done..]. intros _ [_ Hm]. apply mode_known in Hm. congruence.
Qed.

(** X17.  The summary of a successful import accounts for every record
    of the envelope: each car, track, setup, session, track note and
    maintenance task is counted exactly once, as imported or as skipped;
    no more corner notes are counted than the envelope holds; and under
    [overwrite] nothing is skipped. *)
Theorem import_summary_accounts (uuidv4 : nat → string) (extname : string → string)
    (uid : string) (env : envelope) (importData : export_data) (mode : option jval)
    (st st' : store) (sm : import_summary) :
  data env = Some importData →
  import uuidv4 extname uid (ImportRequest (Some env) mode) st
    = (Response 200 (BImported sm), st') →
  carsImported sm + carsSkipped sm = length (present (d_cars importData))
  ∧ tracksImported sm + tracksSkipped sm = length (present (d_tracks importData))
  ∧ setupsImported sm + setupsSkipped sm = length (present (d_setups importData))
  ∧ sessionsImported sm + sessionsSkipped sm = length (present (d_sessions importData))
  ∧ trackNotesImported sm + trackNotesSkipped sm = length (present (d_trackNotes importData))
  ∧ maintenanceImported sm + maintenanceSkipped sm
    = length (present (d_maintenance importData))
  ∧ (cornerNotesImported sm ≤ length (present (d_cornerNotes importData)))%nat
  ∧ (mode = str "overwrite" →
     carsSkipped sm = 0 ∧ tracksSkipped sm = 0 ∧ setupsSkipped sm = 0
     ∧ sessionsSkipped sm = 0 ∧ trackNotesSkipped sm = 0 ∧ maintenanceSkipped sm = 0).
Proof.
  intros Hdata Hr.
  destruct (import_run uuidv4 extname uid env importData mode st Hdata)
    as (ts & Hts & Hmode & Hrun); [by rewrite Hr|].
  cbv zeta in Hrun. rewrite Hrun in Hr. clear Hrun.
  set (ow := strict_eq mode (str "overwrite")) in *.
  set (cs := import_cars uuidv4 ow uid (present (d_cars importData)) (cars st) 0) in *.
  pose proof (import_cars_accounted uuidv4 ow uid (present (d_cars importData)) (cars st) 0)
    as (Hc1 & Hc2 & _).
  pose proof (import_tracks_accounted uuidv4 extname ow uid _ _ _ _ Hts) as (Ht1 & Ht2 & _).
  destruct (import_dependent_accounted uuidv4 DSetup ow uid cs ts
              (present (d_setups importData)) (setups st) (issued ts))
    as (k1 & (Hs1 & Hs2 & _) & _).
  match type of Hr with
  | context [sessions_block ?a ?b ?c ?d ?p ?s ?f ?n ?st0] =>
      destruct (sessions_block_accounted a b c d p s f n st0) as ((k2 & (He1 & He2 & _) & _) & Hn & _);
        [intros x; by rewrite !remap_owner|];
      destruct (sessions_block a b c d p s f n st0).1 as [es ns]
  end.
  cbn [fst snd] in *.
  destruct (import_dependent_accounted uuidv4 DTrackNote ow uid cs ts
              (present (d_trackNotes importData)) (trackNotes st) (generated ns))
    as (k3 & (Hn1 & Hn2 & _) & _).
  match type of Hr with
  | context [ran (present (d_maintenance importData)) ?run ?l ?n] =>
      destruct (import_dependent_accounted uuidv4 DMaintenance ow uid cs ts
                  (present (d_maintenance importData)) l n)
        as (k4 & (Hm1 & Hm2 & _) & _)
  end.
  injection Hr as <- _. clear Hmode. unfold of_parents, of_children in *.
  cbn [fst snd carsImported carsSkipped tracksImported tracksSkipped setupsImported
       setupsSkipped sessionsImported sessionsSkipped cornerNotesImported
       trackNotesImported trackNotesSkipped maintenanceImported maintenanceSkipped] in *.
  split_and!; try (subst cs; lia).
  intros ->. assert (ow = true) as How by (by apply strict_eq_str).
  split_and!; auto.
Qed.

(** X18.  An import in [preserve] mode never changes or removes a stored
    record: after a successful import every collection is the collection
    as it was, followed by the records the import added; the added
    records all belong to the importing user, and their number is the
    number the summary reports as imported. *)
Theorem import_preserve_appends (uuidv4 : nat → string) (extname : string → string)
    (uid : string) (env : envelope) (importData : export_data)
    (st st' : store) (sm : import_summary) :
  data env = Some importData →
  import uuidv4 extname uid (ImportRequest (Some env) (str "preserve")) st
    = (Response 200 (BImported sm), st') →
  ∀ f, ∃ added,
    readJsonFile f st' = readJsonFile f st ++ added
    ∧ length added = imported_into f sm
    ∧ ∀ x, x ∈ added → userId_of x = str uid.
Proof.
  intros Hdata Hr.
  destruct (import_run uuidv4 extname uid env importData (str "preserve") st Hdata)
    as (ts & Hts & _ & Hrun); [by rewrite Hr|].
  cbv zeta in Hrun. rewrite Hrun in Hr. clear Hrun.
  change (strict_eq (str "preserve") (str "overwrite")) with false in *.
  set (cs := import_cars uuidv4 false uid (present (d_cars importData)) (cars st) 0) in *.
  pose proof (import_cars_accounted uuidv4 false uid (present (d_cars importData)) (cars st) 0)
    as (_ & _ & Hc).
  pose proof (import_tracks_accounted uuidv4 extname false uid _ _ _ _ Hts) as (_ & _ & Ht).
  destruct (import_dependent_accounted uuidv4 DSetup false uid cs ts
              (present (d_setups importData)) (setups st) (issued ts))
    as (k1 & (_ & _ & Hs) & Hk1). specialize (Hk1 eq_refl) as ->.
  match type of Hr with
  | context [sessions_block ?a ?b ?c ?d ?p ?s ?f ?n ?st0] =>
      destruct (sessions_block_accounted a b c d p s f n st0)
        as ((k2 & (_ & _ & He) & Hk2) & _ & Hn);
        [intros x; by rewrite !remap_owner|];
      specialize (Hk2 eq_refl) as ->;
      destruct (sessions_block a b c d p s f n st0).1 as [es ns]
  end.
  cbn [fst snd] in *.
  destruct (import_dependent_accounted uuidv4 DTrackNote false uid cs ts
              (present (d_trackNotes importData)) (trackNotes st) (generated ns))
    as (k3 & (_ & _ & Hk) & Hk3). specialize (Hk3 eq_refl) as ->.
  match type of Hr with
  | context [ran (present (d_maintenance importData)) ?run ?l ?n] =>
      destruct (import_dependent_accounted uuidv4 DMaintenance false uid cs ts
                  (present (d_maintenance importData)) l n)
        as (k4 & (_ & _ & Hm) & Hk4); specialize (Hk4 eq_refl) as ->
  end.
  injection Hr as <- <-. unfold of_parents, of_children in *.
  cbn [fst snd] in *.
  destruct (Hc eq_refl) as (a1 & E1 & L1 & O1), (Ht eq_refl) as (a2 & E2 & L2 & O2),
    (Hs eq_refl) as (a3 & E3 & L3 & O3), (He eq_refl) as (a4 & E4 & L4 & O4),
    (Hn eq_refl) as (a5 & E5 & L5 & O5), (Hk eq_refl) as (a6 & E6 & L6 & O6),
    (Hm eq_refl) as (a7 & E7 & L7 & O7).
  intros f.
  destruct f; cbn [readJsonFile imported_into cars setups tracks sessions cornerNotes
                   trackNotes maintenance users carsImported tracksImported
                   setupsImported sessionsImported cornerNotesImported
                   trackNotesImported maintenanceImported].
  - exists a1. split_and!; [done|subst cs; lia|done].
  - exists a3. split_and!; [done|lia|done].
  - exists a2. split_and!; [done|lia|done].
  - exists a4. split_and!; [done|lia|done].
  - exists a5. split_and!; [done|lia|done].
  - exists a6. split_and!; [done|lia|done].
  - exists a7. split_and!; [done|lia|done].
  - exists []. rewrite app_nil_r. split_and!; [done..|]. by intros x ?%elem_of_nil.
Qed.

Section ImportFrame.

Variable uuidv4 : nat → string.
Variable extname : string → string.

Lemma filter_app_owned uid (l : list obj) x :
  userId_of x = str uid →
  List.filter (not_owned uid) (l ++ [x]) = List.filter (not_owned uid) l.
Proof.
  intros Hx. rewrite List.filter_app. simpl. unfold not_owned at 2.
  apply owned_spec in Hx. rewrite Hx. simpl. by rewrite app_nil_r.
Qed.

Lemma overwrite_at_keeps_others uid found props arr cars0 :
  found ∈ cars0 → owned uid found = true → ids_not_shared uid cars0 →
  List.filter (not_owned uid) arr = List.filter (not_owned uid) cars0 →
  (∀ kv, kv ∈ props → kv.1 ≠ "userId") →
  List.filter (not_owned uid) (overwrite_at found props arr)
  = List.filter (not_owned uid) cars0.
Proof.
  intros Hfound Hown Hshare Hinv Hprops. unfold overwrite_at.
  destruct (findIndex _ arr) as [idx|] eqn:Hidx; [|done].
  destruct (findIndex_Some _ _ _ Hidx) as (old & Hold & Hid & _). rewrite Hold.
  assert (owned uid old = true) as Hold_own.
  { destruct (owned uid old) eqn:Ho; [done|].
    assert (old ∈ List.filter (not_owned uid) arr) as Hin.
    { apply elem_of_filter_bool. split; [by eapply list_elem_of_lookup_2|].
      unfold not_owned. by rewrite Ho. }
    rewrite Hinv in Hin. apply elem_of_filter_bool in Hin as [Hin _].
    rewrite <- Ho. apply (Hshare found old); [done..|]. by rewrite strict_eq_sym. }
  rewrite <- Hinv. apply (filter_insert_out _ _ _ old); [done|..].
  - unfold not_owned. by rewrite Hold_own.
  - unfold not_owned. apply negb_false_iff. rewrite <- Hold_own. unfold owned. f_equal.
    unfold userId_of. clear -Hprops.
    induction props as [|[k v] props IH] using rev_ind; [done|].
    rewrite fold_left_app. cbn [fold_left fst snd]. rewrite set_prop_lookup_ne.
    + apply IH. intros kv Hkv. apply Hprops. apply elem_of_app. by left.
    + apply (Hprops (k, v)). apply elem_of_app. right. by left.
Qed.

Lemma import_cars_keeps_others overwrite uid importCars cars0 n :
  ids_not_shared uid cars0 →
  List.filter (not_owned uid) (existing (import_cars uuidv4 overwrite uid importCars cars0 n))
  = List.filter (not_owned uid) cars0.
Proof.
  intros Hshare. unfold import_cars.
  assert (∀ acc, List.filter (not_owned uid) (existing acc) = List.filter (not_owned uid) cars0 →
            List.filter (not_owned uid)
              (existing (fold_left (import_car uuidv4 overwrite uid
                                      (List.filter (owned uid) cars0)) importCars acc))
            = List.filter (not_owned uid) cars0) as Hfold; [|by apply Hfold].
  induction importCars as [|c l IH]; intros acc Hacc; [done|].
  cbn [fold_left]. apply IH. unfold import_car.
  destruct (List.find _ _) as [found|] eqn:Hfound.
  - apply List.find_some in Hfound as [[Hin Hown]%list_elem_of_In%elem_of_filter_bool _].
    destruct overwrite; cbn [existing]; [|done].
    apply overwrite_at_keeps_others; [done..|].
    intros kv Hkv. set_solver.
  - cbn [existing]. rewrite filter_app_owned; [done|]. unfold userId_of. by read_props.
Qed.

Lemma import_tracks_keeps_others overwrite uid importTracks tracks0 n ts :
  ids_not_shared uid tracks0 →
  import_tracks uuidv4 extname overwrite uid importTracks tracks0 n = Some ts →
  List.filter (not_owned uid) (existing ts) = List.filter (not_owned uid) tracks0.
Proof.
  intros Hshare. unfold import_tracks.
  assert (∀ acc, List.filter (not_owned uid) (existing acc) = List.filter (not_owned uid) tracks0 →
            fold_left (fun acc t => match acc with
                                    | Some acc => import_track uuidv4 extname overwrite uid
                                                    (List.filter (owned uid) tracks0) acc t
                                    | None => None end) importTracks (Some acc) = Some ts →
            List.filter (not_owned uid) (existing ts) = List.filter (not_owned uid) tracks0)
    as Hfold; [|by apply Hfold].
  induction importTracks as [|t l IH]; intros acc Hacc; cbn [fold_left].
  { by intros [= <-]. }
  destruct (import_track _ _ _ _ _ acc t) as [acc1|] eqn:Hstep.
  - apply IH. unfold import_track in Hstep.
    destruct (List.find _ _) as [found|] eqn:Hfound.
    + apply List.find_some in Hfound as [[Hin Hown]%list_elem_of_In%elem_of_filter_bool _].
      destruct overwrite; simplify_eq; cbn [existing]; [|done].
      apply overwrite_at_keeps_others; [done..|].
      intros kv Hkv. set_solver.
    + destruct (js_or _ _) as [[| | |url| |]|]; try done. simplify_eq. cbn [existing].
      rewrite filter_app_owned; [done|]. unfold userId_of. by read_props.
  - intros Hnone. exfalso. clear -Hnone. induction l as [|a l IH]; [done|by apply IH].
Qed.

Lemma append_loop_keeps_others uid (step : children → obj → children) l :
  (∀ acc r, step acc r = Children (rows acc) (sessionIdMap (step acc r)) (inserted (step acc r))
                           (dropped (step acc r)) (generated (step acc r))
            ∨ ∃ x, rows (step acc r) = rows acc ++ [x] ∧ userId_of x = str uid) →
  ∀ acc, List.filter (not_owned uid) (rows (fold_left step l acc))
         = List.filter (not_owned uid) (rows acc).
Proof.
  intros Hstep. induction l as [|a l IH]; intros acc; [done|].
  cbn [fold_left]. rewrite IH.
  destruct (Hstep acc a) as [->|(x & -> & Hx)]; [done|]. by apply filter_app_owned.
Qed.

Lemma children_step_owned uid (skip : obj → bool) (fix_keys : obj → obj)
    (ins : children → obj → children) :
  (∀ x, userId_of (fix_keys x) = userId_of x) →
  (∀ acc r, rows (ins acc r) = rows acc ++ [fix_keys (adopt (uuidv4 (generated acc)) uid r)]) →
  ∀ acc r,
    unless_skipped skip ins acc r
      = Children (rows acc) (sessionIdMap (unless_skipped skip ins acc r))
          (inserted (unless_skipped skip ins acc r))
          (dropped (unless_skipped skip ins acc r))
          (generated (unless_skipped skip ins acc r))
    ∨ ∃ x, rows (unless_skipped skip ins acc r) = rows acc ++ [x] ∧ userId_of x = str uid.
Proof.
  intros Hfix Hins acc r. unfold unless_skipped. destruct (skip r); [by left|].
  right. eexists. split; [apply Hins|]. by rewrite Hfix, adopt_userId.
Qed.

Lemma import_children_keeps_others overwrite uid purge skip fix_keys importRows rows0 n :
  (∀ x, userId_of (fix_keys x) = userId_of x) →
  (∀ x, purge x = true → owned uid x = true) →
  ids_not_shared uid rows0 →
  List.filter (not_owned uid)
    (rows (import_children uuidv4 overwrite uid purge skip fix_keys importRows rows0 n))
  = List.filter (not_owned uid) rows0
  ∧ List.filter (not_owned uid)
      (rows (import_sessions uuidv4 overwrite uid purge skip fix_keys importRows rows0 n))
    = List.filter (not_owned uid) rows0.
Proof.
  intros Hfix Hpurge Hshare. unfold import_children, import_sessions.
  destruct overwrite; split.
  - rewrite (append_loop_keeps_others uid).
    + cbn [rows]. by apply session_pass_keeps_others.
    + intros acc r. right. eexists. split; [done|]. by rewrite Hfix, adopt_userId.
  - rewrite (append_loop_keeps_others uid).
    + cbn [rows]. by apply session_pass_keeps_others.
    + intros acc r. right. eexists. split; [done|]. by rewrite Hfix, adopt_userId.
  - rewrite (append_loop_keeps_others uid); [done|].
    by apply (children_step_owned uid skip fix_keys).
  - rewrite (append_loop_keeps_others uid); [done|].
    by apply (children_step_owned uid skip fix_keys).
Qed.

Lemma import_corner_notes_keeps_others overwrite uid sessionIds importNotes notes0 n :
  List.filter (not_owned uid)
    (rows (import_corner_notes uuidv4 overwrite uid sessionIds importNotes notes0 n))
  = List.filter (not_owned uid) notes0.
Proof.
  destruct (import_corner_notes_appends uuidv4 overwrite uid sessionIds importNotes notes0 n)
    as (_ & _ & added & -> & _ & Hown).
  rewrite List.filter_app.
  rewrite (filter_none_in (not_owned uid) added); [by rewrite app_nil_r|].
  intros x Hx. unfold not_owned. apply negb_false_iff. apply owned_spec. by apply Hown.
Qed.

End ImportFrame.

Section ImportOthers.

Variable uuidv4 : nat → string.
Variable extname : string → string.

Lemma import_dependent_keeps_others d overwrite uid cs ts importRows rows0 n :
  ids_not_shared uid rows0 →
  List.filter (not_owned uid)
    (rows (ran importRows (import_dependent uuidv4 d overwrite uid cs ts) rows0 n))
  = List.filter (not_owned uid) rows0.
Proof.
  intros Hshare. destruct importRows as [|r l]; [done|]. unfold ran.
  destruct d; cbn [import_dependent]; cbv zeta;
    apply import_children_keeps_others; try done;
    try (intros x; by rewrite ?remap_owner);
    by intros x [? _]%andb_true_iff.
Qed.

Lemma sessions_block_keeps_others overwrite uid importData purge skip fix_keys n st :
  (∀ x, userId_of (fix_keys x) = userId_of x) →
  (∀ x, purge x = true → owned uid x = true) →
  ids_not_shared uid (sessions st) →
  let en := (sessions_block uuidv4 overwrite uid importData purge skip fix_keys n st).1 in
  List.filter (not_owned uid) (rows en.1) = List.filter (not_owned uid) (sessions st)
  ∧ List.filter (not_owned uid) (rows en.2) = List.filter (not_owned uid) (cornerNotes st).
Proof.
  intros Hfix Hpurge Hshare. cbv zeta. unfold sessions_block.
  destruct (present (d_sessions importData)) as [|r l]; [done|].
  cbv zeta. cbn [fst snd readJsonFile]. split.
  - by apply import_children_keeps_others.
  - rewrite import_corner_notes_keeps_others. destruct overwrite; [|done].
    apply filter_keeps_others. intros x Hx. unfold not_owned in Hx. rewrite Hx. apply orb_true_r.
Qed.

Lemma import_ok_keeps_others uid env importData mode st :
  data env = Some importData →
  (∀ f, ids_not_shared uid (readJsonFile f st)) →
  status (import uuidv4 extname uid (ImportRequest (Some env) mode) st).1 = 200 →
  ∀ f, List.filter (not_owned uid)
         (readJsonFile f (import uuidv4 extname uid (ImportRequest (Some env) mode) st).2)
       = List.filter (not_owned uid) (readJsonFile f st).
Proof.
  intros Hdata Hshare Hok.
  destruct (import_run uuidv4 extname uid env importData mode st Hdata Hok)
    as (ts & Hts & _ & Hrun).
  cbv zeta in Hrun. rewrite Hrun. clear Hrun Hok. cbn [snd].
  match goal with
  | |- context [sessions_block ?a ?b ?c ?d ?p ?s ?fx ?n ?st0] =>
      destruct (sessions_block_keeps_others b c d p s fx n st0) as [He Hn];
        [intros x; by rewrite !remap_owner|by intros x [? _]%andb_true_iff
        |exact (Hshare sessions_json)|];
      cbv zeta in He, Hn
  end.
  intros f.
  destruct f; cbn [readJsonFile cars setups tracks sessions cornerNotes trackNotes
                   maintenance users]; try done.
  - apply import_cars_keeps_others; first [exact (Hshare cars_json)|exact extname].
  - apply import_dependent_keeps_others. exact (Hshare setups_json).
  - eapply import_tracks_keeps_others; [exact (Hshare tracks_json)|done].
  - apply import_dependent_keeps_others. exact (Hshare track_notes_json).
  - apply import_dependent_keeps_others. exact (Hshare maintenance_json).
Qed.

End ImportOthers.

(** X19.  An import leaves the records of other users alone, whatever
    the request and the outcome, also when it throws half way: provided
    that in each collection no record of another user has the id of a
    record of the caller, the records that are not the caller's are the
    same before and after in every collection. *)
Theorem import_keeps_others (uuidv4 : nat → string) (extname : string → string)
    (uid : string) (req : import_request) (st : store) :
  (∀ f, ids_not_shared uid (readJsonFile f st)) →
  ∀ f, List.filter (not_owned uid) (readJsonFile f (import uuidv4 extname uid req st).2)
       = List.filter (not_owned uid) (readJsonFile f st).
Proof.
  intros Hshare.
  destruct (decide (status (import uuidv4 extname uid req st).1 = 200)) as [Hok|Hbad].
  { destruct req as [[env|] mode]; [|by vm_compute in Hok].
    destruct (data env) as [importData|] eqn:Hdata.
    - by apply import_ok_keeps_others with importData.
    - unfold import in Hok. cbn [i_data] in Hok. rewrite Hdata in Hok. by vm_compute in Hok. }
  revert Hbad. unfold import.
  destruct (i_data req) as [env|]; [|done].
  destruct (data env) as [importData|]; [|done].
  destruct (negb (truthy (version env))); [done|].
  destruct (negb (includes _ _)); [done|].
  rewrite cars_block_run. cbv beta iota zeta. rewrite tracks_block_run.
  change (tracks (writeJsonFile cars_json ?l st)) with (tracks st).
  pose proof (import_cars_keeps_others uuidv4 extname (strict_eq (i_mode req) (str "overwrite")) uid
                (present (d_cars importData)) (cars st) 0 (Hshare cars_json)) as Hcars.
  destruct (import_tracks _ _ _ _ _ _ _) as [ts|] eqn:Hts; cbv beta iota zeta.
  - pose proof (import_tracks_keeps_others uuidv4 extname _ uid _ _ _ _
                  (Hshare tracks_json) Hts) as Htracks.
    destruct (negb (images_ok _)).
    + intros _ f. cbn [snd]. destruct f; simpl; done.
    + intros Hbad. exfalso. apply Hbad.
      destruct (rows_block setups_json _ _ _ _) as [ss st3].
      destruct (sessions_block _ _ _ _ _ _ _ _ _) as [[es ns] st4].
      destruct (rows_block track_notes_json _ _ _ _) as [tn st5].
      by destruct (rows_block maintenance_json _ _ _ _) as [ms st6].
  - intros _ f. cbn [snd]. destruct f; simpl; done.
Qed.

(** ** Accounts *)

Section AccountFacts.

Variable uuidv4 : nat → string.
Variable now : string.
Variable toLowerCase : string → string.
Variable bcrypt_hash : string → option string.
Variable bcrypt_compare : option jval → option jval → option bool.
Variable number_below : string → Z → bool.

Lemma same_name_lower name u :
  same_name toLowerCase name u
  = (fun l => bool_decide (l = toLowerCase name)) <$> lower_name toLowerCase u.
Proof.
  unfold same_name, lower_name. destruct (u !! "username") as [[| | |s| |]|]; try done.
  simpl. f_equal. destruct (String.eqb_spec (toLowerCase s) (toLowerCase name)) as [->|Hne].
  - by rewrite bool_decide_eq_true_2.
  - by rewrite bool_decide_eq_false_2.
Qed.

Lemma find_throwing_none {A} (p : A → option bool) l :
  find_throwing p l = Some None ↔ ∀ x, x ∈ l → p x = Some false.
Proof.
  induction l as [|a l IH]; simpl.
  - split; [by intros _ x ?%elem_of_nil|done].
  - destruct (p a) as [[]|] eqn:Ha.
    + split; [done|]. intros H. specialize (H a ltac:(by left)). congruence.
    + rewrite IH. split.
      * intros H x [->|Hx]%elem_of_cons; auto.
      * intros H x Hx. apply H. by right.
    + split; [done|]. intros H. specialize (H a ltac:(by left)). congruence.
Qed.

Lemma find_throwing_app {A} (p : A → option bool) l l' :
  find_throwing p l = Some None → find_throwing p (l ++ l') = find_throwing p l'.
Proof.
  induction l as [|a l IH]; simpl; [done|].
  destruct (p a) as [[]|]; try done.
Qed.

Lemma find_throwing_some {A} (p : A → option bool) l x :
  find_throwing p l = Some (Some x) → x ∈ l ∧ p x = Some true.
Proof.
  induction l as [|a l IH]; simpl; [done|].
  destruct (p a) as [[]|] eqn:Ha; try done.
  - intros [= ->]. split; [by left|done].
  - intros H. destruct (IH H). split; [by right|done].
Qed.

Lemma missing_spec s : missing (Some s) = false ↔ s ≠ "".
Proof. unfold missing. rewrite negb_false_iff. apply nonempty_spec. Qed.

(** The length tests of [register] on strings. *)
Lemma length_of_string s n :
  less_than number_below (length_of (JStr s)) (Z.of_nat n) = false ↔ (n ≤ utf16_length s)%nat.
Proof. simpl. rewrite Z.ltb_ge. lia. Qed.

(** What [register] does: it answers 201 and appends one user, or it
    leaves the store as it is. *)
Lemma register_result username password st :
  let r := register uuidv4 now toLowerCase bcrypt_hash number_below username password st in
  (status r.1 ≠ 201 ∧ r.2 = st)
  ∨ ∃ name pw h,
      username = Some name ∧ password = str pw
      ∧ truthy (Some name) = true ∧ pw ≠ ""
      ∧ less_than number_below (length_of name) 3 = false
      ∧ (6 ≤ utf16_length pw)%nat
      ∧ bcrypt_hash pw = Some h
      ∧ (∀ u, u ∈ users st → same_name_as toLowerCase name u = Some false)
      ∧ r = (Response 201 (BMessage "User registered successfully"),
             writeJsonFile users_json
               (users st ++ [ set_prop "createdAt" (str now)
                                (set_prop "passwordHash" (str h)
                                (set_prop "username" (Some name)
                                (set_prop "id" (str (uuidv4 0)) ∅))) ]) st).
Proof.
  cbv zeta. unfold register.
  destruct username as [name|], password as [password|]; try (left; by split).
  destruct (truthy (Some name)) eqn:Hn; [|left; by split].
  destruct (truthy (Some password)) eqn:Hp; [|left; by split]. cbn [negb orb].
  destruct (less_than number_below (length_of name) 3) eqn:Hln; [left; by split|].
  destruct (less_than number_below (length_of password) 6) eqn:Hlp; [left; by split|].
  cbv zeta. change (readJsonFile users_json st) with (users st).
  destruct (find_throwing _ _) as [[existingUser|]|] eqn:Hfind; try (left; by split).
  destruct password as [| | |pw| |]; try (left; by split). cbn [hash_of].
  destruct (bcrypt_hash pw) as [h|] eqn:Hh; [|left; by split].
  right. exists name, pw, h. split_and!; try done.
  - by apply nonempty_spec.
  - by apply (length_of_string pw 6).
  - by apply find_throwing_none.
Qed.

End AccountFacts.

Section Accounts.

Variable uuidv4 : nat → string.
Variable now : string.
Variable toLowerCase : string → string.
Variable bcrypt_hash : string → option string.
Variable bcrypt_compare : option jval → option jval → option bool.
Variable number_below : string → Z → bool.

Lemma lower_name_false name u :
  same_name toLowerCase name u = Some false →
  is_Some (lower_name toLowerCase u)
  ∧ lower_name toLowerCase u ≠ Some (toLowerCase name).
Proof.
  rewrite same_name_lower. destruct (lower_name toLowerCase u) as [l|]; [|done].
  simpl. intros [= H%bool_decide_eq_false]. split; [by eexists|congruence].
Qed.

(** X20.  Registration only ever appends, and keeps user names unique for
    every request whose user name is a string.  Take a users file in which
    every user has a string as name and no two names are equal when case
    is ignored.  A registration request leaves every other collection
    alone; it either answers something other than 201 and changes
    nothing, or answers 201 and appends one user with the requested name
    and the generated id.  A requested name that is a string is at least 3
    UTF-16 code units long.  One that is not a string (a number, say) is
    accepted only when the users file is empty, where no stored name is
    compared with it.  Afterwards the names are still unique strings
    exactly when the answer was not 201 or the requested name is a
    string. *)
Theorem register_keeps_usernames_unique (username password : option jval) (st : store) :
  unique_usernames toLowerCase (users st) →
  let r := register uuidv4 now toLowerCase bcrypt_hash number_below username password st in
  (unique_usernames toLowerCase (users r.2)
   ↔ status r.1 ≠ 201 ∨ ∃ name, username = str name)
  ∧ (∀ f, f ≠ users_json → readJsonFile f r.2 = readJsonFile f st)
  ∧ ((status r.1 ≠ 201 ∧ users r.2 = users st)
     ∨ (status r.1 = 201
        ∧ ∃ u, users r.2 = users st ++ [u] ∧ u !! "username" = username
               ∧ id_of u = str (uuidv4 0)
               ∧ ((∃ name, username = str name ∧ (3 ≤ utf16_length name)%nat)
                  ∨ (users st = [] ∧ ∀ name, username ≠ str name)))).
Proof.
  intros [Hstr Hnodup]. cbv zeta.
  destruct (register_result uuidv4 now toLowerCase bcrypt_hash number_below username password st)
    as [[Hbad ->]|(name & pw & h & -> & -> & Hn & Hp & Hln & Hlp & Hh & Hfree & ->)].
  { split_and!; [split; [by left|done]|done|by left]. }
  cbn [fst snd status].
  change (users (writeJsonFile users_json ?l st)) with l.
  set (new := set_prop "createdAt" (str now) (set_prop "passwordHash" (str h)
                (set_prop "username" (Some name) (set_prop "id" (str (uuidv4 0)) ∅)))).
  assert (new !! "username" = Some name) as Hname by (unfold new; by read_props).
  assert (id_of new = str (uuidv4 0)) as Hid by (unfold new, id_of; by read_props).
  split_and!.
  - split.
    + intros [Hall _]. right.
      destruct (Hall new) as [l Hl]; [apply elem_of_app; right; by left|].
      unfold lower_name in Hl. rewrite Hname in Hl.
      destruct name as [| | |n| |]; try done. by exists n.
    + intros [Hbad|[n [= ->]]]; [done|]. split.
      * intros u [Hu|Hu]%elem_of_app; [by apply Hstr|].
        apply list_elem_of_singleton in Hu as ->. unfold lower_name. rewrite Hname.
        by eexists.
      * rewrite List.map_app. apply NoDup_app. split_and!; [done| |apply NoDup_singleton].
        intros l Hl Hl'. apply list_elem_of_singleton in Hl' as ->.
        apply elem_of_map in Hl as (u & Hu & Hlu).
        destruct (lower_name_false n u (Hfree u Hu)) as [_ Hne].
        unfold lower_name in Hlu at 1. rewrite Hname in Hlu. simpl in Hlu.
        by rewrite <- Hlu in Hne.
  - intros f Hf. by destruct f.
  - right. split; [done|]. exists new. split_and!; [done..|].
    destruct name as [| | |n| |];
      try (right; split; [|by intros ?];
           destruct (users st) as [|u us]; [done|];
           by specialize (Hfree u ltac:(by left))).
    left. exists n. split; [done|]. by apply (length_of_string number_below n 3).
Qed.

Lemma login_finds (name password : string) s st u :
  name ≠ "" → password ≠ "" →
  find_throwing (same_name toLowerCase name) (users st) = Some (Some u) →
  bcrypt_compare (str password) (u !! "passwordHash") = Some true →
  login toLowerCase bcrypt_compare (Credentials (Some name) (Some password)) s st
  = (Response 200
       (BRecord (set_prop "username" (u !! "username")
                   {[ "message" := JStr "Login successful" ]})),
     LoginSession (id_of u) (u !! "username")).
Proof.
  intros Hn%missing_spec Hp%missing_spec Hfind Hcmp. unfold login.
  cbn [c_username c_password]. rewrite Hn, Hp. cbn [orb]. cbv zeta.
  change (readJsonFile users_json st) with (users st). by rewrite Hfind, Hcmp.
Qed.

(** X21.  A user who has registered with a string as user name can log
    in: after a registration that answers 201, a login with the same
    password and the same user name, in any mix of upper and lower case,
    answers 200 and opens a session for the new user's id, provided
    [bcrypt.compare] accepts a password against the hash [bcrypt.hash]
    made of it.  After a registration that answers 201 for a user name that
    is not a string, no login is answered 200 and none opens a session:
    the comparison of user names throws on the new record. *)
Theorem register_then_login (username password : option jval) (s : session) (st : store) :
  (∀ p h, bcrypt_hash p = Some h → bcrypt_compare (str p) (str h) = Some true) →
  let r := register uuidv4 now toLowerCase bcrypt_hash number_below username password st in
  status r.1 = 201 →
  (∀ name name' pw,
     username = str name → password = str pw →
     toLowerCase name' = toLowerCase name → name' ≠ "" →
     login toLowerCase bcrypt_compare (Credentials (Some name') (Some pw)) s r.2
     = (Response 200 (BRecord {[ "message" := JStr "Login successful";
                                 "username" := JStr name ]}),
        LoginSession (str (uuidv4 0)) (str name)))
  ∧ ((∀ name, username ≠ str name) →
     ∀ c, status (login toLowerCase bcrypt_compare c s r.2).1 ≠ 200
          ∧ (login toLowerCase bcrypt_compare c s r.2).2 = s).
Proof.
  intros Hbcrypt. cbv zeta. intros Hok.
  destruct (register_result uuidv4 now toLowerCase bcrypt_hash number_below username password st)
    as [[Hbad _]|(name0 & pw0 & h & -> & -> & Hn & Hp & Hln & Hlp & Hh & Hfree & Hr)];
    [done|].
  cbv zeta in Hr. rewrite Hr. cbn [snd]. clear Hr Hok.
  set (new := set_prop "createdAt" (str now) (set_prop "passwordHash" (str h)
                (set_prop "username" (Some name0) (set_prop "id" (str (uuidv4 0)) ∅)))).
  assert (new !! "username" = Some name0) as Hname by (unfold new; by read_props).
  assert (id_of new = str (uuidv4 0)) as Hid by (unfold new, id_of; by read_props).
  assert (new !! "passwordHash" = str h) as Hhash by (unfold new; by read_props).
  split.
  - intros name name' pw [= ->] [= ->] Hlower Hname'.
    rewrite (login_finds name' pw s _ new); [|done|done|..].
    + rewrite Hname, Hid. reflexivity.
    + change (users (writeJsonFile users_json ?l st)) with l.
      rewrite find_throwing_app.
      * simpl. unfold same_name. rewrite Hname, Hlower. by rewrite String.eqb_refl.
      * apply find_throwing_none. intros u Hu. specialize (Hfree u Hu).
        unfold same_name_as, same_name in *. by rewrite Hlower.
    + rewrite Hhash. by apply Hbcrypt.
  - intros Hnot c.
    assert (users st = []) as Hempty.
    { destruct (users st) as [|u us]; [done|]. specialize (Hfree u ltac:(by left)).
      destruct name0 as [| | |n| |]; try done. by destruct (Hnot n). }
    unfold login. destruct (c_username c) as [name|], (c_password c) as [pw|]; try done.
    destruct (_ || _); [done|]. cbv zeta.
    change (readJsonFile users_json (writeJsonFile users_json ?l st)) with l.
    rewrite Hempty. simpl. unfold same_name. rewrite Hname.
    destruct name0 as [| | |n| |]; try done. by destruct (Hnot n).
Qed.

(** X22.  Login only ever opens a session for a user whose password
    [bcrypt.compare] accepted: when the answer is 200 the session carries
    the id and name of a stored user whose name equals the requested one
    when case is ignored and against whose hash the password was
    accepted; with any other answer the session is left as it was. *)
Theorem login_sound (c : credentials) (s : session) (st : store) :
  let r := login toLowerCase bcrypt_compare c s st in
  (status r.1 = 200
   ∧ ∃ u name password,
       u ∈ users st ∧ c = Credentials (Some name) (Some password)
       ∧ lower_name toLowerCase u = Some (toLowerCase name)
       ∧ bcrypt_compare (str password) (u !! "passwordHash") = Some true
       ∧ r.2 = LoginSession (id_of u) (u !! "username"))
  ∨ (status r.1 ≠ 200 ∧ r.2 = s).
Proof.
  cbv zeta. unfold login.
  destruct c as [[name|] [password|]]; cbn [c_username c_password];
    try (right; by split).
  destruct (_ || _); [right; by split|]. cbv zeta.
  destruct (find_throwing _ _) as [[u|]|] eqn:Hfind; [|right; by split..].
  destruct (bcrypt_compare _ _) as [[]|] eqn:Hcmp; [|right; by split..].
  left. split; [done|]. apply find_throwing_some in Hfind as [Hu Hsame].
  exists u, name, password. split_and!; try done.
  rewrite same_name_lower in Hsame. destruct (lower_name toLowerCase u); [|done].
  simpl in Hsame. injection Hsame as Hsame%bool_decide_eq_true. by subst.
Qed.

End Accounts.

Section AccountChanges.

Variable uuidv4 : nat → string.
Variable now : string.
Variable toLowerCase : string → string.
Variable bcrypt_hash : string → option string.
Variable bcrypt_compare : option jval → option jval → option bool.

Lemma NoDup_map_same {A B} (f : A → B) (l : list A) i j x y :
  NoDup (List.map f l) → l !! i = Some x → l !! j = Some y → f x = f y → i = j.
Proof.
  intros Hnd Hi Hj Hf.
  apply (NoDup_lookup (List.map f l) i j (f x)); [done|..].
  - change (List.map f l) with (f <$> l). by rewrite list_lookup_fmap, Hi.
  - change (List.map f l) with (f <$> l). by rewrite list_lookup_fmap, Hj, Hf.
Qed.

Lemma delete_user_users uid reqBody st :
  status (delete_user bcrypt_compare uid reqBody st).1 = 200 →
  users (delete_user bcrypt_compare uid reqBody st).2
  = List.filter (fun u => negb (strict_eq (id_of u) (str uid))) (users st).
Proof.
  unfold delete_user. cbv zeta. destruct (negb _); [done|].
  destruct (List.find _ _); [|done]. by destruct (bcrypt_compare _ _) as [[]|].
Qed.

(** X23.  A deleted account cannot log in: when user names are unique
    ignoring case, after an account deletion that answers 200 a login
    with the name of the deleted user, in any case and with any
    password, is answered 401 and opens no session. *)
Theorem deleted_account_cannot_login (uid : string) (reqBody : obj) (st : store)
    (u : obj) (name name' password : string) (s : session) :
  unique_usernames toLowerCase (users st) →
  u ∈ users st → id_of u = str uid → u !! "username" = str name →
  toLowerCase name' = toLowerCase name → name' ≠ "" → password ≠ "" →
  let r := delete_user bcrypt_compare uid reqBody st in
  status r.1 = 200 →
  login toLowerCase bcrypt_compare (Credentials (Some name') (Some password)) s r.2
  = (error 401 "Invalid username or password", s).
Proof.
  intros [Hstr Hnodup] Hu Hid Hname Hlower Hn%missing_spec Hp%missing_spec. cbv zeta.
  intros Hok. unfold login. cbn [c_username c_password]. rewrite Hn, Hp. cbn [orb]. cbv zeta.
  change (readJsonFile users_json ?st0) with (users st0).
  rewrite (delete_user_users uid reqBody st Hok).
  assert (find_throwing (same_name toLowerCase name')
            (List.filter (fun u => negb (strict_eq (id_of u) (str uid))) (users st))
          = Some None) as ->; [|done].
  apply find_throwing_none. intros w [Hw Hother]%elem_of_filter_bool.
  rewrite same_name_lower. destruct (Hstr w Hw) as [l Hl]. rewrite Hl. simpl.
  f_equal. apply bool_decide_eq_false. intros ->.
  apply list_elem_of_lookup in Hu as [i Hi], Hw as [j Hj].
  assert (i = j) as <-.
  { apply (NoDup_map_same (lower_name toLowerCase) (users st) i j u w); [done..|].
    rewrite Hl, Hlower. unfold lower_name. by rewrite Hname. }
  simplify_eq. rewrite Hid in Hother. apply negb_true_iff in Hother.
  by rewrite (proj2 (strict_eq_str _ _) eq_refl) in Hother.
Qed.

End AccountChanges.

Section NameAndPassword.

Variable toLowerCase : string → string.
Variable bcrypt_hash : string → option string.
Variable bcrypt_compare : option jval → option jval → option bool.

Lemma strict_eq_both a b c :
  strict_eq a c = true → strict_eq b c = true → strict_eq a b = true.
Proof.
  intros Ha Hb. pose proof (strict_eq_left _ _ Ha) as Haa.
  apply strict_eq_eq in Ha, Hb. by subst.
Qed.

Lemma assign_at_lookup i k v (us : list obj) u :
  us !! i = Some u → assign_at i k v us = <[i := set_prop k v u]> us.
Proof. intros H. unfold assign_at. by rewrite H. Qed.

Lemma lower_name_assign k v (u : obj) :
  k ≠ "username" → lower_name toLowerCase (set_prop k v u) = lower_name toLowerCase u.
Proof. intros Hk. unfold lower_name. by rewrite set_prop_lookup_ne. Qed.

Lemma unique_usernames_insert (us : list obj) i u u' :
  unique_usernames toLowerCase us → us !! i = Some u →
  is_Some (lower_name toLowerCase u') →
  (∀ j w, us !! j = Some w → j ≠ i →
          lower_name toLowerCase w ≠ lower_name toLowerCase u') →
  unique_usernames toLowerCase (<[i := u']> us).
Proof.
  intros [Hstr Hnodup] Hi Hu' Hfree. split.
  - intros w [j Hj]%list_elem_of_lookup. destruct (decide (i = j)) as [<-|Hne].
    + rewrite list_lookup_insert_eq in Hj by (by eapply lookup_lt_Some). by simplify_eq.
    + rewrite list_lookup_insert_ne in Hj by done. apply Hstr. by eapply list_elem_of_lookup_2.
  - change (List.map ?f ?l) with (f <$> l) in *. rewrite list_fmap_insert.
    apply NoDup_alt. intros a b x Ha Hb.
    assert (i < length (lower_name toLowerCase <$> us)) as Hlen
      by (rewrite length_fmap; by eapply lookup_lt_Some).
    destruct (decide (a = i)) as [->|Hai], (decide (b = i)) as [->|Hbi]; [done|..].
    + rewrite list_lookup_insert_eq in Ha by done.
      rewrite list_lookup_insert_ne in Hb by done. simplify_eq.
      rewrite list_lookup_fmap in Hb. destruct (us !! b) as [w|] eqn:Hw; [|done].
      simpl in Hb. exfalso. apply (Hfree b w Hw Hbi). congruence.
    + rewrite list_lookup_insert_eq in Hb by done.
      rewrite list_lookup_insert_ne in Ha by done. simplify_eq.
      rewrite list_lookup_fmap in Ha. destruct (us !! a) as [w|] eqn:Hw; [|done].
      simpl in Ha. exfalso. apply (Hfree a w Hw Hai). congruence.
    + rewrite list_lookup_insert_ne in Ha, Hb by done.
      by apply (proj1 (NoDup_alt _) Hnodup a b x).
Qed.

(** X24.  Changing the user name keeps user names unique: when names are
    unique ignoring case and no two users share an id, they still are
    after any request; a request that does not answer 200 changes
    nothing; one that does changes the name of the caller's record and
    of the session and nothing else. *)
Theorem put_username_keeps_unique (username : option string) (s : session) (st : store) :
  unique_usernames toLowerCase (users st) → distinct_user_ids (users st) →
  let r := put_username toLowerCase username s st in
  unique_usernames toLowerCase (users r.1.2)
  ∧ ((status r.1.1 ≠ 200 ∧ r.1.2 = st ∧ r.2 = s)
     ∨ (status r.1.1 = 200
        ∧ ∃ i u name,
            username = Some name ∧ (3 ≤ utf16_length name)%nat
            ∧ users st !! i = Some u
            ∧ strict_eq (id_of u) (s_userId s) = true
            ∧ r.1.2 = writeJsonFile users_json
                        (<[i := set_prop "username" (str name) u]> (users st)) st
            ∧ r.2 = LoginSession (s_userId s) (str name))).
Proof.
  intros Huniq Hids. cbv zeta. unfold put_username.
  destruct (negb (requireAuth s)); [split; [done|left; by split_and!]|].
  destruct username as [name|]; [|split; [done|left; by split_and!]].
  destruct (missing (Some name)); [split; [done|left; by split_and!]|]. cbn [orb].
  destruct (utf16_length name <? 3)%nat eqn:Hlen; [split; [done|left; by split_and!]|].
  cbv zeta. change (readJsonFile users_json st) with (users st).
  destruct (find_throwing _ _) as [[existing|]|] eqn:Hfind;
    [split; [done|left; by split_and!]| |split; [done|left; by split_and!]].
  destruct (findIndex _ _) as [i|] eqn:Hi; [|split; [done|left; by split_and!]].
  destruct (findIndex_Some _ _ _ Hi) as (u & Hu & Hid & _).
  rewrite (assign_at_lookup _ _ _ _ u Hu). cbn [fst snd status].
  change (users (writeJsonFile users_json ?l st)) with l.
  split.
  - apply (unique_usernames_insert _ i u); [done|done|..].
    + unfold lower_name. rewrite set_prop_lookup_eq. by eexists.
    + intros j w Hw Hji Heq.
      rewrite find_throwing_none in Hfind.
      specialize (Hfind w ltac:(by eapply list_elem_of_lookup_2)).
      rewrite same_name_lower in Hfind.
      unfold lower_name in Heq at 2. rewrite set_prop_lookup_eq in Heq. simpl in Heq.
      rewrite Heq in Hfind. simpl in Hfind. rewrite bool_decide_eq_true_2 in Hfind by done.
      simpl in Hfind. injection Hfind as Hfind. apply negb_false_iff in Hfind.
      apply Hji. apply (Hids j i w u Hw Hu). by apply (strict_eq_both _ _ (s_userId s)).
  - right. split; [done|]. exists i, u, name. apply Nat.ltb_ge in Hlen. by split_and!.
Qed.

End NameAndPassword.

Section PasswordChange.

Variable toLowerCase : string → string.
Variable bcrypt_hash : string → option string.
Variable bcrypt_compare : option jval → option jval → option bool.

Lemma find_throwing_at {A} (p : A → option bool) (l : list A) i x :
  l !! i = Some x → p x = Some true →
  (∀ j y, l !! j = Some y → j < i → p y = Some false) →
  find_throwing p l = Some (Some x).
Proof.
  revert i. induction l as [|a l IH]; intros i Hi Hx Hbefore; [done|].
  destruct i as [|i]; simpl in *.
  - simplify_eq. by rewrite Hx.
  - rewrite (Hbefore 0 a eq_refl ltac:(lia)). apply (IH i); [done..|].
    intros j y Hj Hlt. apply (Hbefore (S j) y Hj). lia.
Qed.

Lemma put_password_result current new s st :
  let r := put_password bcrypt_hash bcrypt_compare current new s st in
  (status r.1 ≠ 200 ∧ r.2 = st)
  ∨ ∃ i u newPassword currentPassword h,
      new = Some newPassword ∧ current = Some currentPassword
      ∧ (6 ≤ utf16_length newPassword)%nat
      ∧ users st !! i = Some u
      ∧ strict_eq (id_of u) (s_userId s) = true
      ∧ bcrypt_compare (str currentPassword) (u !! "passwordHash") = Some true
      ∧ bcrypt_hash newPassword = Some h
      ∧ r = (Response 200 (BMessage "Password changed successfully"),
             writeJsonFile users_json
               (<[i := set_prop "passwordHash" (str h) u]> (users st)) st).
Proof.
  cbv zeta. unfold put_password.
  destruct (negb (requireAuth s)); [left; by split|].
  destruct current as [currentPassword|], new as [newPassword|]; try (left; by split).
  destruct (_ || _); [left; by split|].
  destruct (utf16_length newPassword <? 6)%nat eqn:Hlen; [left; by split|].
  cbv zeta. change (readJsonFile users_json st) with (users st).
  destruct (List.find _ _) as [user|] eqn:Hfind; [|left; by split].
  destruct (bcrypt_compare _ _) as [[]|] eqn:Hcmp; [|left; by split..].
  destruct (bcrypt_hash newPassword) as [h|] eqn:Hh; [|left; by split].
  destruct (findIndex _ _) as [i|] eqn:Hi; [|left; by split].
  destruct (findIndex_Some _ _ _ Hi) as (u & Hu & Hid & _).
  rewrite (find_findIndex _ _ _ _ Hi Hu) in Hfind. simplify_eq.
  right. exists i, user, newPassword, currentPassword, h.
  rewrite (assign_at_lookup _ _ _ _ user Hu). apply Nat.ltb_ge in Hlen. by split_and!.
Qed.

(** X25.  A password change takes effect only with the current password,
    and then the new password logs in: a request that does not answer 200
    leaves the store as it was; one that answers 200 was made with a
    current password that [bcrypt.compare] accepted for the caller's
    record, changes nothing but that record's hash, and afterwards a
    login with the caller's user name and the new password answers 200
    for the caller's id, provided user names are unique ignoring case, no
    two users share an id, and [bcrypt.compare] accepts the new password
    against the hash made of it. *)
Theorem put_password_then_login (current new : option string) (s s' : session)
    (st : store) (u : obj) (name : string) :
  unique_usernames toLowerCase (users st) → distinct_user_ids (users st) →
  (∀ p h, bcrypt_hash p = Some h → bcrypt_compare (str p) (str h) = Some true) →
  u ∈ users st → strict_eq (id_of u) (s_userId s) = true →
  u !! "username" = str name → name ≠ "" →
  let r := put_password bcrypt_hash bcrypt_compare current new s st in
  (status r.1 ≠ 200 → r.2 = st)
  ∧ (status r.1 = 200 →
     (∃ currentPassword, current = Some currentPassword
        ∧ bcrypt_compare (str currentPassword) (u !! "passwordHash") = Some true)
     ∧ (∃ i h, users st !! i = Some u
               ∧ r.2 = writeJsonFile users_json
                         (<[i := set_prop "passwordHash" (str h) u]> (users st)) st)
     ∧ ∃ newPassword, new = Some newPassword
        ∧ login toLowerCase bcrypt_compare (Credentials (Some name) (Some newPassword)) s' r.2
          = (Response 200 (BRecord {[ "message" := JStr "Login successful";
                                      "username" := JStr name ]}),
             LoginSession (id_of u) (str name))).
Proof.
  intros [Hstr Hnodup] Hids Hbcrypt Hu Hid Hname Hne. cbv zeta.
  destruct (put_password_result current new s st)
    as [[Hbad ->]|(i & u0 & newPassword & currentPassword & h & -> & -> & Hlen & Hu0 & Hid0
                   & Hcmp & Hh & ->)]; [by split|].
  cbn [fst snd status]. split; [done|]. intros _.
  apply list_elem_of_lookup in Hu as [j Hj].
  assert (i = j) as <-
    by (apply (Hids i j u0 u Hu0 Hj); by apply (strict_eq_both _ _ (s_userId s))).
  simplify_eq.
  split_and!; [by eexists|by eexists _, _|].
  exists newPassword. split; [done|].
  set (u' := set_prop "passwordHash" (str h) u).
  assert (newPassword ≠ "") as Hnew by (intros ->; simpl in Hlen; lia).
  rewrite (login_finds toLowerCase bcrypt_compare name newPassword s' _ u'); [|done|done|..].
  - unfold u', id_of. rewrite !set_prop_lookup_ne by done. rewrite Hname. reflexivity.
  - change (users (writeJsonFile users_json ?l st)) with l.
    apply (find_throwing_at _ _ i).
    + apply list_lookup_insert_eq. by eapply lookup_lt_Some.
    + unfold same_name, u'. rewrite set_prop_lookup_ne by done. rewrite Hname.
      simpl. by rewrite String.eqb_refl.
    + intros k w Hk Hlt. rewrite list_lookup_insert_ne in Hk by lia.
      rewrite same_name_lower.
      destruct (Hstr w ltac:(by eapply list_elem_of_lookup_2)) as [l Hl]. rewrite Hl.
      simpl. f_equal. apply bool_decide_eq_false. intros ->.
      assert (k = i); [|lia].
      apply (NoDup_map_same (lower_name toLowerCase) (users st) k i w u); [done..|].
      rewrite Hl. unfold lower_name. by rewrite Hname.
  - unfold u'. rewrite set_prop_lookup_eq. by apply Hbcrypt.
Qed.

End PasswordChange.

(** ** Deleting a track, and reading after a delete *)

(** X26.  Deleting a track that the caller owns answers 204, removes one
    track, keeps every setup: the caller's setups of that track get
    [trackId] null and are otherwise unchanged, every other setup is
    unchanged, so that no setup of the caller refers to the track any
    more; it removes exactly the caller's track notes of that track; and it
    leaves cars, sessions, corner notes, maintenance tasks and users as
    they were. *)
Theorem delete_track_cascade (uid rid : string) (st : store) (t : obj) :
  t ∈ tracks st → id_of t = str rid → userId_of t = str uid →
  let r := delete_track uid rid st in
  status r.1 = 204
  ∧ length (tracks r.2) + 1 = length (tracks st)
  ∧ length (setups r.2) = length (setups st)
  ∧ (∀ i s, setups st !! i = Some s →
       ∃ s', setups r.2 !! i = Some s'
             ∧ (∀ k, k ≠ "trackId" → s' !! k = s !! k)
             ∧ (trackId_of s = str rid ∧ userId_of s = str uid →
                trackId_of s' = Some JNull)
             ∧ (¬ (trackId_of s = str rid ∧ userId_of s = str uid) → s' = s))
  ∧ (∀ s, s ∈ setups r.2 → ¬ (trackId_of s = str rid ∧ userId_of s = str uid))
  ∧ (∀ n, n ∈ trackNotes r.2 ↔
          n ∈ trackNotes st ∧ ¬ (trackId_of n = str rid ∧ userId_of n = str uid))
  ∧ (∀ f, f ≠ tracks_json → f ≠ setups_json → f ≠ track_notes_json →
          readJsonFile f r.2 = readJsonFile f st).
Proof.
  intros Ht Hid Huid. cbv zeta.
  destruct (findIndex_is_Some (own_with_id rid uid) (tracks st) t)
    as [i Hi]; [done|by apply own_with_id_spec|].
  rewrite (delete_track_found _ _ _ _ Hi). cbn [fst snd status setups tracks trackNotes].
  destruct (findIndex_split _ _ _ Hi) as (l1 & t0 & l2 & Hl & _ & _ & _ & Hsp).
  assert (∀ s, (trackId_of s = str rid ∧ userId_of s = str uid)
               ↔ strict_eq (trackId_of s) (str rid) && strict_eq (userId_of s) (str uid) = true)
    as Hmatch by (intros s; by rewrite andb_true_iff, !strict_eq_str).
  split_and!.
  - done.
  - rewrite Hsp, Hl, !length_app. simpl. lia.
  - apply length_map.
  - intros j s Hs. exists (clear_track rid uid s). split_and!.
    + change (List.map ?f ?l) with (f <$> l). by rewrite list_lookup_fmap, Hs.
    + intros k Hk. unfold clear_track. destruct (_ && _); [|done].
      by rewrite set_prop_lookup_ne.
    + intros Hm%Hmatch. unfold clear_track. rewrite Hm. apply set_prop_lookup_eq.
    + intros Hm. unfold clear_track. destruct (_ && _) eqn:Hb; [|done].
      by apply Hmatch in Hb.
  - intros s' (s & Hs & ->)%elem_of_map. unfold clear_track.
    destruct (_ && _) eqn:Hb.
    + intros [Hnull _]. unfold trackId_of in Hnull. rewrite set_prop_lookup_eq in Hnull.
      unfold str in Hnull. congruence.
    + intros Hm%Hmatch. congruence.
  - intros n. by rewrite elem_of_filter_bool, not_child_spec.
  - intros f H1 H2 H3. by destruct f.
Qed.

Lemma route_delete download k d uid rid st :
  route download k Delete = Some d →
  (findIndex (own_with_id rid uid) (readJsonFile (collection k) st) = None
   ∧ status (d uid rid st).1 = 404 ∧ (d uid rid st).2 = st)
  ∨ ∃ i, findIndex (own_with_id rid uid) (readJsonFile (collection k) st) = Some i
         ∧ status (d uid rid st).1 = 204
         ∧ readJsonFile (collection k) (d uid rid st).2
           = splice1 i (readJsonFile (collection k) st).
Proof.
  intros Hd.
  destruct (findIndex (own_with_id rid uid) (readJsonFile (collection k) st)) as [i|] eqn:Hi;
    [right; exists i; split; [done|]|left; split; [done|]];
    destruct k; cbn [route collection] in *; simplify_eq;
    unfold delete_setup, delete_track_note, delete_corner_note, delete_maintenance,
      delete_one, delete_car, delete_track, delete_session; cbv zeta; by rewrite Hi.
Qed.

(** X27.  What was deleted is gone: when the caller's records of a
    collection have pairwise distinct ids, after a delete route answers
    204 the single-record route answers 404 for that id, and so does a
    second delete. *)
Theorem delete_then_gone (download : string → string → option string) (k : kind)
    (d g : string → string → store → response * store) (uid rid : string) (st : store) :
  route download k Delete = Some d → route download k Get = Some g →
  distinct_ids uid (readJsonFile (collection k) st) →
  status (d uid rid st).1 = 204 →
  NotFound (g uid rid (d uid rid st).2).1 ∧ NotFound (d uid rid (d uid rid st).2).1.
Proof.
  intros Hd Hg Hdistinct Hok.
  destruct (route_delete download k d uid rid st Hd) as [(_ & H404 & _)|(i & Hi & _ & Hrows)];
    [by rewrite H404 in Hok|].
  assert (∀ x, x ∈ readJsonFile (collection k) (d uid rid st).2 →
               own_with_id rid uid x = false) as Hgone.
  { intros x. rewrite Hrows, (splice1_first_filter uid rid _ i Hdistinct Hi).
    intros [_ Hx]%elem_of_filter_bool. by apply negb_true_iff. }
  split.
  - destruct (route_get _ _ _ Hg) as [msg ->]. unfold NotFound.
    by rewrite get_one_missing.
  - destruct (route_delete download k d uid rid (d uid rid st).2 Hd)
      as [(_ & H404 & _)|(j & Hj & _)]; [done|].
    apply findIndex_Some in Hj as (x & Hx & Hown & _).
    rewrite (Hgone x) in Hown; [done|]. by eapply list_elem_of_lookup_2.
Qed.

(** ** Filling in a corner *)

Lemma corner_request_lookup sessionId cornerName field value :
  corner_request sessionId cornerName field value !! "sessionId" = Some sessionId
  ∧ corner_request sessionId cornerName field value !! "cornerName" = Some cornerName
  ∧ corner_request sessionId cornerName field value !! "field" = str field
  ∧ corner_request sessionId cornerName field value !! "value" = value.
Proof.
  unfold corner_request. rewrite set_prop_lookup_eq, !set_prop_lookup_ne by done.
  by simplify_map_eq.
Qed.

Lemma upsert_existing_last uuidv4 uid sessionId cornerName field value st notes note :
  truthy (Some sessionId) = true → truthy (Some cornerName) = true →
  field ∈ ["entry"; "apex"; "exit"] →
  cornerNotes st = notes ++ [note] →
  (∀ x, x ∈ notes → same_corner (Some sessionId) (Some cornerName) uid x = false) →
  same_corner (Some sessionId) (Some cornerName) uid note = true →
  let updated := set_prop field (js_or value (str "")) note in
  post_corner_note uuidv4 uid (corner_request sessionId cornerName field value) st
  = (Response 200 (BRecord updated),
     writeJsonFile corner_notes_json (notes ++ [updated]) st)
  ∧ same_corner (Some sessionId) (Some cornerName) uid updated = true.
Proof.
  intros Hs Hc Hfield Hnotes Hbefore Hsame. cbv zeta.
  destruct (corner_request_lookup sessionId cornerName field value) as (Es & Ec & Ef & Ev).
  assert (corner_field (str field) = true) as Hcf
    by (apply corner_field_spec; by exists field).
  split.
  - rewrite (post_corner_note_existing uuidv4 uid _ st (length notes) note).
    + cbv zeta. rewrite Ef, Ev, Hcf. cbn [prop_key str to_String]. rewrite Hnotes.
      f_equal. f_equal. rewrite <- (Nat.add_0_r (length notes)).
      by rewrite insert_app_r.
    + by rewrite Es.
    + by rewrite Ec.
    + rewrite Es, Ec, Hnotes. by apply findIndex_app_last.
    + rewrite Hnotes. by rewrite lookup_app_r, Nat.sub_diag by lia.
  - rewrite <- Hsame. unfold same_corner, sessionId_of, userId_of.
    assert (field ≠ "sessionId" ∧ field ≠ "cornerName" ∧ field ≠ "userId") as (? & ? & ?)
      by (split_and!; intros ->; set_solver).
    by rewrite !set_prop_lookup_ne by done.
Qed.

(** X28.  Filling in a corner field by field gives one note: when the
    caller has no note yet for a session and a corner (both named by
    truthy primitive values), three upserts for [entry], [apex] and
    [exit], in that order, answer 201, 200 and 200 and leave exactly one
    more corner note than before, after the existing ones; it carries the
    id generated by the first request, the caller's id, the session and
    the corner, and the three texts (each value, or the empty string for
    a falsy value). *)
Theorem corner_note_three_fields (uuid1 uuid2 uuid3 : nat → string) (uid : string)
    (sessionId cornerName : jval) (v1 v2 v3 : option jval) (st : store) :
  truthy (Some sessionId) = true → truthy (Some cornerName) = true →
  primitive (Some sessionId) → primitive (Some cornerName) →
  (∀ x, x ∈ cornerNotes st →
        same_corner (Some sessionId) (Some cornerName) uid x = false) →
  let r1 := post_corner_note uuid1 uid (corner_request sessionId cornerName "entry" v1) st in
  let r2 := post_corner_note uuid2 uid (corner_request sessionId cornerName "apex" v2) r1.2 in
  let r3 := post_corner_note uuid3 uid (corner_request sessionId cornerName "exit" v3) r2.2 in
  status r1.1 = 201 ∧ status r2.1 = 200 ∧ status r3.1 = 200
  ∧ ∃ note,
      payload r3.1 = BRecord note
      ∧ cornerNotes r3.2 = cornerNotes st ++ [note]
      ∧ id_of note = str (uuid1 0) ∧ userId_of note = str uid
      ∧ sessionId_of note = Some sessionId ∧ note !! "cornerName" = Some cornerName
      ∧ note !! "entry" = js_or v1 (str "")
      ∧ note !! "apex" = js_or v2 (str "")
      ∧ note !! "exit" = js_or v3 (str "").
Proof.
  intros Hs Hc Hps Hpc Hfresh. cbv zeta.
  destruct (corner_request_lookup sessionId cornerName "entry" v1) as (Es & Ec & Ef & Ev).
  destruct (post_corner_note_result uuid1 uid
              (corner_request sessionId cornerName "entry" v1) st)
    as [[_ [H|H]]|(_ & _ & [(i & x & Hi & _)|[_ Hr1]])].
  { by rewrite Es, Hs in H. }
  { by rewrite Ec, Hc in H. }
  { cbv zeta in Hi. rewrite Es, Ec in Hi.
    apply findIndex_Some in Hi as (y & Hy & Hsame & _).
    rewrite Hfresh in Hsame; [done|]. by eapply list_elem_of_lookup_2. }
  rewrite Hr1. cbn [fst snd status].
  set (n1 := new_corner_note (uuid1 0) uid (corner_request sessionId cornerName "entry" v1)).
  assert (same_corner (Some sessionId) (Some cornerName) uid n1 = true) as Hn1.
  { unfold same_corner, n1, new_corner_note, sessionId_of, userId_of. read_props.
    rewrite Es, Ec. unfold primitive in *. rewrite Hps, Hpc. by apply strict_eq_str. }
  destruct (upsert_existing_last uuid2 uid sessionId cornerName "apex" v2
              (writeJsonFile corner_notes_json (cornerNotes st ++ [n1]) st)
              (cornerNotes st) n1 Hs Hc ltac:(set_solver) eq_refl Hfresh Hn1) as [Hr2 Hn2].
  cbv zeta in Hr2, Hn2. rewrite Hr2. cbn [fst snd status]. rewrite write_write.
  set (n2 := set_prop "apex" (js_or v2 (str "")) n1) in *.
  destruct (upsert_existing_last uuid3 uid sessionId cornerName "exit" v3
              (writeJsonFile corner_notes_json (cornerNotes st ++ [n2]) st)
              (cornerNotes st) n2 Hs Hc ltac:(set_solver) eq_refl Hfresh Hn2) as [Hr3 _].
  cbv zeta in Hr3. rewrite Hr3. cbn [fst snd status payload].
  split_and!; [done..|]. eexists. split; [done|]. split; [done|].
  unfold id_of, userId_of, sessionId_of, n2, n1, new_corner_note, new_corner_text.
  rewrite Es, Ec, Ef, Ev. read_props. by split_and!.
Qed.

(** * The theorems at work on [demo_store] *)

Lemma delete_car_cascade_witness :
  (demo_car ∈ cars demo_store ∧ id_of demo_car = str "c1" ∧ userId_of demo_car = str "u1")
  ∧ status (delete_car "u1" "c1" demo_store).1 = 204
  ∧ (∀ x, x ∈ setups (delete_car "u1" "c1" demo_store).2
          ∨ x ∈ maintenance (delete_car "u1" "c1" demo_store).2
          ∨ x ∈ trackNotes (delete_car "u1" "c1" demo_store).2 →
          ¬ (carId_of x = str "c1" ∧ userId_of x = str "u1"))
  ∧ (∀ f, List.filter (not_owned "u1") (readJsonFile f (delete_car "u1" "c1" demo_store).2)
          = List.filter (not_owned "u1") (readJsonFile f demo_store))
  ∧ setups (delete_car "u1" "c1" demo_store).2 = []
  ∧ trackNotes (delete_car "u1" "c1" demo_store).2 = []
  ∧ maintenance (delete_car "u1" "c1" demo_store).2 = [].
Proof.
  assert (demo_car ∈ cars demo_store) as Hin by (simpl; left).
  assert (id_of demo_car = str "c1") as Hid by (vm_compute; reflexivity).
  assert (userId_of demo_car = str "u1") as Hu by (vm_compute; reflexivity).
  split; [by split_and!|].
  destruct (delete_car_cascade "u1" "c1" demo_store demo_car Hin Hid Hu)
    as (H1 & H2 & H3 & H4 & H5 & H6 & _).
  split_and!; [exact H1|exact H2|exact H3|..].
  - rewrite H4. vm_compute. reflexivity.
  - rewrite H5. vm_compute. reflexivity.
  - rewrite H6. vm_compute. reflexivity.
Defined.

Lemma delete_user_all_or_nothing_witness :
  let reqBody : obj := {[ "password" := JStr "wrong" ]} in
  let r := delete_user demo_bcrypt "u1" reqBody demo_store in
  (truthy (reqBody !! "password") = true
   ∧ List.find (fun u => strict_eq (id_of u) (str "u1")) (users demo_store)
     = Some (demo_user "u1" "ann")
   ∧ demo_bcrypt (reqBody !! "password") (demo_user "u1" "ann" !! "passwordHash")
     = Some false)
  ∧ AuthenticationError r.1 ∧ r.2 = demo_store.
Proof.
  cbv zeta.
  assert (truthy (({[ "password" := JStr "wrong" ]} : obj) !! "password") = true)
    as Hp by (vm_compute; reflexivity).
  assert (List.find (fun u => strict_eq (id_of u) (str "u1")) (users demo_store)
          = Some (demo_user "u1" "ann")) as Hf by (vm_compute; reflexivity).
  assert (demo_bcrypt (({[ "password" := JStr "wrong" ]} : obj) !! "password")
            (demo_user "u1" "ann" !! "passwordHash") = Some false)
    as Hb by (vm_compute; reflexivity).
  split; [by split_and!|].
  destruct (delete_user_all_or_nothing demo_bcrypt "u1" {[ "password" := JStr "wrong" ]}
              demo_store) as [_ H].
  destruct (H (demo_user "u1" "ann") Hp Hf) as [Hfail _]. exact (Hfail Hb).
Defined.

Lemma ownership_isolation_witness :
  (route demo_download Car Delete = Some delete_car
   ∧ "u1" ≠ "u2"
   ∧ demo_car ∈ readJsonFile (collection Car) demo_store
   ∧ id_of demo_car = str "c1"
   ∧ userId_of demo_car = str "u1"
   ∧ NoDup (List.map id_of (readJsonFile (collection Car) demo_store)))
  ∧ NotFound (delete_car "u2" "c1" demo_store).1
  ∧ (delete_car "u2" "c1" demo_store).2 = demo_store.
Proof.
  assert (route demo_download Car Delete = Some delete_car) as Hroute by reflexivity.
  assert ("u1" ≠ "u2") as Hne by discriminate.
  assert (demo_car ∈ readJsonFile (collection Car) demo_store) as Hin by (simpl; left).
  assert (id_of demo_car = str "c1") as Hid by (vm_compute; reflexivity).
  assert (userId_of demo_car = str "u1") as Hu by (vm_compute; reflexivity).
  assert (NoDup (List.map id_of (readJsonFile (collection Car) demo_store))) as Hnd
    by (simpl; apply NoDup_singleton).
  split; [by split_and!|].
  exact (proj1 (ownership_isolation demo_download Car Delete delete_car "u1" "u2" "c1"
                  demo_store demo_car Hroute Hne Hin Hid Hu) Hnd).
Defined.

Lemma update_merge_semantics_witness :
  let reqBody : obj := {[ "toeFront" := JNull; "id" := JStr "forged" ]} in
  let trackBody : obj := {[ "name" := JStr "Spa-Francorchamps"; "imageUrl" := JNum 7 ]} in
  let photoBody : obj := {[ "location" := JNull; "imageUrl" := JStr "/images/spa.png" ]} in
  ((findIndex (own_with_id "s1" "u1") (readJsonFile setups_json demo_store) = Some 0
    ∧ readJsonFile setups_json demo_store !! 0 = Some demo_setup)
   ∧ ∃ updated,
       put_setup "u1" "s1" reqBody demo_store =
         (Response 200 (BRecord updated),
          writeJsonFile setups_json
            (<[0 := updated]> (readJsonFile setups_json demo_store)) demo_store)
       ∧ shallow_merge reqBody demo_setup updated)
  ∧ ((findIndex (own_with_id "t1" "u1") (readJsonFile tracks_json demo_store) = Some 0
      ∧ readJsonFile tracks_json demo_store !! 0 = Some demo_track
      ∧ truthy (trackBody !! "imageUrl") = true
      ∧ ∀ url, trackBody !! "imageUrl" ≠ str url)
     ∧ put_track demo_download "u1" "t1" trackBody demo_store = (thrown, demo_store))
  ∧ ((∃ url, photoBody !! "imageUrl" = str url)
     ∧ ∃ updated,
         put_track demo_download "u1" "t1" photoBody demo_store =
           (Response 200 (BRecord updated),
            writeJsonFile tracks_json
              (<[0 := updated]> (readJsonFile tracks_json demo_store)) demo_store)
         ∧ track_merge photoBody demo_track updated
         ∧ track_image demo_download "t1" photoBody demo_track updated).
Proof.
  cbv zeta.
  assert (findIndex (own_with_id "s1" "u1") (readJsonFile setups_json demo_store) = Some 0)
    as Hi by (vm_compute; reflexivity).
  assert (readJsonFile setups_json demo_store !! 0 = Some demo_setup) as Hs by reflexivity.
  assert (findIndex (own_with_id "t1" "u1") (readJsonFile tracks_json demo_store) = Some 0)
    as Hti by (vm_compute; reflexivity).
  assert (readJsonFile tracks_json demo_store !! 0 = Some demo_track) as Hts by reflexivity.
  assert (truthy (({[ "name" := JStr "Spa-Francorchamps"; "imageUrl" := JNum 7 ]} : obj)
                    !! "imageUrl") = true) as Htruthy by (vm_compute; reflexivity).
  assert (∀ url, ({[ "name" := JStr "Spa-Francorchamps"; "imageUrl" := JNum 7 ]} : obj)
                   !! "imageUrl" ≠ str url) as Hnot by (intros url; vm_compute; discriminate).
  assert (∃ url, ({[ "location" := JNull; "imageUrl" := JStr "/images/spa.png" ]} : obj)
                   !! "imageUrl" = str url) as Hurl by (eexists; vm_compute; reflexivity).
  destruct (update_merge_semantics demo_download) as (Hsetup & _ & _ & _ & _ & Htrack).
  split; [|split].
  - split; [by split|].
    exact (Hsetup "u1" "s1" {[ "toeFront" := JNull; "id" := JStr "forged" ]} demo_store 0
             demo_setup Hi Hs).
  - split; [by split_and!|].
    exact (proj1 (Htrack "u1" "t1" _ demo_store 0 demo_track Hti Hts) Htruthy Hnot).
  - split; [exact Hurl|].
    exact (proj2 (Htrack "u1" "t1" _ demo_store 0 demo_track Hti Hts) (or_intror Hurl)).
Defined.

Lemma corner_note_upsert_without_field_witness :
  let reqBody : obj :=
    {[ "sessionId" := JStr "e1"; "cornerName" := JStr "Turn 1"; "field" := JStr "braking";
       "value" := JStr "x" ]} in
  (truthy (reqBody !! "sessionId") = true
   ∧ truthy (reqBody !! "cornerName") = true
   ∧ findIndex (same_corner (reqBody !! "sessionId") (reqBody !! "cornerName") "u1")
       (cornerNotes demo_store) = Some 0
   ∧ cornerNotes demo_store !! 0 = Some demo_corner_note
   ∧ (reqBody !! "field" = None
      ∨ ∀ f, f ∈ ["entry"; "apex"; "exit"] → reqBody !! "field" ≠ str f))
  ∧ post_corner_note demo_uuidv4 "u1" reqBody demo_store
    = (Response 200 (BRecord demo_corner_note), demo_store).
Proof.
  cbv zeta.
  set (reqBody := ({[ "sessionId" := JStr "e1"; "cornerName" := JStr "Turn 1";
                      "field" := JStr "braking"; "value" := JStr "x" ]} : obj)).
  assert (truthy (reqBody !! "sessionId") = true) as Hs by (vm_compute; reflexivity).
  assert (truthy (reqBody !! "cornerName") = true) as Hc by (vm_compute; reflexivity).
  assert (findIndex (same_corner (reqBody !! "sessionId") (reqBody !! "cornerName") "u1")
            (cornerNotes demo_store) = Some 0) as Hi by (vm_compute; reflexivity).
  assert (cornerNotes demo_store !! 0 = Some demo_corner_note) as Hn by reflexivity.
  assert (reqBody !! "field" = None
          ∨ ∀ f, f ∈ ["entry"; "apex"; "exit"] → reqBody !! "field" ≠ str f) as Hf.
  { right. intros f Hf Heq. vm_compute in Heq. injection Heq as <-.
    apply elem_of_cons in Hf as [Hf|Hf]; [discriminate|].
    apply elem_of_cons in Hf as [Hf|Hf]; [discriminate|].
    apply elem_of_cons in Hf as [Hf|Hf]; [discriminate|].
    by apply elem_of_nil in Hf. }
  split; [by split_and!|].
  exact (corner_note_upsert_without_field demo_uuidv4 "u1" reqBody demo_store 0
           demo_corner_note Hs Hc Hi Hn Hf).
Defined.

Lemma corner_note_upsert_witness :
  let reqBody : obj :=
    {[ "sessionId" := JStr "e1"; "cornerName" := JStr "Turn 1"; "field" := JStr "apex";
       "value" := JStr "clip the kerb" ]} in
  (truthy (reqBody !! "sessionId") = true
   ∧ truthy (reqBody !! "cornerName") = true
   ∧ "apex" ∈ ["entry"; "apex"; "exit"]
   ∧ reqBody !! "field" = str "apex"
   ∧ findIndex (same_corner (reqBody !! "sessionId") (reqBody !! "cornerName") "u1")
       (cornerNotes demo_store) = Some 0
   ∧ cornerNotes demo_store !! 0 = Some demo_corner_note)
  ∧ ∃ updated,
      post_corner_note demo_uuidv4 "u1" reqBody demo_store
      = (Response 200 (BRecord updated),
         writeJsonFile corner_notes_json (<[0 := updated]> (cornerNotes demo_store))
           demo_store)
      ∧ updated !! "apex" = js_or (reqBody !! "value") (str "")
      ∧ ∀ k, k ≠ "apex" → updated !! k = demo_corner_note !! k.
Proof.
  cbv zeta.
  set (reqBody := ({[ "sessionId" := JStr "e1"; "cornerName" := JStr "Turn 1";
                      "field" := JStr "apex"; "value" := JStr "clip the kerb" ]} : obj)).
  assert (truthy (reqBody !! "sessionId") = true) as Hs by (vm_compute; reflexivity).
  assert (truthy (reqBody !! "cornerName") = true) as Hc by (vm_compute; reflexivity).
  assert ("apex" ∈ ["entry"; "apex"; "exit"]) as Hin by (right; left).
  assert (reqBody !! "field" = str "apex") as Hf by (vm_compute; reflexivity).
  assert (findIndex (same_corner (reqBody !! "sessionId") (reqBody !! "cornerName") "u1")
            (cornerNotes demo_store) = Some 0) as Hi by (vm_compute; reflexivity).
  assert (cornerNotes demo_store !! 0 = Some demo_corner_note) as Hn by reflexivity.
  split; [by split_and!|].
  destruct (corner_note_upsert demo_uuidv4 "u1" reqBody demo_store) as (_ & Hupsert & _).
  destruct (Hupsert Hs Hc "apex" Hin Hf) as [Hfound _].
  exact (Hfound 0 demo_corner_note Hi Hn).
Defined.

Lemma bulk_delete_cascades_witness :
  (distinct_ids "u1" (cars demo_store) ∧ distinct_ids "u1" (tracks demo_store)
   ∧ no_empty_id (cars demo_store) ∧ no_empty_id (tracks demo_store))
  ∧ cars (bulk_delete "u1" (BulkRequest [JStr "c1"] [JStr "t1"]) demo_store).2
    = cars (spec_bulk_delete "u1" ["c1"] ["t1"] demo_store)
  ∧ trackNotes (bulk_delete "u1" (BulkRequest [JStr "c1"] [JStr "t1"]) demo_store).2
    = trackNotes (spec_bulk_delete "u1" ["c1"] ["t1"] demo_store)
  ∧ ∀ s, s ∈ sessions (bulk_delete "u1" (BulkRequest [JStr "c1"] [JStr "t1"]) demo_store).2 →
         s ∈ sessions demo_store.
Proof.
  assert (distinct_ids "u1" (cars demo_store)) as Hdc
    by (unfold distinct_ids; vm_compute; apply NoDup_singleton).
  assert (distinct_ids "u1" (tracks demo_store)) as Hdt
    by (unfold distinct_ids; vm_compute; apply NoDup_singleton).
  assert (no_empty_id (cars demo_store)) as Hnc.
  { intros x Hx. apply elem_of_cons in Hx as [->|Hx]; [by vm_compute|].
    by apply elem_of_nil in Hx. }
  assert (no_empty_id (tracks demo_store)) as Hnt.
  { intros x Hx. apply elem_of_cons in Hx as [->|Hx]; [by vm_compute|].
    by apply elem_of_nil in Hx. }
  split; [by split_and!|].
  destruct (bulk_delete_cascades "u1" ["c1"] ["t1"] demo_store Hdc Hdt Hnc Hnt)
    as (Hcars & _ & Hnotes & _ & _ & _ & Hsessions).
  split_and!; [exact Hcars|exact Hnotes|].
  intros s Hs. exact (proj1 (Hsessions s Hs)).
Defined.



(** * The further properties at work *)

Lemma delete_session_cascade_witness :
  (demo_session ∈ sessions demo_store ∧ id_of demo_session = str "e1"
   ∧ userId_of demo_session = str "u1")
  ∧ status (delete_session "u1" "e1" demo_store).1 = 204
  ∧ ∀ cn, cn ∈ cornerNotes (delete_session "u1" "e1" demo_store).2 ↔
          cn ∈ cornerNotes demo_store
          ∧ ¬ (sessionId_of cn = str "e1" ∧ userId_of cn = str "u1").
Proof.
  assert (demo_session ∈ sessions demo_store) as Hin by (simpl; left).
  assert (id_of demo_session = str "e1") as Hid by (vm_compute; reflexivity).
  assert (userId_of demo_session = str "u1") as Hu by (vm_compute; reflexivity).
  split; [by split_and!|].
  destruct (delete_session_cascade "u1" "e1" demo_store demo_session Hin Hid Hu)
    as (Hstatus & _ & Hnotes & _).
  split; [exact Hstatus|exact Hnotes].
Defined.

Lemma create_assigns_id_and_owner_witness :
  let reqBody : obj :=
    {[ "id" := JStr "forged"; "userId" := JStr "u2"; "name" := JStr "Elise" ]} in
  let r := post_car demo_uuidv4 "u1" reqBody demo_store in
  create_route demo_uuidv4 demo_today demo_download Car = Some (post_car demo_uuidv4)
  ∧ ((∃ record,
        r.1 = Response 201 (BRecord record)
        ∧ id_of record = str (demo_uuidv4 0) ∧ userId_of record = str "u1"
        ∧ readJsonFile (collection Car) r.2 = readJsonFile (collection Car) demo_store ++ [record]
        ∧ ∀ f, f ≠ collection Car → readJsonFile f r.2 = readJsonFile f demo_store)
     ∨ (Car = Track ∧ r = (thrown, demo_store)
        ∧ truthy (reqBody !! "imageUrl") = true
        ∧ ∀ url, reqBody !! "imageUrl" ≠ str url)).
Proof.
  cbv zeta.
  assert (create_route demo_uuidv4 demo_today demo_download Car = Some (post_car demo_uuidv4))
    as Hroute by reflexivity.
  split; [exact Hroute|].
  exact (create_assigns_id_and_owner demo_uuidv4 demo_today demo_download Car
           (post_car demo_uuidv4) "u1"
           {[ "id" := JStr "forged"; "userId" := JStr "u2"; "name" := JStr "Elise" ]}
           demo_store Hroute).
Defined.

Lemma create_then_read_witness :
  let reqBody : obj := {[ "carId" := JStr "c1"; "name" := JStr "Dry" ]} in
  let r := post_setup demo_uuidv4 demo_today "u1" reqBody demo_store in
  (create_route demo_uuidv4 demo_today demo_download Setup
     = Some (post_setup demo_uuidv4 demo_today)
   ∧ route demo_download Setup Get = Some get_setup
   ∧ (∀ x, x ∈ readJsonFile (collection Setup) demo_store →
           own_with_id (demo_uuidv4 0) "u1" x = false)
   ∧ status r.1 = 201)
  ∧ get_setup "u1" (demo_uuidv4 0) r.2 = (Response 200 (payload r.1), r.2)
  ∧ ∃ record, payload r.1 = BRecord record
              ∧ list_route Setup "u1" ∅ r.2 = list_route Setup "u1" ∅ demo_store ++ [record].
Proof.
  cbv zeta.
  assert (create_route demo_uuidv4 demo_today demo_download Setup
          = Some (post_setup demo_uuidv4 demo_today)) as Hcreate by reflexivity.
  assert (route demo_download Setup Get = Some get_setup) as Hget by reflexivity.
  assert (∀ x, x ∈ readJsonFile (collection Setup) demo_store →
               own_with_id (demo_uuidv4 0) "u1" x = false) as Hfresh.
  { intros x Hx. simpl in Hx. apply list_elem_of_singleton in Hx as ->.
    vm_compute. reflexivity. }
  assert (status (post_setup demo_uuidv4 demo_today "u1"
                    {[ "carId" := JStr "c1"; "name" := JStr "Dry" ]} demo_store).1 = 201)
    as Hok by reflexivity.
  split; [by split_and!|].
  exact (create_then_read demo_uuidv4 demo_today demo_download Setup
           (post_setup demo_uuidv4 demo_today) get_setup "u1"
           {[ "carId" := JStr "c1"; "name" := JStr "Dry" ]} demo_store
           Hcreate Hget Hfresh Hok).
Defined.

Lemma create_then_delete_witness :
  let reqBody : obj := {[ "name" := JStr "Elise" ]} in
  (create_route demo_uuidv4 demo_today demo_download Car = Some (post_car demo_uuidv4)
   ∧ route demo_download Car Delete = Some delete_car
   ∧ unused (demo_uuidv4 0) "u1" demo_store
   ∧ status (post_car demo_uuidv4 "u1" reqBody demo_store).1 = 201)
  ∧ delete_car "u1" (demo_uuidv4 0) (post_car demo_uuidv4 "u1" reqBody demo_store).2
    = (Response 204 BEmpty, demo_store).
Proof.
  cbv zeta.
  assert (create_route demo_uuidv4 demo_today demo_download Car = Some (post_car demo_uuidv4))
    as Hcreate by reflexivity.
  assert (route demo_download Car Delete = Some delete_car) as Hdelete by reflexivity.
  assert (unused (demo_uuidv4 0) "u1" demo_store) as Hunused.
  { intros f x Hx. destruct f; simpl in Hx;
      repeat (apply elem_of_cons in Hx as [->|Hx]; [vm_compute; reflexivity|]);
      by apply elem_of_nil in Hx. }
  assert (status (post_car demo_uuidv4 "u1" {[ "name" := JStr "Elise" ]} demo_store).1 = 201)
    as Hok by reflexivity.
  split; [by split_and!|].
  exact (create_then_delete demo_uuidv4 demo_today demo_download Car (post_car demo_uuidv4)
           delete_car "u1" {[ "name" := JStr "Elise" ]} demo_store
           Hcreate Hdelete Hunused Hok).
Defined.

Lemma update_idempotent_witness :
  let reqBody : obj := {[ "toeFront" := JStr "1mm"; "id" := JStr "forged" ]} in
  (route demo_download Setup (Put reqBody) = Some (fun uid rid => put_setup uid rid reqBody)
   ∧ Setup ≠ Track)
  ∧ put_setup "u1" "s1" reqBody (put_setup "u1" "s1" reqBody demo_store).2
    = put_setup "u1" "s1" reqBody demo_store.
Proof.
  cbv zeta.
  assert (route demo_download Setup (Put {[ "toeFront" := JStr "1mm"; "id" := JStr "forged" ]})
          = Some (fun uid rid =>
                    put_setup uid rid {[ "toeFront" := JStr "1mm"; "id" := JStr "forged" ]}))
    as Hroute by reflexivity.
  assert (Setup ≠ Track) as Hkind by discriminate.
  split; [by split|].
  exact (update_idempotent demo_download Setup
           {[ "toeFront" := JStr "1mm"; "id" := JStr "forged" ]} _ "u1" "s1" demo_store
           Hroute Hkind).
Defined.

Lemma update_with_empty_body_witness :
  (route demo_download Car (Put ∅) = Some (fun uid rid => put_car uid rid ∅)
   ∧ route demo_download Car Get = Some get_car
   ∧ Car ≠ Track)
  ∧ put_car "u1" "c1" ∅ demo_store = get_car "u1" "c1" demo_store
  ∧ (put_car "u1" "c1" ∅ demo_store).2 = demo_store.
Proof.
  assert (route demo_download Car (Put ∅) = Some (fun uid rid => put_car uid rid ∅))
    as Hput by reflexivity.
  assert (route demo_download Car Get = Some get_car) as Hget by reflexivity.
  assert (Car ≠ Track) as Hkind by discriminate.
  split; [by split_and!|].
  exact (update_with_empty_body demo_download Car _ get_car "u1" "c1" demo_store
           Hput Hget Hkind).
Defined.

Lemma update_then_get_witness :
  let reqBody : obj := {[ "length" := JStr "7 km"; "corners" := JArr [JStr "La Source"] ]} in
  let r := put_track demo_download "u1" "t1" reqBody demo_store in
  (route demo_download Track (Put reqBody)
     = Some (fun uid rid => put_track demo_download uid rid reqBody)
   ∧ route demo_download Track Get = Some get_track
   ∧ status r.1 = 200)
  ∧ get_track "u1" "t1" r.2 = (Response 200 (payload r.1), r.2).
Proof.
  cbv zeta.
  assert (route demo_download Track
            (Put {[ "length" := JStr "7 km"; "corners" := JArr [JStr "La Source"] ]})
          = Some (fun uid rid => put_track demo_download uid rid
                    {[ "length" := JStr "7 km"; "corners" := JArr [JStr "La Source"] ]}))
    as Hput by reflexivity.
  assert (route demo_download Track Get = Some get_track) as Hget by reflexivity.
  assert (status (put_track demo_download "u1" "t1"
                    {[ "length" := JStr "7 km"; "corners" := JArr [JStr "La Source"] ]}
                    demo_store).1 = 200) as Hok by (vm_compute; reflexivity).
  split; [by split_and!|].
  exact (update_then_get demo_download Track
           {[ "length" := JStr "7 km"; "corners" := JArr [JStr "La Source"] ]}
           _ get_track "u1" "t1" demo_store Hput Hget Hok).
Defined.

Lemma corner_note_upsert_keeps_unique_witness :
  let reqBody : obj :=
    {[ "sessionId" := JStr "e1"; "cornerName" := JStr "Turn 2"; "field" := JStr "apex";
       "value" := JStr "tight" ]} in
  corner_unique (cornerNotes demo_store)
  ∧ corner_unique (cornerNotes (post_corner_note demo_uuidv4 "u1" reqBody demo_store).2).
Proof.
  cbv zeta.
  assert (corner_unique (cornerNotes demo_store)) as Hunique.
  { intros uid sessionId cornerName i j a b Ha Hb _ _.
    destruct i as [|i], j as [|j]; simpl in Ha, Hb; done. }
  split; [exact Hunique|].
  exact (corner_note_upsert_keeps_unique demo_uuidv4 "u1"
           {[ "sessionId" := JStr "e1"; "cornerName" := JStr "Turn 2";
              "field" := JStr "apex"; "value" := JStr "tight" ]} demo_store Hunique).
Defined.

Lemma corner_note_upsert_twice_witness :
  let reqBody : obj :=
    {[ "sessionId" := JStr "e1"; "cornerName" := JStr "Turn 2"; "field" := JStr "apex";
       "value" := JStr "tight" ]} in
  let r := post_corner_note demo_uuidv4 "u1" reqBody demo_store in
  (primitive (reqBody !! "sessionId") ∧ primitive (reqBody !! "cornerName")
   ∧ status r.1 ≠ 400)
  ∧ post_corner_note demo_uuidv4 "u1" reqBody r.2 = (Response 200 (payload r.1), r.2).
Proof.
  cbv zeta.
  assert (primitive (({[ "sessionId" := JStr "e1"; "cornerName" := JStr "Turn 2";
                         "field" := JStr "apex"; "value" := JStr "tight" ]} : obj)
                       !! "sessionId")) as Hs by (vm_compute; reflexivity).
  assert (primitive (({[ "sessionId" := JStr "e1"; "cornerName" := JStr "Turn 2";
                         "field" := JStr "apex"; "value" := JStr "tight" ]} : obj)
                       !! "cornerName")) as Hc by (vm_compute; reflexivity).
  assert (status (post_corner_note demo_uuidv4 "u1"
                    {[ "sessionId" := JStr "e1"; "cornerName" := JStr "Turn 2";
                       "field" := JStr "apex"; "value" := JStr "tight" ]} demo_store).1
          ≠ 400) as Hok by (vm_compute; lia).
  split; [by split_and!|].
  exact (corner_note_upsert_twice demo_uuidv4 demo_uuidv4 "u1"
           {[ "sessionId" := JStr "e1"; "cornerName" := JStr "Turn 2";
              "field" := JStr "apex"; "value" := JStr "tight" ]} demo_store Hs Hc Hok).
Defined.

Lemma deletions_keep_notes_attached_witness :
  attached demo_accounts
  ∧ attached (delete_session "u1" "e1" demo_accounts).2
  ∧ attached (delete_user demo_compare "u1" {[ "password" := JStr "secret" ]}
                demo_accounts).2.
Proof.
  assert (attached demo_accounts) as Hattached.
  { intros cn Hcn. simpl in Hcn.
    apply elem_of_cons in Hcn as [->|Hcn].
    { exists demo_session. split_and!; [simpl; left|vm_compute; reflexivity..]. }
    apply list_elem_of_singleton in Hcn as ->.
    eexists. split_and!; [simpl; right; left|vm_compute; reflexivity..]. }
  split; [exact Hattached|].
  destruct (deletions_keep_notes_attached demo_compare "u1" demo_accounts Hattached)
    as (Hsession & Huser & _).
  split; [exact (Hsession "e1")|exact (Huser {[ "password" := JStr "secret" ]})].
Defined.

Lemma bulk_delete_summary_counts_witness :
  let r := bulk_delete "u1" (BulkRequest [JStr "c1"] []) demo_accounts in
  let sm := DeleteSummary 1 0 1 1 1 1 1 in
  r = (Response 200 (BDeleted sm), r.2)
  ∧ carsDeleted sm + length (cars r.2) = length (cars demo_accounts)
  ∧ tracksDeleted sm + length (tracks r.2) = length (tracks demo_accounts)
  ∧ setupsDeleted sm + length (setups r.2) = length (setups demo_accounts)
  ∧ sessionsDeleted sm + length (sessions r.2) = length (sessions demo_accounts)
  ∧ cornerNotesDeleted sm + length (cornerNotes r.2) = length (cornerNotes demo_accounts)
  ∧ trackNotesDeleted sm + length (trackNotes r.2) = length (trackNotes demo_accounts)
  ∧ maintenanceDeleted sm + length (maintenance r.2) = length (maintenance demo_accounts).
Proof.
  cbv zeta.
  assert (bulk_delete "u1" (BulkRequest [JStr "c1"] []) demo_accounts
          = (Response 200 (BDeleted (DeleteSummary 1 0 1 1 1 1 1)),
             (bulk_delete "u1" (BulkRequest [JStr "c1"] []) demo_accounts).2)) as Hrun
    by (vm_compute; reflexivity).
  split; [exact Hrun|].
  exact (bulk_delete_summary_counts "u1" (BulkRequest [JStr "c1"] []) demo_accounts _ _ Hrun).
Defined.

Lemma bulk_delete_of_foreign_ids_witness :
  let req := BulkRequest [JStr "c1"] [JStr "t1"; JStr "nowhere"] in
  (b_carIds req ≠ [] ∨ b_trackIds req ≠ [])
  ∧ bulk_delete "u2" req demo_accounts
    = (Response 200 (BDeleted (DeleteSummary 0 0 0 0 0 0 0)), demo_accounts).
Proof.
  cbv zeta.
  assert (b_carIds (BulkRequest [JStr "c1"] [JStr "t1"; JStr "nowhere"]) ≠ []
          ∨ b_trackIds (BulkRequest [JStr "c1"] [JStr "t1"; JStr "nowhere"]) ≠ []) as Hsome
    by (left; discriminate).
  assert (∀ c, c ∈ cars demo_accounts → owned "u2" c = true →
               includes (List.map Some (b_carIds (BulkRequest [JStr "c1"]
                                                    [JStr "t1"; JStr "nowhere"])))
                 (id_of c) = false) as Hcars.
  { intros c Hc Ho. simpl in Hc. apply list_elem_of_singleton in Hc as ->.
    by vm_compute in Ho. }
  assert (∀ t, t ∈ tracks demo_accounts → owned "u2" t = true →
               includes (List.map Some (b_trackIds (BulkRequest [JStr "c1"]
                                                      [JStr "t1"; JStr "nowhere"])))
                 (id_of t) = false) as Htracks.
  { intros t Ht Ho. simpl in Ht. apply list_elem_of_singleton in Ht as ->.
    by vm_compute in Ho. }
  split; [exact Hsome|].
  exact (bulk_delete_of_foreign_ids "u2" (BulkRequest [JStr "c1"] [JStr "t1"; JStr "nowhere"])
           demo_accounts Hsome Hcars Htracks).
Defined.

Lemma import_summary_accounts_witness :
  let req := ImportRequest (Some demo_import_envelope) (str "preserve") in
  let r := import demo_uuidv4 demo_extname "u1" req demo_accounts in
  let sm := ImportSummary 1 1 0 0 1 1 1 0 1 0 0 0 0 in
  (data demo_import_envelope = Some demo_import_data
   ∧ r = (Response 200 (BImported sm), r.2))
  ∧ carsImported sm + carsSkipped sm = length (present (d_cars demo_import_data))
  ∧ setupsImported sm + setupsSkipped sm = length (present (d_setups demo_import_data))
  ∧ sessionsImported sm + sessionsSkipped sm
    = length (present (d_sessions demo_import_data)).
Proof.
  cbv zeta.
  assert (data demo_import_envelope = Some demo_import_data) as Hdata by reflexivity.
  assert (import demo_uuidv4 demo_extname "u1"
            (ImportRequest (Some demo_import_envelope) (str "preserve")) demo_accounts
          = (Response 200 (BImported (ImportSummary 1 1 0 0 1 1 1 0 1 0 0 0 0)),
             (import demo_uuidv4 demo_extname "u1"
                (ImportRequest (Some demo_import_envelope) (str "preserve"))
                demo_accounts).2)) as Hrun by (vm_compute; reflexivity).
  split; [by split|].
  destruct (import_summary_accounts demo_uuidv4 demo_extname "u1" demo_import_envelope
              demo_import_data (str "preserve") demo_accounts _ _ Hdata Hrun)
    as (Hcars & _ & Hsetups & Hsessions & _).
  split_and!; [exact Hcars|exact Hsetups|exact Hsessions].
Defined.

Lemma import_preserve_appends_witness :
  let req := ImportRequest (Some demo_import_envelope) (str "preserve") in
  let r := import demo_uuidv4 demo_extname "u1" req demo_accounts in
  let sm := ImportSummary 1 1 0 0 1 1 1 0 1 0 0 0 0 in
  (data demo_import_envelope = Some demo_import_data
   ∧ r = (Response 200 (BImported sm), r.2))
  ∧ ∀ f, ∃ added,
      readJsonFile f r.2 = readJsonFile f demo_accounts ++ added
      ∧ length added = imported_into f sm
      ∧ ∀ x, x ∈ added → userId_of x = str "u1".
Proof.
  cbv zeta.
  assert (data demo_import_envelope = Some demo_import_data) as Hdata by reflexivity.
  assert (import demo_uuidv4 demo_extname "u1"
            (ImportRequest (Some demo_import_envelope) (str "preserve")) demo_accounts
          = (Response 200 (BImported (ImportSummary 1 1 0 0 1 1 1 0 1 0 0 0 0)),
             (import demo_uuidv4 demo_extname "u1"
                (ImportRequest (Some demo_import_envelope) (str "preserve"))
                demo_accounts).2)) as Hrun by (vm_compute; reflexivity).
  split; [by split|].
  exact (import_preserve_appends demo_uuidv4 demo_extname "u1" demo_import_envelope
           demo_import_data demo_accounts _ _ Hdata Hrun).
Defined.

Lemma import_keeps_others_witness :
  let req := ImportRequest (Some demo_import_envelope) (str "overwrite") in
  (∀ f, ids_not_shared "u1" (readJsonFile f demo_accounts))
  ∧ ∀ f, List.filter (not_owned "u1")
           (readJsonFile f (import demo_uuidv4 demo_extname "u1" req demo_accounts).2)
         = List.filter (not_owned "u1") (readJsonFile f demo_accounts).
Proof.
  cbv zeta.
  assert (∀ f, ids_not_shared "u1" (readJsonFile f demo_accounts)) as Hshare.
  { intros f x y Hx Hy Ho Hid.
    destruct f; simpl in Hx, Hy;
      repeat (apply elem_of_cons in Hx as [->|Hx]); try (by apply elem_of_nil in Hx);
      repeat (apply elem_of_cons in Hy as [->|Hy]); try (by apply elem_of_nil in Hy);
      first [ by vm_compute in Hid | by vm_compute in Ho | vm_compute; reflexivity ]. }
  split; [exact Hshare|].
  exact (import_keeps_others demo_uuidv4 demo_extname "u1"
           (ImportRequest (Some demo_import_envelope) (str "overwrite")) demo_accounts Hshare).
Defined.

Lemma register_keeps_usernames_unique_witness :
  let r := register demo_uuidv4 demo_now demo_toLowerCase demo_hash demo_number_below
             (str "Cid") (str "topsecret") demo_accounts in
  let r0 := register demo_uuidv4 demo_now demo_toLowerCase demo_hash demo_number_below
              (Some (JNum 12345)) (str "secret1") empty_store in
  (unique_usernames demo_toLowerCase (users demo_accounts)
   ∧ status r.1 = 201
   ∧ unique_usernames demo_toLowerCase (users r.2)
   ∧ (∀ f, f ≠ users_json → readJsonFile f r.2 = readJsonFile f demo_accounts)
   ∧ ∃ u, users r.2 = users demo_accounts ++ [u] ∧ u !! "username" = str "Cid"
          ∧ id_of u = str (demo_uuidv4 0))
  ∧ (unique_usernames demo_toLowerCase (users empty_store)
     ∧ status r0.1 = 201
     ∧ ¬ unique_usernames demo_toLowerCase (users r0.2)
     ∧ ∃ u, users r0.2 = [u] ∧ u !! "username" = Some (JNum 12345)).
Proof.
  cbv zeta.
  assert (unique_usernames demo_toLowerCase (users demo_accounts)) as Hunique.
  { split.
    - intros u Hu. simpl in Hu.
      repeat (apply elem_of_cons in Hu as [->|Hu]; [by eexists|]).
      by apply elem_of_nil in Hu.
    - change (NoDup [Some "ann"; Some "bob"]).
      apply NoDup_cons. split; [|apply NoDup_singleton].
      intros Hin. apply list_elem_of_singleton in Hin. discriminate. }
  assert (unique_usernames demo_toLowerCase (users empty_store)) as Hempty.
  { split; [by intros u Hu%elem_of_nil|apply NoDup_nil_2]. }
  assert (status (register demo_uuidv4 demo_now demo_toLowerCase demo_hash demo_number_below
                    (str "Cid") (str "topsecret") demo_accounts).1 = 201) as Hok
    by (vm_compute; reflexivity).
  assert (status (register demo_uuidv4 demo_now demo_toLowerCase demo_hash demo_number_below
                    (Some (JNum 12345)) (str "secret1") empty_store).1 = 201) as Hok0
    by (vm_compute; reflexivity).
  destruct (register_keeps_usernames_unique demo_uuidv4 demo_now demo_toLowerCase demo_hash
              demo_number_below (str "Cid") (str "topsecret") demo_accounts Hunique)
    as (Hiff & Hframe & Hcase).
  destruct (register_keeps_usernames_unique demo_uuidv4 demo_now demo_toLowerCase demo_hash
              demo_number_below (Some (JNum 12345)) (str "secret1") empty_store Hempty)
    as (Hiff0 & _ & Hcase0).
  split.
  - split_and!; [exact Hunique|exact Hok| |exact Hframe|].
    + apply Hiff. right. by eexists.
    + destruct Hcase as [[Hbad _]|(_ & u & Hu & Hname & Hid & _)]; [by destruct Hbad|].
      by exists u.
  - split_and!; [exact Hempty|exact Hok0| |].
    + intros [Hbad|[name Hname]]%Hiff0; [by destruct Hbad|discriminate].
    + destruct Hcase0 as [[Hbad _]|(_ & u & Hu & Hname & _)]; [by destruct Hbad|].
      by exists u.
Defined.

Lemma register_then_login_witness :
  let s := LoginSession None None in
  let r := register demo_uuidv4 demo_now demo_toLowerCase demo_hash demo_number_below
             (str "Cid") (str "topsecret") demo_accounts in
  let r0 := register demo_uuidv4 demo_now demo_toLowerCase demo_hash demo_number_below
              (Some (JNum 12345)) (str "secret1") empty_store in
  ((∀ p h, demo_hash p = Some h → demo_compare (str p) (str h) = Some true)
   ∧ status r.1 = 201
   ∧ demo_toLowerCase "CID" = demo_toLowerCase "Cid" ∧ "CID" ≠ "")
  ∧ login demo_toLowerCase demo_compare (Credentials (Some "CID") (Some "topsecret")) s r.2
    = (Response 200 (BRecord {[ "message" := JStr "Login successful";
                                "username" := JStr "Cid" ]}),
       LoginSession (str (demo_uuidv4 0)) (str "Cid"))
  ∧ (status r0.1 = 201 ∧ (∀ name, Some (JNum 12345) ≠ str name))
  ∧ status (login demo_toLowerCase demo_compare
              (Credentials (Some "12345") (Some "secret1")) s r0.2).1 ≠ 200.
Proof.
  cbv zeta.
  assert (∀ p h, demo_hash p = Some h → demo_compare (str p) (str h) = Some true)
    as Hbcrypt.
  { intros p h Hh. injection Hh as <-. simpl. by rewrite String.eqb_refl. }
  assert (demo_toLowerCase "CID" = demo_toLowerCase "Cid") as Hlower by reflexivity.
  assert ("CID" ≠ "") as Hname by discriminate.
  assert (status (register demo_uuidv4 demo_now demo_toLowerCase demo_hash demo_number_below
                    (str "Cid") (str "topsecret") demo_accounts).1 = 201)
    as Hok by (vm_compute; reflexivity).
  assert (status (register demo_uuidv4 demo_now demo_toLowerCase demo_hash demo_number_below
                    (Some (JNum 12345)) (str "secret1") empty_store).1 = 201) as Hok0
    by (vm_compute; reflexivity).
  assert (∀ name, Some (JNum 12345) ≠ str name) as Hnot by (intros name; discriminate).
  split; [by split_and!|]. split; [|split; [by split|]].
  - exact (proj1 (register_then_login demo_uuidv4 demo_now demo_toLowerCase demo_hash
                    demo_compare demo_number_below (str "Cid") (str "topsecret")
                    (LoginSession None None) demo_accounts Hbcrypt Hok)
             "Cid" "CID" "topsecret" eq_refl eq_refl Hlower Hname).
  - exact (proj1 (proj2 (register_then_login demo_uuidv4 demo_now demo_toLowerCase demo_hash
                           demo_compare demo_number_below (Some (JNum 12345)) (str "secret1")
                           (LoginSession None None) empty_store Hbcrypt Hok0)
                    Hnot (Credentials (Some "12345") (Some "secret1")))).
Defined.

Lemma deleted_account_cannot_login_witness :
  let s := LoginSession None None in
  let reqBody : obj := {[ "password" := JStr "secret" ]} in
  let r := delete_user demo_compare "u1" reqBody demo_accounts in
  (unique_usernames demo_toLowerCase (users demo_accounts)
   ∧ demo_account "u1" "Ann" "secret" ∈ users demo_accounts
   ∧ id_of (demo_account "u1" "Ann" "secret") = str "u1"
   ∧ demo_account "u1" "Ann" "secret" !! "username" = str "Ann"
   ∧ demo_toLowerCase "ANN" = demo_toLowerCase "Ann"
   ∧ "ANN" ≠ "" ∧ "secret" ≠ ""
   ∧ status r.1 = 200)
  ∧ login demo_toLowerCase demo_compare (Credentials (Some "ANN") (Some "secret")) s r.2
    = (error 401 "Invalid username or password", s).
Proof.
  cbv zeta.
  assert (unique_usernames demo_toLowerCase (users demo_accounts)) as Hunique.
  { split.
    - intros u Hu. simpl in Hu.
      repeat (apply elem_of_cons in Hu as [->|Hu]; [by eexists|]).
      by apply elem_of_nil in Hu.
    - change (NoDup [Some "ann"; Some "bob"]).
      apply NoDup_cons. split; [|apply NoDup_singleton].
      intros Hin. apply list_elem_of_singleton in Hin. discriminate. }
  assert (demo_account "u1" "Ann" "secret" ∈ users demo_accounts) as Hin by (simpl; left).
  assert (id_of (demo_account "u1" "Ann" "secret") = str "u1") as Hid
    by (vm_compute; reflexivity).
  assert (demo_account "u1" "Ann" "secret" !! "username" = str "Ann") as Hname
    by (vm_compute; reflexivity).
  assert (demo_toLowerCase "ANN" = demo_toLowerCase "Ann") as Hlower by reflexivity.
  assert ("ANN" ≠ "") as Hn by discriminate.
  assert ("secret" ≠ "") as Hp by discriminate.
  assert (status (delete_user demo_compare "u1" {[ "password" := JStr "secret" ]}
                    demo_accounts).1 = 200) as Hok by (vm_compute; reflexivity).
  split; [by split_and!|].
  exact (deleted_account_cannot_login demo_toLowerCase demo_compare "u1"
           {[ "password" := JStr "secret" ]} demo_accounts (demo_account "u1" "Ann" "secret")
           "Ann" "ANN" "secret" (LoginSession None None)
           Hunique Hin Hid Hname Hlower Hn Hp Hok).
Defined.

Lemma put_username_keeps_unique_witness :
  let s := LoginSession (str "u1") (str "Ann") in
  let r := put_username demo_toLowerCase (Some "Anna") s demo_accounts in
  (unique_usernames demo_toLowerCase (users demo_accounts)
   ∧ distinct_user_ids (users demo_accounts))
  ∧ unique_usernames demo_toLowerCase (users r.1.2)
  ∧ status r.1.1 = 200
  ∧ r.2 = LoginSession (str "u1") (str "Anna").
Proof.
  cbv zeta.
  assert (unique_usernames demo_toLowerCase (users demo_accounts)) as Hunique.
  { split.
    - intros u Hu. simpl in Hu.
      repeat (apply elem_of_cons in Hu as [->|Hu]; [by eexists|]).
      by apply elem_of_nil in Hu.
    - change (NoDup [Some "ann"; Some "bob"]).
      apply NoDup_cons. split; [|apply NoDup_singleton].
      intros Hin. apply list_elem_of_singleton in Hin. discriminate. }
  assert (distinct_user_ids (users demo_accounts)) as Hids.
  { intros i j x y Hx Hy Hid.
    destruct i as [|[|i]], j as [|[|j]]; simpl in Hx, Hy; try done;
      injection Hx as <-; injection Hy as <-; by vm_compute in Hid. }
  split; [by split|].
  destruct (put_username_keeps_unique demo_toLowerCase (Some "Anna")
              (LoginSession (str "u1") (str "Ann")) demo_accounts Hunique Hids)
    as [Hafter _].
  split; [exact Hafter|]. split; vm_compute; reflexivity.
Defined.

Lemma put_password_then_login_witness :
  let s := LoginSession (str "u1") (str "Ann") in
  let s' := LoginSession None None in
  let u := demo_account "u1" "Ann" "secret" in
  let r := put_password demo_hash demo_compare (Some "secret") (Some "new-secret") s
             demo_accounts in
  (unique_usernames demo_toLowerCase (users demo_accounts)
   ∧ distinct_user_ids (users demo_accounts)
   ∧ (∀ p h, demo_hash p = Some h → demo_compare (str p) (str h) = Some true)
   ∧ u ∈ users demo_accounts
   ∧ strict_eq (id_of u) (s_userId s) = true
   ∧ u !! "username" = str "Ann" ∧ "Ann" ≠ "")
  ∧ status r.1 = 200
  ∧ ∃ newPassword, Some "new-secret" = Some newPassword
      ∧ login demo_toLowerCase demo_compare (Credentials (Some "Ann") (Some newPassword)) s' r.2
        = (Response 200 (BRecord {[ "message" := JStr "Login successful";
                                    "username" := JStr "Ann" ]}),
           LoginSession (id_of u) (str "Ann")).
Proof.
  cbv zeta.
  assert (unique_usernames demo_toLowerCase (users demo_accounts)) as Hunique.
  { split.
    - intros u Hu. simpl in Hu.
      repeat (apply elem_of_cons in Hu as [->|Hu]; [by eexists|]).
      by apply elem_of_nil in Hu.
    - change (NoDup [Some "ann"; Some "bob"]).
      apply NoDup_cons. split; [|apply NoDup_singleton].
      intros Hin. apply list_elem_of_singleton in Hin. discriminate. }
  assert (distinct_user_ids (users demo_accounts)) as Hids.
  { intros i j x y Hx Hy Hid.
    destruct i as [|[|i]], j as [|[|j]]; simpl in Hx, Hy; try done;
      injection Hx as <-; injection Hy as <-; by vm_compute in Hid. }
  assert (∀ p h, demo_hash p = Some h → demo_compare (str p) (str h) = Some true)
    as Hbcrypt.
  { intros p h Hh. injection Hh as <-. simpl. by rewrite String.eqb_refl. }
  assert (demo_account "u1" "Ann" "secret" ∈ users demo_accounts) as Hin by (simpl; left).
  assert (strict_eq (id_of (demo_account "u1" "Ann" "secret"))
            (s_userId (LoginSession (str "u1") (str "Ann"))) = true) as Hid
    by (vm_compute; reflexivity).
  assert (demo_account "u1" "Ann" "secret" !! "username" = str "Ann") as Hname
    by (vm_compute; reflexivity).
  assert ("Ann" ≠ "") as Hn by discriminate.
  assert (status (put_password demo_hash demo_compare (Some "secret") (Some "new-secret")
                    (LoginSession (str "u1") (str "Ann")) demo_accounts).1 = 200) as Hok
    by (vm_compute; reflexivity).
  split; [by split_and!|]. split; [exact Hok|].
  destruct (put_password_then_login demo_toLowerCase demo_hash demo_compare
              (Some "secret") (Some "new-secret") (LoginSession (str "u1") (str "Ann"))
              (LoginSession None None) demo_accounts (demo_account "u1" "Ann" "secret") "Ann"
              Hunique Hids Hbcrypt Hin Hid Hname Hn) as [_ Hdone].
  destruct (Hdone Hok) as (_ & _ & Hlogin). exact Hlogin.
Defined.

Lemma delete_track_cascade_witness :
  (demo_track ∈ tracks demo_store ∧ id_of demo_track = str "t1"
   ∧ userId_of demo_track = str "u1")
  ∧ status (delete_track "u1" "t1" demo_store).1 = 204
  ∧ length (setups (delete_track "u1" "t1" demo_store).2) = length (setups demo_store)
  ∧ ∀ s, s ∈ setups (delete_track "u1" "t1" demo_store).2 →
         ¬ (trackId_of s = str "t1" ∧ userId_of s = str "u1").
Proof.
  assert (demo_track ∈ tracks demo_store) as Hin by (simpl; left).
  assert (id_of demo_track = str "t1") as Hid by (vm_compute; reflexivity).
  assert (userId_of demo_track = str "u1") as Hu by (vm_compute; reflexivity).
  split; [by split_and!|].
  destruct (delete_track_cascade "u1" "t1" demo_store demo_track Hin Hid Hu)
    as (Hstatus & _ & Hlength & _ & Hclear & _).
  split_and!; [exact Hstatus|exact Hlength|exact Hclear].
Defined.

Lemma delete_then_gone_witness :
  (route demo_download Setup Delete = Some delete_setup
   ∧ route demo_download Setup Get = Some get_setup
   ∧ distinct_ids "u1" (readJsonFile (collection Setup) demo_store)
   ∧ status (delete_setup "u1" "s1" demo_store).1 = 204)
  ∧ NotFound (get_setup "u1" "s1" (delete_setup "u1" "s1" demo_store).2).1
  ∧ NotFound (delete_setup "u1" "s1" (delete_setup "u1" "s1" demo_store).2).1.
Proof.
  assert (route demo_download Setup Delete = Some delete_setup) as Hdelete by reflexivity.
  assert (route demo_download Setup Get = Some get_setup) as Hget by reflexivity.
  assert (distinct_ids "u1" (readJsonFile (collection Setup) demo_store)) as Hdistinct
    by (apply NoDup_singleton).
  assert (status (delete_setup "u1" "s1" demo_store).1 = 204) as Hok
    by (vm_compute; reflexivity).
  split; [by split_and!|].
  exact (delete_then_gone demo_download Setup delete_setup get_setup "u1" "s1" demo_store
           Hdelete Hget Hdistinct Hok).
Defined.

Lemma corner_note_three_fields_witness :
  let r1 := post_corner_note demo_uuidv4 "u1"
              (corner_request (JStr "e1") (JStr "Turn 2") "entry" (str "late")) demo_store in
  let r2 := post_corner_note demo_uuidv4 "u1"
              (corner_request (JStr "e1") (JStr "Turn 2") "apex" None) r1.2 in
  let r3 := post_corner_note demo_uuidv4 "u1"
              (corner_request (JStr "e1") (JStr "Turn 2") "exit" (str "flat")) r2.2 in
  (truthy (str "e1") = true ∧ truthy (str "Turn 2") = true
   ∧ primitive (str "e1") ∧ primitive (str "Turn 2")
   ∧ ∀ x, x ∈ cornerNotes demo_store → same_corner (str "e1") (str "Turn 2") "u1" x = false)
  ∧ status r1.1 = 201 ∧ status r2.1 = 200 ∧ status r3.1 = 200
  ∧ ∃ note,
      payload r3.1 = BRecord note
      ∧ cornerNotes r3.2 = cornerNotes demo_store ++ [note]
      ∧ id_of note = str (demo_uuidv4 0) ∧ userId_of note = str "u1"
      ∧ sessionId_of note = str "e1" ∧ note !! "cornerName" = str "Turn 2"
      ∧ note !! "entry" = js_or (str "late") (str "")
      ∧ note !! "apex" = js_or None (str "")
      ∧ note !! "exit" = js_or (str "flat") (str "").
Proof.
  cbv zeta.
  assert (truthy (str "e1") = true) as Hs by reflexivity.
  assert (truthy (str "Turn 2") = true) as Hc by reflexivity.
  assert (primitive (str "e1")) as Hps by (vm_compute; reflexivity).
  assert (primitive (str "Turn 2")) as Hpc by (vm_compute; reflexivity).
  assert (∀ x, x ∈ cornerNotes demo_store →
               same_corner (str "e1") (str "Turn 2") "u1" x = false) as Hfresh.
  { intros x Hx. simpl in Hx. apply list_elem_of_singleton in Hx as ->.
    vm_compute. reflexivity. }
  split; [by split_and!|].
  exact (corner_note_three_fields demo_uuidv4 demo_uuidv4 demo_uuidv4 "u1"
           (JStr "e1") (JStr "Turn 2") (str "late") None (str "flat") demo_store
           Hs Hc Hps Hpc Hfresh).
Defined.
